(** * Multi-asset portfolio tracker: consolidation, refresh and screening

    A shallow embedding of three services of the backend, written after the
    Python sources:

    - [services/portfolio_service.py]: the per-source converters, the
      deduplication of securities and the merge rule, the summary and the
      consolidation;
    - [services/portfolio_refresh_service.py]: the price lookup, the
      per-holding price update, the single-user refresh and the batch
      refresh;
    - [services/screening_service.py]: the two query adapters, the filter
      evaluator, the sort key and the pagination.

    Python values that come from JSON documents are modelled by [pyval];
    numbers are exact rationals (rounding of binary floating point is not
    modelled, and [int] and [float] are one constructor).  A Python exception
    is a value of [exn] carried by [result]; a [try]/[except Exception] block
    is a [match] on the result. *)

From Stdlib Require Import String Ascii List ZArith QArith Bool Lia Permutation.
From Stdlib Require Import DecimalString.
Import ListNotations.

Open Scope string_scope.
Open Scope Z_scope.

(** ** Python runtime model *)

Module Py.

(** Exceptions raised by the operations used in the sources. *)
Inductive exn : Type :=
| KeyError
| TypeError
| ValueError
| AttributeError
| ZeroDivisionError
| ConnectionError.

Inductive result (A : Type) : Type :=
| Ok (a : A)
| Raise (e : exn).

Arguments Ok {A} a.
Arguments Raise {A} e.

Definition bind {A B : Type} (m : result A) (f : A -> result B) : result B :=
  match m with
  | Ok a => f a
  | Raise e => Raise e
  end.

Definition is_ok {A : Type} (m : result A) : bool :=
  match m with
  | Ok _ => true
  | Raise _ => false
  end.

(** Insertion-ordered dictionaries: [d[k] = v] overwrites the entry of an equal
    key in place and appends a new key at the end, as a Python [dict] does. *)
Section Assoc.
Context {K V : Type}.
Variable keq : K -> K -> bool.

Fixpoint assoc_get (d : list (K * V)) (k : K) : option V :=
  match d with
  | [] => None
  | (k', v) :: d' => if keq k' k then Some v else assoc_get d' k
  end.

Fixpoint assoc_set (d : list (K * V)) (k : K) (v : V) : list (K * V) :=
  match d with
  | [] => [(k, v)]
  | (k', v') :: d' =>
      if keq k' k then (k', v) :: d' else (k', v') :: assoc_set d' k v
  end.
End Assoc.

(** Dictionaries with [str] keys (JSON objects). *)
Definition dict (V : Type) : Type := list (string * V).

Definition dict_get {V : Type} (d : dict V) (k : string) : option V :=
  assoc_get String.eqb d k.

Definition dict_set {V : Type} (d : dict V) (k : string) (v : V) : dict V :=
  assoc_set String.eqb d k v.

Definition dict_mem {V : Type} (d : dict V) (k : string) : bool :=
  match dict_get d k with
  | Some _ => true
  | None => false
  end.

#[warnings="-register-all"]
Inductive pyval : Type :=
| VNone
| VBool (b : bool)
| VNum (q : Q)
| VStr (s : string)
| VList (l : list pyval)
| VDict (d : list (string * pyval)).

(** [d.get(k, default)] *)
Definition dict_get_default (d : dict pyval) (k : string) (default : pyval) : pyval :=
  match dict_get d k with
  | Some v => v
  | None => default
  end.

(** [bool(v)] *)
Definition truthy (v : pyval) : bool :=
  match v with
  | VNone => false
  | VBool b => b
  | VNum q => negb (Qeq_bool q 0)
  | VStr s => negb (String.eqb s "")
  | VList l => match l with [] => false | _ :: _ => true end
  | VDict d => match d with [] => false | _ :: _ => true end
  end.

(** The number a value stands for in arithmetic and comparisons
    ([bool] is a subtype of [int]). *)
Definition num_of (v : pyval) : option Q :=
  match v with
  | VBool b => Some (if b then 1%Q else 0%Q)
  | VNum q => Some q
  | _ => None
  end.

(** [a == b] *)
Fixpoint py_eq (a b : pyval) {struct a} : bool :=
  match a, b with
  | VNone, VNone => true
  | VStr s, VStr t => String.eqb s t
  | VList l, VList m =>
      (fix go (l m : list pyval) {struct l} : bool :=
         match l, m with
         | [], [] => true
         | x :: l', y :: m' => py_eq x y && go l' m'
         | _, _ => false
         end) l m
  | VDict d, VDict e =>
      Nat.eqb (List.length d) (List.length e) &&
      (fix go (d : list (string * pyval)) {struct d} : bool :=
         match d with
         | [] => true
         | (k, v) :: d' =>
             match dict_get e k with
             | Some w => py_eq v w
             | None => false
             end && go d'
         end) d
  | VBool x, VBool y => Bool.eqb x y
  | VBool x, VNum q => Qeq_bool (if x then 1 else 0) q
  | VNum p, VBool y => Qeq_bool p (if y then 1 else 0)
  | VNum p, VNum q => Qeq_bool p q
  | _, _ => false
  end.

(** Values that can be dictionary keys; the others raise [TypeError]
    (unhashable type) when used as one. *)
Definition hashable (v : pyval) : bool :=
  match v with
  | VList _ | VDict _ => false
  | _ => true
  end.

(** [a < b] *)
Fixpoint py_lt (a b : pyval) {struct a} : result bool :=
  match a, b with
  | VStr s, VStr t =>
      Ok (match String.compare s t with Lt => true | _ => false end)
  | VList l, VList m =>
      (fix go (l m : list pyval) {struct l} : result bool :=
         match l, m with
         | [], [] => Ok false
         | [], _ :: _ => Ok true
         | _ :: _, [] => Ok false
         | x :: l', y :: m' => if py_eq x y then go l' m' else py_lt x y
         end) l m
  | _, _ =>
      match num_of a, num_of b with
      | Some p, Some q => Ok (negb (Qle_bool q p))
      | _, _ => Raise TypeError
      end
  end.

(** [a > b] *)
Definition py_gt (a b : pyval) : result bool := py_lt b a.

(** [x in c] *)
Definition py_in (x c : pyval) : result bool :=
  match c with
  | VList l => Ok (existsb (fun y => py_eq y x) l)
  | VDict d =>
      match x with
      | VStr k => Ok (dict_mem d k)
      | VList _ | VDict _ => Raise TypeError
      | _ => Ok false
      end
  | VStr t =>
      match x with
      | VStr s => Ok (match String.index 0 s t with Some _ => true | None => false end)
      | _ => Raise TypeError
      end
  | _ => Raise TypeError
  end.

(** [c[k]] for a [str] key [k]: only a dictionary can be indexed by a
    string. *)
Definition py_getitem (c : pyval) (k : string) : result pyval :=
  match c with
  | VDict d =>
      match dict_get d k with
      | Some v => Ok v
      | None => Raise KeyError
      end
  | _ => Raise TypeError
  end.

(** [c.get(k, default)]: an attribute of dictionaries only. *)
Definition py_get (c : pyval) (k : string) (default : pyval) : result pyval :=
  match c with
  | VDict d => Ok (dict_get_default d k default)
  | _ => Raise AttributeError
  end.

(** Arithmetic on numbers; results are kept in lowest terms.  An operand
    that is no number raises [TypeError]: the repetition and the
    concatenation of sequences, which [*] and [+] also denote, are outside
    the model. *)
Definition py_arith (op : Q -> Q -> Q) (a b : pyval) : result pyval :=
  match num_of a, num_of b with
  | Some p, Some q => Ok (VNum (Qred (op p q)))
  | _, _ => Raise TypeError
  end.

Definition py_add : pyval -> pyval -> result pyval := py_arith Qplus.
Definition py_sub : pyval -> pyval -> result pyval := py_arith Qminus.
Definition py_mul : pyval -> pyval -> result pyval := py_arith Qmult.

(** [a / b] *)
Definition py_div (a b : pyval) : result pyval :=
  match num_of a, num_of b with
  | Some p, Some q =>
      if Qeq_bool q 0 then Raise ZeroDivisionError else Ok (VNum (Qred (p / q)))
  | _, _ => Raise TypeError
  end.

End Py.

Export Py.

Notation "x <- m ;; k" := (bind m (fun x => k))
  (at level 61, m at next level, right associativity).

(** ** services/portfolio_service.py *)

(** The [Security] dataclass.  The text fields hold whatever the raw record
    held (Python does not check the annotations); the numeric fields are the
    results of [float(...)]; [last_updated] is a time stamp (microseconds). *)
Record Security : Type := mkSecurity {
  symbol : pyval;
  name : pyval;
  quantity : Q;
  avg_price : Q;
  current_price : Q;
  market_value : Q;
  pnl : Q;
  pnl_percentage : Q;
  security_type : pyval;
  isin : pyval;
  source : string;
  last_updated : option Z
}.

(** [Security.__post_init__]: a missing time stamp becomes the time of the
    call. *)
Definition __post_init__ (now : Z) (s : Security) : Security :=
  match last_updated s with
  | None =>
      mkSecurity (symbol s) (name s) (quantity s) (avg_price s) (current_price s)
        (market_value s) (pnl s) (pnl_percentage s) (security_type s) (isin s)
        (source s) (Some now)
  | Some _ => s
  end.

Section Converters.

(** Python's [float] on a [str]: the number the text denotes, or [None]
    where [float] raises [ValueError]. *)
Variable float_of_str : string -> option Q.

(** [float(v)].  A number is taken as it is: the rounding of an [int]
    beyond 2^53 and the [OverflowError] on one beyond the range of a
    float are not modelled. *)
Definition py_float (v : pyval) : result Q :=
  match v with
  | VNum q => Ok q
  | VBool b => Ok (if b then 1%Q else 0%Q)
  | VStr s =>
      match float_of_str s with
      | Some q => Ok q
      | None => Raise ValueError
      end
  | VNone | VList _ | VDict _ => Raise TypeError
  end.

(** [float(item.get(k, 0))] *)
Definition raw_number (item : dict pyval) (k : string) : result Q :=
  py_float (dict_get_default item k (VNum 0)).

(** The body the three converters share: they differ in the [source] tag
    only. *)
Definition security_of_item (tag : string) (now : Z) (item : dict pyval)
  : result Security :=
  q <- raw_number item "quantity" ;;
  a <- raw_number item "avg_price" ;;
  c <- raw_number item "current_price" ;;
  m <- raw_number item "market_value" ;;
  p <- raw_number item "pnl" ;;
  pp <- raw_number item "pnl_percentage" ;;
  Ok (__post_init__ now
        (mkSecurity
           (dict_get_default item "symbol" (VStr ""))
           (dict_get_default item "name" (VStr ""))
           q a c m p pp
           (dict_get_default item "security_type" (VStr "STOCK"))
           (dict_get_default item "isin" VNone)
           tag
           None)).

(** [try: return Security(...) except Exception: return None] *)
Definition _convert_fyers_to_security (now : Z) (item : dict pyval)
  : option Security :=
  match security_of_item "FYERS" now item with
  | Ok s => Some s
  | Raise _ => None
  end.

Definition _convert_cas_to_security (now : Z) (item : dict pyval)
  : option Security :=
  match security_of_item "CAS" now item with
  | Ok s => Some s
  | Raise _ => None
  end.

Definition _convert_manual_to_security (now : Z) (item : dict pyval)
  : option Security :=
  match security_of_item "MANUAL" now item with
  | Ok s => Some s
  | Raise _ => None
  end.

(** One of the three loops of [consolidate_portfolio]: convert every item,
    keep the ones that converted.  [clock n] is the time read by the [n]-th
    conversion; [tick] counts the conversions made so far. *)
Fixpoint convert_items (conv : Z -> dict pyval -> option Security)
    (clock : nat -> Z) (tick : nat) (items : list (dict pyval))
  : list Security :=
  match items with
  | [] => []
  | item :: rest =>
      match conv (clock tick) item with
      | Some security => security :: convert_items conv clock (S tick) rest
      | None => convert_items conv clock (S tick) rest
      end
  end.

End Converters.

(** [priority.get(source, 0)] with
    [priority = {'FYERS': 3, 'CAS': 2, 'MANUAL': 1}]. *)
Definition priority (src : string) : Z :=
  if String.eqb src "FYERS" then 3
  else if String.eqb src "CAS" then 2
  else if String.eqb src "MANUAL" then 1
  else 0.

Definition _merge_securities (existing new : Security) : Security :=
  if priority (source existing) <? priority (source new) then new
  else
    match last_updated new, last_updated existing with
    | Some t_new, Some t_existing =>
        if t_existing <? t_new then new else existing
    | _, _ => existing
    end.

(** [key = security.isin if security.isin else security.symbol] *)
Definition identity_key (security : Security) : pyval :=
  if truthy (isin security) then isin security else symbol security.

(** The loop of [_deduplicate_securities] over the dictionary [grouped];
    a key that cannot be hashed raises [TypeError]. *)
Fixpoint group_securities (grouped : list (pyval * Security))
    (securities : list Security) : result (list (pyval * Security)) :=
  match securities with
  | [] => Ok grouped
  | security :: rest =>
      let key := identity_key security in
      if hashable key then
        match assoc_get py_eq grouped key with
        | Some existing =>
            group_securities
              (assoc_set py_eq grouped key (_merge_securities existing security))
              rest
        | None => group_securities (assoc_set py_eq grouped key security) rest
        end
      else Raise TypeError
  end.

Definition _deduplicate_securities (securities : list Security)
  : result (list Security) :=
  grouped <- group_securities [] securities ;;
  Ok (map snd grouped).

(** The part of [consolidate_portfolio] that builds the consolidated list:
    the three conversion loops in the order FYERS, CAS, manual, then the
    deduplication. *)
Definition consolidate_securities (float_of_str : string -> option Q)
    (clock : nat -> Z) (fyers_data cas_data manual_data : list (dict pyval))
  : result (list Security) :=
  let n1 := List.length fyers_data in
  let n2 := List.length cas_data in
  _deduplicate_securities
    (convert_items (_convert_fyers_to_security float_of_str) clock 0 fyers_data
     ++ convert_items (_convert_cas_to_security float_of_str) clock n1 cas_data
     ++ convert_items (_convert_manual_to_security float_of_str) clock (n1 + n2)
          manual_data).

(** The identity key as the specification words it: the isin when it is
    non-empty and otherwise the upper-cased symbol.  The source has no
    upper-casing; the definitions below exist to compare with
    [identity_key]. *)
Definition upper_ascii (c : ascii) : ascii :=
  let n := nat_of_ascii c in
  if (Nat.leb 97 n && Nat.leb n 122)%bool then ascii_of_nat (n - 32) else c.

Fixpoint upper (s : string) : string :=
  match s with
  | EmptyString => EmptyString
  | String c s' => String (upper_ascii c) (upper s')
  end.

Definition spec_identity_key (security : Security) : pyval :=
  if truthy (isin security) then isin security
  else match symbol security with
       | VStr s => VStr (upper s)
       | v => v
       end.

(** A decimal integer literal read as a number: the instance of
    [float_of_str] used in the worked examples. *)
Definition float_of_decimal (s : string) : option Q :=
  match NilEmpty.int_of_string s with
  | Some i => Some (inject_Z (Z.of_int i))
  | None => None
  end.

(** ** services/screening_service.py *)

(** [s.split(sep)] for a one-character separator. *)
Fixpoint split_on (sep : ascii) (s : string) : list string :=
  match s with
  | EmptyString => [EmptyString]
  | String c s' =>
      if Ascii.eqb c sep then EmptyString :: split_on sep s'
      else
        match split_on sep s' with
        | [] => [String c EmptyString]
        | w :: ws => String c w :: ws
        end
  end.

(** A query maps a field path to a condition, itself a dictionary from
    operator to threshold. *)
Definition condition : Type := dict pyval.
Definition query : Type := dict condition.

(** The pattern of [_build_screening_query] for a [<field>_min] filter:
    [query[path] = {'$gte': filters[name]}]. *)
Definition add_min (filters : dict pyval) (name path : string) (q : query)
  : query :=
  match dict_get filters name with
  | Some threshold => dict_set q path [("$gte", threshold)]
  | None => q
  end.

(** The pattern for a [<field>_max] filter: the [$lte] bound is added to the
    condition already on the path, if there is one. *)
Definition add_max (filters : dict pyval) (name path : string) (q : query)
  : query :=
  match dict_get filters name with
  | Some threshold =>
      match dict_get q path with
      | Some cond => dict_set q path (dict_set cond "$lte" threshold)
      | None => dict_set q path [("$lte", threshold)]
      end
  | None => q
  end.

(** The pattern for the two sector filters:
    [if name in filters and filters[name]: query[path] = {operator: filters[name]}]. *)
Definition add_set (filters : dict pyval) (name path operator : string)
    (q : query) : query :=
  match dict_get filters name with
  | Some members =>
      if truthy members then dict_set q path [(operator, members)] else q
  | None => q
  end.

Definition _build_screening_query (filters : dict pyval) : query :=
  let q := [] in
  let q := add_min filters "pe_ratio_min" "fundamental_data.pe_ratio" q in
  let q := add_max filters "pe_ratio_max" "fundamental_data.pe_ratio" q in
  let q := add_min filters "pb_ratio_min" "fundamental_data.pb_ratio" q in
  let q := add_max filters "pb_ratio_max" "fundamental_data.pb_ratio" q in
  let q := add_min filters "roe_min" "fundamental_data.roe" q in
  let q := add_max filters "roe_max" "fundamental_data.roe" q in
  let q := add_min filters "roce_min" "fundamental_data.roce" q in
  let q := add_min filters "market_cap_min" "basic_info.market_cap" q in
  let q := add_max filters "market_cap_max" "basic_info.market_cap" q in
  let q := add_min filters "price_min" "price_data.current_price" q in
  let q := add_max filters "price_max" "price_data.current_price" q in
  let q := add_set filters "sectors" "basic_info.sector" "$in" q in
  let q := add_set filters "exclude_sectors" "basic_info.sector" "$nin" q in
  q.

(** The first loop of [_check_field_condition]: walk down the keys of the
    path.  [Ok None] is the [return False] at a key that is not in the
    value. *)
Fixpoint navigate (value : pyval) (keys : list string)
  : result (option pyval) :=
  match keys with
  | [] => Ok (Some value)
  | key :: rest =>
      present <- py_in (VStr key) value ;;
      if present then
        inner <- py_getitem value key ;;
        navigate inner rest
      else Ok None
  end.

(** One turn of the second loop: whether the branch of [operator] returns
    [False]. *)
Definition operator_rejects (operator : string) (value threshold : pyval)
  : result bool :=
  if String.eqb operator "$gte" then py_lt value threshold
  else if String.eqb operator "$lte" then py_gt value threshold
  else if String.eqb operator "$in" then
    present <- py_in value threshold ;; Ok (negb present)
  else if String.eqb operator "$nin" then py_in value threshold
  else Ok false.

Fixpoint check_operators (value : pyval) (items : list (string * pyval))
  : result bool :=
  match items with
  | [] => Ok true
  | (operator, threshold) :: rest =>
      rejected <- operator_rejects operator value threshold ;;
      if rejected then Ok false else check_operators value rest
  end.

Definition _check_field_condition (item : pyval) (field : string)
    (cond : condition) : bool :=
  match
    (found <- navigate item (split_on "." field) ;;
     match found with
     | Some value => check_operators value cond
     | None => Ok false
     end)
  with
  | Ok b => b
  | Raise _ => false
  end.

Fixpoint _apply_stock_filters (stock : pyval) (q : query) : bool :=
  match q with
  | [] => true
  | (field, cond) :: rest =>
      if _check_field_condition stock field cond
      then _apply_stock_filters stock rest
      else false
  end.

Definition mock_stock (sym nm sector : string) (market_cap price pe pb roe roce : Q)
  : pyval :=
  VDict
    [("symbol", VStr sym);
     ("basic_info",
       VDict [("name", VStr nm); ("sector", VStr sector);
              ("market_cap", VNum market_cap)]);
     ("price_data", VDict [("current_price", VNum price)]);
     ("fundamental_data",
       VDict [("pe_ratio", VNum pe); ("pb_ratio", VNum pb); ("roe", VNum roe);
              ("roce", VNum roce)])].

Definition _get_mock_stocks : list pyval :=
  [mock_stock "RELIANCE" "Reliance Industries" "Oil & Gas"
     1500000000000 (5001 # 2) (37 # 2) (21 # 10) (25 # 2) (76 # 5);
   mock_stock "TCS" "Tata Consultancy Services" "Technology"
     1200000000000 (15203 # 4) (126 # 5) (17 # 2) (179 # 5) (421 # 10);
   mock_stock "HDFCBANK" "HDFC Bank" "Banking"
     800000000000 (6601 # 4) (221 # 10) (16 # 5) (84 # 5) (37 # 2)].

(** [_execute_screening] over a catalog; the source passes
    [_get_mock_stocks()]. *)
Definition screen_catalog (catalog : list pyval) (q : query) : list pyval :=
  filter (fun stock => _apply_stock_filters stock q) catalog.

Definition _execute_screening (q : query) : list pyval :=
  screen_catalog _get_mock_stocks q.

(** What it means, in the words of the specification, for a record to
    satisfy the conditions on one field path: the record holds a value at
    the path, every operator can be evaluated on it, and every operator
    holds. *)
Definition operator_holds (value : pyval) (entry : string * pyval) : Prop :=
  let (operator, threshold) := entry in
  (* gte: not below the threshold; lte: not above it; in: a member of the
     set; nin: not a member.  Each asks that the test can be made at all. *)
  (operator = "$gte" -> py_lt value threshold = Ok false) /\
  (operator = "$lte" -> py_gt value threshold = Ok false) /\
  (operator = "$in" -> py_in value threshold = Ok true) /\
  (operator = "$nin" -> py_in value threshold = Ok false).

(** The value a record holds at a path of keys: each step needs a
    dictionary that has the key. *)
Fixpoint value_at (record : pyval) (keys : list string) : option pyval :=
  match keys with
  | [] => Some record
  | key :: rest =>
      match record with
      | VDict d =>
          match dict_get d key with
          | Some inner => value_at inner rest
          | None => None
          end
      | _ => None
      end
  end.

Definition path_satisfied (record : pyval) (field : string) (cond : condition)
  : Prop :=
  exists value,
    value_at record (split_on "." field) = Some value /\
    Forall (operator_holds value) cond.

(** A record misses a path when a key of the path is absent, or when the
    value reached before the last key is not a record. *)
Definition path_missing (record : pyval) (field : string) : Prop :=
  value_at record (split_on "." field) = None.

(** ** services/portfolio_refresh_service.py *)

(** Code that mutates local objects and may raise: a state monad whose
    computations end in a result.  The state reached when an exception is
    raised is kept, as the mutations made before a Python exception are. *)
Definition M (S A : Type) : Type := S -> result A * S.

Definition ret {S A : Type} (a : A) : M S A := fun s => (Ok a, s).

Definition lift {S A : Type} (r : result A) : M S A := fun s => (r, s).

Definition mbind {S A B : Type} (m : M S A) (f : A -> M S B) : M S B :=
  fun s =>
    match m s with
    | (Ok a, s') => f a s'
    | (Raise e, s') => (Raise e, s')
    end.

(** [try: body except Exception: handler] *)
Definition try_except {S A : Type} (body : M S A) (handler : exn -> M S A)
  : M S A :=
  fun s =>
    match body s with
    | (Ok a, s') => (Ok a, s')
    | (Raise e, s') => handler e s'
    end.

Notation "x <~ m ;; k" := (mbind m (fun x => k))
  (at level 61, m at next level, right associativity).
Notation "m ;;; k" := (mbind m (fun _ => k))
  (at level 61, right associativity).

(** [c[k] = v] *)
Definition py_setitem (c : pyval) (k : string) (v : pyval) : result pyval :=
  match c with
  | VDict d => Ok (VDict (dict_set d k v))
  | _ => Raise TypeError
  end.

(** [for x in c]: the elements a loop over [c] visits. *)
Definition py_iter (c : pyval) : result (list pyval) :=
  match c with
  | VList l => Ok l
  | VDict d => Ok (map (fun kv => VStr (fst kv)) d)
  | VStr s =>
      Ok (map (fun ch => VStr (String ch EmptyString)) (list_ascii_of_string s))
  | _ => Raise TypeError
  end.

(** [str(e)] is not modelled beyond the class of the exception. *)
Definition exn_message (e : exn) : string :=
  match e with
  | KeyError => "KeyError"
  | TypeError => "TypeError"
  | ValueError => "ValueError"
  | AttributeError => "AttributeError"
  | ZeroDivisionError => "ZeroDivisionError"
  | ConnectionError => "ConnectionError"
  end.

(** The dictionary [refresh_results] of [refresh_all_portfolios]. *)
Record RefreshRunResult : Type := mkRunResult {
  total_users : nat;
  successful : nat;
  failed : nat;
  errors : list (pyval * pyval)
}.

Section RefreshService.

(** Everything outside the service: the document store, the broker feed,
    the fundamentals scraper and the clock.  Their behaviour is arbitrary;
    each call may raise and may change the world. *)
Variable world : Type.
Variable fyers_access_token : world -> pyval.
Variable fyers_get_current_price : pyval -> M world pyval.
Variable get_cached_fundamentals : pyval -> M world pyval.
Variable get_stock_fundamentals : pyval -> M world pyval.
Variable portfolios_find_one : pyval -> M world pyval.
Variable portfolios_find : M world (list pyval).
Variable portfolios_update_one : pyval -> pyval -> M world unit.
Variable refresh_logs_insert_one : pyval -> M world unit.
Variable system_metrics_update_one : M world unit.
Variable now_isoformat : world -> string * world.

(** The fundamentals' price, when the document has a truthy one:
    [if data and data.get('current_price'): return data['current_price']]. *)
Definition fundamentals_price (data : pyval) : result (option pyval) :=
  if truthy data then
    p <- py_get data "current_price" VNone ;;
    if truthy p then
      v <- py_getitem data "current_price" ;; Ok (Some v)
    else Ok None
  else Ok None.

Definition _get_current_price (sym : pyval) (w : world) : pyval * world :=
  let body : M world pyval :=
    live <~ (fun w0 =>
               if truthy (fyers_access_token w0) then
                 (price <~ fyers_get_current_price sym ;;
                  ret (if truthy price then Some price else None)) w0
               else (Ok None, w0)) ;;
    match live with
    | Some price => ret price
    | None =>
        cached <~ get_cached_fundamentals sym ;;
        c <~ lift (fundamentals_price cached) ;;
        match c with
        | Some price => ret price
        | None =>
            fresh <~ get_stock_fundamentals sym ;;
            f <~ lift (fundamentals_price fresh) ;;
            match f with
            | Some price => ret price
            | None => ret VNone
            end
        end
    end in
  match body w with
  | (Ok price, w') => (price, w')
  | (Raise _, w') => (VNone, w')
  end.

Definition _get_user_portfolio (user_id : pyval) (w : world) : pyval * world :=
  match portfolios_find_one user_id w with
  | (Ok doc, w') => (doc, w')
  | (Raise _, w') => (VNone, w')
  end.

(** [[p['user_id'] for p in portfolios]] *)
Fixpoint user_ids (docs : list pyval) : result (list pyval) :=
  match docs with
  | [] => Ok []
  | p :: rest =>
      u <- py_getitem p "user_id" ;;
      us <- user_ids rest ;;
      Ok (u :: us)
  end.

Definition _get_all_users_with_portfolios (w : world) : list pyval * world :=
  match (docs <~ portfolios_find ;; lift (user_ids docs)) w with
  | (Ok users, w') => (users, w')
  | (Raise _, w') => ([], w')
  end.

Definition _update_portfolio (user_id portfolio : pyval) (w : world) : world :=
  snd (portfolios_update_one user_id portfolio w).

Definition _update_refresh_timestamp (user_id : pyval) (refresh_type : string)
    (w : world) : world :=
  let (t, w1) := now_isoformat w in
  snd (refresh_logs_insert_one
         (VDict [("user_id", user_id); ("refresh_type", VStr refresh_type);
                 ("timestamp", VStr t); ("status", VStr "success")]) w1).

Definition _update_system_refresh_timestamp (w : world) : world :=
  snd (system_metrics_update_one w).

(** The local variables of [_refresh_portfolio_prices] while it loops:
    the holding at hand (an object the loop mutates), the three
    accumulators, and the world. *)
Record frame : Type := mkFrame {
  holding : pyval;
  updated_holdings : list pyval;
  total_value : pyval;
  total_pnl : pyval;
  env : world
}.

Definition with_holding (f : frame) (h : pyval) : frame :=
  mkFrame h (updated_holdings f) (total_value f) (total_pnl f) (env f).

(** [holding[k]] *)
Definition holding_item (k : string) : M frame pyval :=
  fun f => (py_getitem (holding f) k, f).

(** [holding.get(k, default)] *)
Definition holding_get (k : string) (default : pyval) : M frame pyval :=
  fun f => (py_get (holding f) k default, f).

(** [holding[k] = v] *)
Definition holding_set (k : string) (v : pyval) : M frame unit :=
  fun f =>
    match py_setitem (holding f) k v with
    | Ok h => (Ok tt, with_holding f h)
    | Raise e => (Raise e, f)
    end.

(** [updated_holdings.append(holding)] *)
Definition append_holding : M frame unit :=
  fun f =>
    (Ok tt,
     mkFrame (holding f) (updated_holdings f ++ [holding f]) (total_value f)
       (total_pnl f) (env f)).

(** [total_value += v] *)
Definition add_total_value (v : pyval) : M frame unit :=
  fun f =>
    match py_add (total_value f) v with
    | Ok t =>
        (Ok tt, mkFrame (holding f) (updated_holdings f) t (total_pnl f) (env f))
    | Raise e => (Raise e, f)
    end.

(** [total_pnl += v] *)
Definition add_total_pnl (v : pyval) : M frame unit :=
  fun f =>
    match py_add (total_pnl f) v with
    | Ok t =>
        (Ok tt, mkFrame (holding f) (updated_holdings f) (total_value f) t (env f))
    | Raise e => (Raise e, f)
    end.

(** A call that only touches the world. *)
Definition in_world {A : Type} (op : world -> A * world) : M frame A :=
  fun f =>
    let (a, w) := op (env f) in
    (Ok a,
     mkFrame (holding f) (updated_holdings f) (total_value f) (total_pnl f) w).

(** The [if current_price:] branch of the loop body. *)
Definition price_found (current_price : pyval) : M frame unit :=
  holding_set "current_price" current_price ;;;
  q <~ holding_item "quantity" ;;
  cv <~ lift (py_mul q current_price) ;;
  holding_set "current_value" cv ;;;
  cv <~ holding_item "current_value" ;;
  q <~ holding_item "quantity" ;;
  a <~ holding_item "avg_price" ;;
  invested <~ lift (py_mul q a) ;;
  tp <~ lift (py_sub cv invested) ;;
  holding_set "total_pnl" tp ;;;
  a <~ holding_item "avg_price" ;;
  positive <~ lift (py_gt a (VNum 0)) ;;
  pct <~ (if positive : bool then
            tp <~ holding_item "total_pnl" ;;
            q <~ holding_item "quantity" ;;
            a <~ holding_item "avg_price" ;;
            invested <~ lift (py_mul q a) ;;
            ratio <~ lift (py_div tp invested) ;;
            lift (py_mul ratio (VNum 100))
          else ret (VNum 0)) ;;
  holding_set "pnl_percentage" pct ;;;
  t <~ in_world now_isoformat ;;
  holding_set "last_updated" (VStr t) ;;;
  cv <~ holding_item "current_value" ;;
  add_total_value cv ;;;
  tp <~ holding_item "total_pnl" ;;
  add_total_pnl tp ;;;
  append_holding.

(** The [else] branch and the [except] handler both keep the holding as
    it stands and add its stored value and pnl to the totals. *)
Definition keep_existing : M frame unit :=
  append_holding ;;;
  cv <~ holding_get "current_value" (VNum 0) ;;
  add_total_value cv ;;;
  tp <~ holding_get "total_pnl" (VNum 0) ;;
  add_total_pnl tp.

(** The [try] block of the loop body. *)
Definition update_holding : M frame unit :=
  sym <~ holding_item "symbol" ;;
  current_price <~ in_world (_get_current_price sym) ;;
  if truthy current_price then price_found current_price else keep_existing.

(** The [except] handler of the loop body; the log line reads
    [holding.get('symbol')]. *)
Definition holding_handler (e : exn) : M frame unit :=
  holding_get "symbol" VNone ;;; keep_existing.

Definition refresh_holding (h : pyval) : M frame unit :=
  fun f => try_except update_holding holding_handler (with_holding f h).

Fixpoint refresh_holdings (holdings : list pyval) : M frame unit :=
  match holdings with
  | [] => ret tt
  | h :: rest => refresh_holding h ;;; refresh_holdings rest
  end.

Definition initial_frame (w : world) : frame :=
  mkFrame VNone [] (VNum 0) (VNum 0) w.

(** The document handed to [_update_portfolio]. *)
Definition updated_portfolio (user_id : pyval) (f : frame) (t : string)
    (manual : bool) : pyval :=
  VDict
    [("user_id", user_id);
     ("holdings", VList (updated_holdings f));
     ("total_value", total_value f);
     ("total_pnl", total_pnl f);
     ("last_refreshed", VStr t);
     ("refresh_type", VStr (if manual then "manual" else "automatic"))].

Definition success_result (f : frame) (t : string) : pyval :=
  VDict
    [("success", VBool true);
     ("holdings_updated", VNum (inject_Z (Z.of_nat (List.length (updated_holdings f)))));
     ("total_value", total_value f);
     ("total_pnl", total_pnl f);
     ("last_refreshed", VStr t)].

Definition error_result (e : exn) : pyval :=
  VDict [("error", VStr ("Failed to refresh prices: " ++ exn_message e))].

Definition _refresh_portfolio_prices (user_id portfolio : pyval)
    (manual : bool) (w : world) : pyval * world :=
  let body : M frame unit :=
    holdings <~ lift (py_get portfolio "holdings" (VList [])) ;;
    items <~ lift (py_iter holdings) ;;
    refresh_holdings items in
  match body (initial_frame w) with
  | (Ok _, f) =>
      let (t, w1) := now_isoformat (env f) in
      let w2 := _update_portfolio user_id (updated_portfolio user_id f t manual) w1 in
      (success_result f t, w2)
  | (Raise e, f) => (error_result e, env f)
  end.

Definition manual_refresh_portfolio (user_id : pyval) (w : world)
  : pyval * world :=
  let (portfolio, w1) := _get_user_portfolio user_id w in
  if truthy portfolio then
    let (refresh_result, w2) :=
      _refresh_portfolio_prices user_id portfolio true w1 in
    (refresh_result, _update_refresh_timestamp user_id "manual" w2)
  else (VDict [("error", VStr "No portfolio found for user")], w1).

(** How one user ends in [refresh_all_portfolios]. *)
Inductive outcome : Type :=
| Refreshed
| Failed (error : pyval)
| NoPortfolio.

(** The body of the loop over the users.  Neither [_get_user_portfolio]
    nor [_refresh_portfolio_prices] lets an exception out, so the
    [except] clause around them has nothing to catch. *)
Definition refresh_user (user_id : pyval) (w : world) : outcome * world :=
  let (portfolio, w1) := _get_user_portfolio user_id w in
  if truthy portfolio then
    let (res, w2) := _refresh_portfolio_prices user_id portfolio false w1 in
    match py_get res "success" VNone with
    | Ok ok =>
        if truthy ok then (Refreshed, w2)
        else
          match py_get res "error" (VStr "Unknown error") with
          | Ok msg => (Failed msg, w2)
          | Raise e => (Failed (VStr (exn_message e)), w2)
          end
    | Raise e => (Failed (VStr (exn_message e)), w2)
    end
  else (NoPortfolio, w1).

(** The updates the loop makes to [refresh_results] for one user. *)
Definition record_outcome (user_id : pyval) (o : outcome)
    (r : RefreshRunResult) : RefreshRunResult :=
  match o with
  | Refreshed =>
      mkRunResult (total_users r) (S (successful r)) (failed r) (errors r)
  | Failed msg =>
      mkRunResult (total_users r) (successful r) (S (failed r))
        (errors r ++ [(user_id, msg)])
  | NoPortfolio => r
  end.

Fixpoint refresh_users (users : list pyval) (r : RefreshRunResult)
    (w : world) : RefreshRunResult * world :=
  match users with
  | [] => (r, w)
  | user_id :: rest =>
      let (o, w1) := refresh_user user_id w in
      refresh_users rest (record_outcome user_id o r) w1
  end.

Definition refresh_all_portfolios (w : world) : RefreshRunResult * world :=
  let (users, w1) := _get_all_users_with_portfolios w in
  let (r, w2) := refresh_users users (mkRunResult (List.length users) 0 0 []) w1 in
  (r, _update_system_refresh_timestamp w2).

(** What [_get_user_portfolio] returned for each user of the run, in
    order: the same walk as [refresh_users], recording the lookups. *)
Fixpoint lookups (users : list pyval) (w : world) : list (pyval * pyval) :=
  match users with
  | [] => []
  | user_id :: rest =>
      (user_id, fst (_get_user_portfolio user_id w))
        :: lookups rest (snd (refresh_user user_id w))
  end.

End RefreshService.

Arguments mkFrame {world} holding updated_holdings total_value total_pnl env.
Arguments holding {world} f.
Arguments updated_holdings {world} f.
Arguments total_value {world} f.
Arguments total_pnl {world} f.
Arguments env {world} f.
Arguments with_holding {world} f h.
Arguments holding_item {world} k _.
Arguments holding_get {world} k default _.
Arguments holding_set {world} k v _.
Arguments append_holding {world} _.
Arguments add_total_value {world} v _.
Arguments add_total_pnl {world} v _.
Arguments in_world {world A} op _.
Arguments keep_existing {world} _.
Arguments holding_handler {world} e _.
Arguments price_found {world} now_isoformat current_price _.
Arguments initial_frame {world} w.
Arguments updated_portfolio {world} user_id f t manual.
Arguments success_result {world} f t.

(** ** A small concrete world

    An instance of the collaborators for the worked examples: a list of
    portfolio documents, a price list for the broker feed, two switches for
    a store that rejects reads or writes, and a counter for the clock. *)
Record sim : Type := mkSim {
  docs : list pyval;
  feed : dict pyval;
  reads_up : bool;
  writes_up : bool;
  ticks : nat
}.

Definition has_user (user_id doc : pyval) : bool :=
  match py_getitem doc "user_id" with
  | Ok u => py_eq u user_id
  | Raise _ => false
  end.

(** [{'$set': fields}] applied to a document. *)
Definition set_fields (doc fields : pyval) : pyval :=
  match doc, fields with
  | VDict d, VDict fs =>
      VDict (fold_left (fun acc kv => dict_set acc (fst kv) (snd kv)) fs d)
  | _, _ => doc
  end.

Fixpoint upsert (user_id fields : pyval) (ds : list pyval) : list pyval :=
  match ds with
  | [] => [set_fields (VDict []) fields]
  | doc :: rest =>
      if has_user user_id doc then set_fields doc fields :: rest
      else doc :: upsert user_id fields rest
  end.

Definition sim_token (w : sim) : pyval := VStr "token".

Definition sim_feed_price (sym : pyval) : M sim pyval :=
  fun w =>
    (Ok (match sym with
         | VStr s => dict_get_default (feed w) s VNone
         | _ => VNone
         end), w).

Definition sim_no_fundamentals (sym : pyval) : M sim pyval :=
  fun w => (Ok VNone, w).

Definition sim_find_one (user_id : pyval) : M sim pyval :=
  fun w =>
    if reads_up w then
      (Ok (match find (has_user user_id) (docs w) with
           | Some doc => doc
           | None => VNone
           end), w)
    else (Raise ConnectionError, w).

Definition sim_find : M sim (list pyval) :=
  fun w => if reads_up w then (Ok (docs w), w) else (Raise ConnectionError, w).

Definition sim_update_one (user_id fields : pyval) : M sim unit :=
  fun w =>
    if writes_up w then
      (Ok tt,
       mkSim (upsert user_id fields (docs w)) (feed w) (reads_up w)
         (writes_up w) (ticks w))
    else (Raise ConnectionError, w).

Definition sim_insert_log (entry : pyval) : M sim unit :=
  fun w => if writes_up w then (Ok tt, w) else (Raise ConnectionError, w).

Definition sim_update_metric : M sim unit :=
  fun w => if writes_up w then (Ok tt, w) else (Raise ConnectionError, w).

Definition sim_now (w : sim) : string * sim :=
  ("T" ++ NilEmpty.string_of_uint (Nat.to_uint (ticks w)),
   mkSim (docs w) (feed w) (reads_up w) (writes_up w) (S (ticks w))).

Definition sim_refresh_portfolio_prices :=
  _refresh_portfolio_prices sim sim_token sim_feed_price sim_no_fundamentals
    sim_no_fundamentals sim_update_one sim_now.

Definition sim_refresh_holding :=
  refresh_holding sim sim_token sim_feed_price sim_no_fundamentals
    sim_no_fundamentals sim_now.

Definition sim_refresh_all_portfolios :=
  refresh_all_portfolios sim sim_token sim_feed_price sim_no_fundamentals
    sim_no_fundamentals sim_find_one sim_find sim_update_one
    sim_update_metric sim_now.

(** ** Worked inputs *)

(** The same holding reported by the broker feed and, later, entered by
    hand. *)
Definition reliance_fyers : Security :=
  mkSecurity (VStr "RELIANCE") (VStr "Reliance Industries") 10 2400 2500 25000
    1000 (25 # 6) (VStr "STOCK") (VStr "INE002A01018") "FYERS" (Some 100).

Definition reliance_manual : Security :=
  mkSecurity (VStr "RELIANCE") (VStr "Reliance Industries") 4 2000 2100 8400
    400 5 (VStr "STOCK") (VStr "INE002A01018") "MANUAL" (Some 200).

(** Two records without isin whose symbols differ in letter case only. *)
Definition tcs_statement : Security :=
  mkSecurity (VStr "tcs") (VStr "Tata Consultancy Services") 3 3500 3800 11400
    900 (60 # 7) (VStr "STOCK") VNone "CAS" (Some 100).

Definition tcs_manual : Security :=
  mkSecurity (VStr "TCS") (VStr "Tata Consultancy Services") 3 3500 3800 11400
    900 (60 # 7) (VStr "STOCK") VNone "MANUAL" (Some 100).

(** A raw record with every required field and an average price that is
    not a number. *)
Definition item_bad_avg_price : dict pyval :=
  [("symbol", VStr "TCS"); ("isin", VStr "INE467B01029");
   ("quantity", VNum 5); ("avg_price", VStr "n/a")].

(** The fields the converters pass through [float]. *)
Definition numeric_fields : list string :=
  ["quantity"; "avg_price"; "current_price"; "market_value"; "pnl";
   "pnl_percentage"].

(** The numeric field of a security by the name of its raw field. *)
Definition number_of (s : Security) (k : string) : Q :=
  if String.eqb k "quantity" then quantity s
  else if String.eqb k "avg_price" then avg_price s
  else if String.eqb k "current_price" then current_price s
  else if String.eqb k "market_value" then market_value s
  else if String.eqb k "pnl" then pnl s
  else pnl_percentage s.

(** ** Notions used to state the properties of deduplication *)

(** No two keys of the list are equal as Python compares them. *)
Definition pairwise_distinct (keys : list pyval) : Prop :=
  ForallOrdPairs (fun a b => py_eq a b = false) keys.

(** An entry of [grouped] holds a security filed under its own key. *)
Definition filed (entry : pyval * Security) : Prop :=
  hashable (fst entry) = true /\
  hashable (identity_key (snd entry)) = true /\
  py_eq (fst entry) (identity_key (snd entry)) = true.

Definition grouped_ok (grouped : list (pyval * Security)) : Prop :=
  pairwise_distinct (map fst grouped) /\ Forall filed grouped.

(** The value written for a security: the merge with the entry of its key,
    or the security itself. *)
Definition written (grouped : list (pyval * Security)) (security : Security)
  : Security :=
  match assoc_get py_eq grouped (identity_key security) with
  | Some existing => _merge_securities existing security
  | None => security
  end.

(** ** Notions used to state the properties of the converters *)

(** A raw record carries a number that [float] rejects: one of the numeric
    fields is present and its conversion raises. *)
Definition bad_number (float_of_str : string -> option Q) (item : dict pyval)
  : Prop :=
  exists k v,
    In k numeric_fields /\ dict_get item k = Some v /\
    is_ok (py_float float_of_str v) = false.

(** What a converter with source tag [tag] does on one raw record. *)
Definition converts_as (float_of_str : string -> option Q) (tag : string)
    (conv : Z -> dict pyval -> option Security) (now : Z) (item : dict pyval)
  : Prop :=
  (conv now item = None <-> bad_number float_of_str item) /\
  (forall s, conv now item = Some s ->
     source s = tag /\
     last_updated s = Some now /\
     symbol s = dict_get_default item "symbol" (VStr "") /\
     name s = dict_get_default item "name" (VStr "") /\
     isin s = dict_get_default item "isin" VNone /\
     security_type s = dict_get_default item "security_type" (VStr "STOCK") /\
     (forall k, In k numeric_fields ->
        match dict_get item k with
        | Some v => py_float float_of_str v = Ok (number_of s k)
        | None => number_of s k = 0%Q
        end)).

(** A request that names both the sectors to keep and the sectors to
    exclude. *)
Definition sector_filters : dict pyval :=
  [("sectors", VList [VStr "Technology"]);
   ("exclude_sectors", VList [VStr "Banking"])].

(** [stock['symbol']] of each result. *)
Definition symbols_of (results : list pyval) : list (result pyval) :=
  map (fun stock => py_getitem stock "symbol") results.

(** ** Notions used to state the properties of the batch refresh *)

(** The lookups that returned a portfolio document. *)
Definition found (looked_up : list (pyval * pyval)) : list (pyval * pyval) :=
  filter (fun l => truthy (snd l)) looked_up.

(** The lookups that returned no document. *)
Definition missed (looked_up : list (pyval * pyval)) : list (pyval * pyval) :=
  filter (fun l => negb (truthy (snd l))) looked_up.

(** ** Notions used to state the properties of the single-user refresh *)

(** A value that arithmetic accepts. *)
Definition is_number (v : pyval) : Prop := num_of v <> None.

Definition number_or_absent (d : dict pyval) (k : string) : Prop :=
  match dict_get d k with
  | Some v => is_number v
  | None => True
  end.

(** A stored holding the loop can always keep: a dictionary whose
    [current_value] and [total_pnl], when present, are numbers. *)
Definition well_formed_holding (h : pyval) : Prop :=
  exists d,
    h = VDict d /\
    number_or_absent d "current_value" /\ number_or_absent d "total_pnl".

(** The state of a holding while the loop body updates it; a flag that is
    set says the field has been written with a number. *)
Definition holding_state (cv_written tp_written : bool) (h : pyval) : Prop :=
  exists d,
    h = VDict d /\
    (if cv_written then exists q, dict_get d "current_value" = Some (VNum q)
     else number_or_absent d "current_value") /\
    (if tp_written then exists q, dict_get d "total_pnl" = Some (VNum q)
     else number_or_absent d "total_pnl").

(** The frames of the loop body in which [updated_holdings] is still
    [kept] and the totals are numbers. *)
Definition frame_state {world : Type} (kept : list pyval)
    (cv_written tp_written : bool) (f : frame world) : Prop :=
  holding_state cv_written tp_written (holding f) /\
  updated_holdings f = kept /\
  is_number (total_value f) /\ is_number (total_pnl f).

(** The frames in which the holding at hand has been added to [kept]. *)
Definition frame_done {world : Type} (kept : list pyval) (f : frame world)
  : Prop :=
  (exists h, updated_holdings f = (kept ++ [h])%list) /\
  is_number (total_value f) /\ is_number (total_pnl f).

(** A specification of a computation: from a state in [P] it ends in [Q]
    when it returns and in [E] when it raises. *)
Definition triple {S A : Type} (P : S -> Prop) (m : M S A)
    (Q : A -> S -> Prop) (E : S -> Prop) : Prop :=
  forall s, P s ->
    match m s with
    | (Ok a, s') => Q a s'
    | (Raise _, s') => E s'
    end.
(** ** Worked portfolio *)

(** A position that was closed: the quantity is 0, the stored price,
    value and pnl date from before. *)
Definition closed_position : pyval :=
  VDict
    [("symbol", VStr "IDLE"); ("quantity", VNum 0); ("avg_price", VNum 10);
     ("current_price", VNum 5); ("current_value", VNum 50);
     ("total_pnl", VNum 12); ("pnl_percentage", VNum 24);
     ("last_updated", VStr "T0")].

(** The same position after the loop body has run with the price 7. *)
Definition closed_position_after : pyval :=
  VDict
    [("symbol", VStr "IDLE"); ("quantity", VNum 0); ("avg_price", VNum 10);
     ("current_price", VNum 7); ("current_value", VNum 0);
     ("total_pnl", VNum 0); ("pnl_percentage", VNum 24);
     ("last_updated", VStr "T0")].

Definition tcs_holding : pyval :=
  VDict
    [("symbol", VStr "TCS"); ("quantity", VNum 2); ("avg_price", VNum 10);
     ("current_price", VNum 5); ("current_value", VNum 10);
     ("total_pnl", VNum (-10)); ("pnl_percentage", VNum (-50));
     ("last_updated", VStr "T0")].

(** A holding the feed has no price for. *)
Definition unpriced_holding : pyval :=
  VDict
    [("symbol", VStr "UNLISTED"); ("quantity", VNum 3); ("avg_price", VNum 20);
     ("current_price", VNum 25); ("current_value", VNum 75);
     ("total_pnl", VNum 15); ("pnl_percentage", VNum 25);
     ("last_updated", VStr "T0")].

Definition portfolio_u1 : pyval :=
  VDict
    [("user_id", VStr "u1");
     ("holdings", VList [tcs_holding; unpriced_holding])].

(** A store that answers reads and rejects writes. *)
Definition store_rejecting_writes : sim :=
  mkSim [portfolio_u1] [("IDLE", VNum 7); ("TCS", VNum 12)] true false 1.

(** A stored holding whose value is null, once under a symbol the feed has
    no price for and once under a symbol it has. *)
Definition null_value_unpriced : pyval :=
  VDict
    [("symbol", VStr "UNLISTED"); ("quantity", VNum 3); ("avg_price", VNum 20);
     ("current_value", VNone)].

Definition null_value_priced : pyval :=
  VDict
    [("symbol", VStr "TCS"); ("quantity", VNum 3); ("avg_price", VNum 20);
     ("current_value", VNone)].

Definition portfolio_of (h : pyval) : pyval :=
  VDict [("user_id", VStr "u1"); ("holdings", VList [h])].

(** A store that holds two portfolios and answers every call. *)
Definition store_of_two : sim :=
  mkSim [portfolio_u1; VDict [("user_id", VStr "u2"); ("holdings", VList [])]]
    [("IDLE", VNum 7); ("TCS", VNum 12)] true true 1.

(** A lookup that fails for the user [u2] and answers for the others. *)
Definition sim_find_one_but_u2 (user_id : pyval) : M sim pyval :=
  fun w =>
    if py_eq user_id (VStr "u2") then (Raise ConnectionError, w)
    else sim_find_one user_id w.

(** The merge rule as the comments of [_merge_securities] and the
    specification word it: the more recent record wins between records of
    the same priority only.  This is not the code; it exists to compare
    with [_merge_securities]. *)
Definition merge_as_documented (existing new : Security) : Security :=
  if priority (source existing) <? priority (source new) then new
  else if priority (source existing) =? priority (source new) then
    match last_updated new, last_updated existing with
    | Some t_new, Some t_existing =>
        if t_existing <? t_new then new else existing
    | _, _ => existing
    end
  else existing.

(** What the merge rule ranks a record by. *)
Definition rank (s : Security) : Z * option Z :=
  (priority (source s), last_updated s).

(** ** Notions used to state further properties of deduplication *)

(** The time stamp of a record, for records that carry one. *)
Definition stamp (s : Security) : Z :=
  match last_updated s with
  | Some t => t
  | None => 0
  end.

(** A later manual entry of the holding [tcs_manual]. *)
Definition tcs_manual_later : Security :=
  mkSecurity (VStr "TCS") (VStr "Tata Consultancy Services") 5 3600 3800 19000
    1000 (50 # 9) (VStr "STOCK") VNone "MANUAL" (Some 300).

(** ** services/portfolio_service.py: summary and consolidated result *)

(** [Security.to_dict]; [isoformat] is [datetime.isoformat]. *)
Definition to_dict (isoformat : Z -> string) (s : Security) : dict pyval :=
  [("symbol", symbol s);
   ("name", name s);
   ("quantity", VNum (quantity s));
   ("avg_price", VNum (avg_price s));
   ("current_price", VNum (current_price s));
   ("market_value", VNum (market_value s));
   ("pnl", VNum (pnl s));
   ("pnl_percentage", VNum (pnl_percentage s));
   ("security_type", security_type s);
   ("isin", isin s);
   ("source", VStr (source s));
   ("last_updated",
     match last_updated s with
     | Some t => VStr (isoformat t)
     | None => VNone
     end)].

(** An entry of [by_type]: [{'count': ..., 'value': ..., 'pnl': ...}]. *)
Record type_stats : Type := mkStats {
  stat_count : nat;
  stat_value : Q;
  stat_pnl : Q
}.

(** The dictionary returned by [_calculate_portfolio_summary]. *)
Record summary : Type := mkSummary {
  sum_total_value : Q;
  sum_total_pnl : Q;
  sum_total_investment : Q;
  sum_overall_pnl_percentage : Q;
  sum_security_count : nat;
  sum_by_type : list (pyval * type_stats)
}.

(** [sum(xs)], over exact rationals.  The rounding of the floating-point
    additions is not modelled, so no statement below compares sums that
    the code groups differently. *)
Definition py_sum (xs : list Q) : Q := fold_left Qplus xs 0%Q.

(** The loop over the securities that fills [by_type]; a security type
    that cannot be hashed raises [TypeError]. *)
Fixpoint group_by_type (by_type : list (pyval * type_stats))
    (securities : list Security) : result (list (pyval * type_stats)) :=
  match securities with
  | [] => Ok by_type
  | security :: rest =>
      let sec_type := security_type security in
      if hashable sec_type then
        let by_type :=
          match assoc_get py_eq by_type sec_type with
          | Some _ => by_type
          | None => assoc_set py_eq by_type sec_type (mkStats 0 0 0)
          end in
        match assoc_get py_eq by_type sec_type with
        | Some st =>
            group_by_type
              (assoc_set py_eq by_type sec_type
                 (mkStats (S (stat_count st))
                    (stat_value st + market_value security)
                    (stat_pnl st + pnl security)))
              rest
        | None => Raise KeyError
        end
      else Raise TypeError
  end.

Definition _calculate_portfolio_summary (securities : list Security)
  : result summary :=
  let total_value := py_sum (map market_value securities) in
  let total_pnl := py_sum (map pnl securities) in
  let total_investment :=
    py_sum (map (fun s => quantity s * avg_price s)%Q securities) in
  by_type <- group_by_type [] securities ;;
  Ok (mkSummary total_value total_pnl total_investment
        (if Qle_bool total_investment 0 then 0%Q
         else (total_pnl / total_investment * 100)%Q)
        (List.length securities)
        by_type).

(** [len([s for s in consolidated if s.source == tag])] *)
Definition count_source (tag : string) (consolidated : list Security) : nat :=
  List.length (filter (fun s => String.eqb (source s) tag) consolidated).

(** The dictionary returned by [consolidate_portfolio]. *)
Record consolidated_portfolio : Type := mkConsolidated {
  cons_securities : list (dict pyval);
  cons_summary : summary;
  cons_last_updated : string;
  cons_fyers : nat;
  cons_cas : nat;
  cons_manual : nat
}.

(** [consolidate_portfolio]: the exceptions of the two helpers are logged
    and raised again.  The clock is read once per conversion and once more
    for [last_updated]. *)
Definition consolidate_portfolio (float_of_str : string -> option Q)
    (isoformat : Z -> string) (clock : nat -> Z)
    (fyers_data cas_data manual_data : list (dict pyval))
  : result consolidated_portfolio :=
  consolidated <-
    consolidate_securities float_of_str clock fyers_data cas_data manual_data ;;
  summ <- _calculate_portfolio_summary consolidated ;;
  Ok (mkConsolidated
        (map (to_dict isoformat) consolidated)
        summ
        (isoformat
           (clock (List.length fyers_data + List.length cas_data
                   + List.length manual_data)%nat))
        (count_source "FYERS" consolidated)
        (count_source "CAS" consolidated)
        (count_source "MANUAL" consolidated)).

(** ** Notions used to state the properties of the summary *)

(** The securities whose type is [t], as Python compares types, in the
    order of the list. *)
Definition of_type (t : pyval) (securities : list Security) : list Security :=
  filter (fun s => py_eq (security_type s) t) securities.

(** What the loop keeps under [+=]: the additions are made from the left,
    starting at 0, one security after the other. *)
Definition running_total (f : Security -> Q) (securities : list Security) : Q :=
  fold_left (fun acc s => (acc + f s)%Q) securities 0%Q.

(** An entry of [by_type] that tallies with the securities of its type. *)
Definition tallies (securities : list Security) (entry : pyval * type_stats)
  : Prop :=
  stat_count (snd entry) = List.length (of_type (fst entry) securities) /\
  stat_value (snd entry)
    = running_total market_value (of_type (fst entry) securities) /\
  stat_pnl (snd entry) = running_total pnl (of_type (fst entry) securities).

(** Every security has an entry under a type equal to its own. *)
Definition typed_in (by_type : list (pyval * type_stats))
    (securities : list Security) : Prop :=
  Forall (fun s =>
            exists t, In t (map fst by_type) /\ py_eq (security_type s) t = true)
         securities.

(** The entry a security is counted in: the one of its type, created
    with zeros when the type is new. *)
Definition with_entry (by_type : list (pyval * type_stats)) (k : pyval)
  : list (pyval * type_stats) :=
  match assoc_get py_eq by_type k with
  | Some _ => by_type
  | None => assoc_set py_eq by_type k (mkStats 0 0 0)
  end.

Definition counted (st : type_stats) (security : Security) : type_stats :=
  mkStats (S (stat_count st)) (stat_value st + market_value security)
    (stat_pnl st + pnl security).

Definition count_of (by_type : list (pyval * type_stats)) : nat :=
  fold_right (fun entry acc => (stat_count (snd entry) + acc)%nat) 0%nat by_type.

(** A simple clock and time format for the worked examples. *)
Definition clock_from (start : Z) (n : nat) : Z := start + Z.of_nat n.

Definition iso_of_z (t : Z) : string :=
  "T" ++ NilEmpty.string_of_uint (N.to_uint (Z.to_N t)).

(** ** services/screening_service.py: fund query, sort key, pagination *)

(** The pattern [query[path] = {operator: filters[name]}] for a filter
    that is present. *)
Definition add_bound (filters : dict pyval) (name path operator : string)
    (q : query) : query :=
  match dict_get filters name with
  | Some threshold => dict_set q path [(operator, threshold)]
  | None => q
  end.

Definition _build_mf_screening_query (filters : dict pyval) : query :=
  let q := [] in
  let q := add_set filters "categories" "basic_info.category" "$in" q in
  let q := add_set filters "sub_categories" "basic_info.sub_category" "$in" q in
  let q := add_set filters "amcs" "basic_info.amc" "$in" q in
  let q := add_min filters "aum_min" "basic_info.aum" q in
  let q := add_max filters "aum_max" "basic_info.aum" q in
  let q := add_bound filters "expense_ratio_max" "basic_info.expense_ratio"
             "$lte" q in
  let q := add_min filters "returns_1y_min" "performance_data.returns_1y" q in
  let q := add_min filters "returns_3y_min" "performance_data.returns_3y" q in
  q.

(** [_apply_mf_filters]: the same loop as [_apply_stock_filters]. *)
Fixpoint _apply_mf_filters (mf : pyval) (q : query) : bool :=
  match q with
  | [] => true
  | (field, cond) :: rest =>
      if _check_field_condition mf field cond
      then _apply_mf_filters mf rest
      else false
  end.

(** The loop of [get_sort_value]: [value = value.get(key, 0)] for each key
    of the path. *)
Fixpoint sort_walk (value : pyval) (keys : list string) : result pyval :=
  match keys with
  | [] => Ok value
  | key :: rest =>
      inner <- py_get value key (VNum 0) ;;
      sort_walk inner rest
  end.

(** [get_sort_value] of [_sort_results] and [_sort_mf_results], for the
    field [field]: [None] and every exception give 0. *)
Definition get_sort_value (field : string) (item : pyval) : pyval :=
  match sort_walk item (split_on "." field) with
  | Ok VNone => VNum 0
  | Ok value => value
  | Raise _ => VNum 0
  end.

(** A value that can be a slice index: an [int] (or a [bool]).  Numbers
    are one constructor here; one without fractional part is read as an
    [int], so a [float] such as [2.0], on which the real slice raises,
    cannot be told apart: the statements on pagination are about integer
    requests and about requests that are no number or have a fractional
    part. *)
Definition py_index (v : pyval) : option Z :=
  match v with
  | VBool b => Some (if b then 1 else 0)
  | VNum q =>
      if Pos.eqb (Qden (Qred q)) 1 then Some (Qnum (Qred q)) else None
  | _ => None
  end.

(** How a slice bound is brought into the list: a negative bound counts
    from the end, and every bound is clamped to [0 .. len]. *)
Definition clamp_index (len i : Z) : Z :=
  if i <? 0 then Z.max 0 (i + len) else Z.min i len.

(** [l[start:stop]] for integer bounds. *)
Definition py_slice {A : Type} (l : list A) (start stop : Z) : list A :=
  let len := Z.of_nat (List.length l) in
  let lo := clamp_index len start in
  let hi := clamp_index len stop in
  firstn (Z.to_nat (hi - lo)) (skipn (Z.to_nat lo) l).

(** [_paginate_results]: any bound that is no integer makes the slice (or
    the arithmetic before it) raise, and the handler returns the results
    as they are. *)
Definition _paginate_results (results : list pyval) (filters : dict pyval)
  : list pyval :=
  let page := dict_get_default filters "page" (VNum 1) in
  let limit := dict_get_default filters "limit" (VNum 20) in
  match py_index page, py_index limit with
  | Some p, Some l =>
      let start_index := (p - 1) * l in
      let end_index := start_index + l in
      py_slice results start_index end_index
  | _, _ => results
  end.

(** ** Notions used to state the properties of the query adapters *)

(** The condition a pair of bounds gives. *)
Definition range_condition (lo hi : option pyval) : option condition :=
  match lo, hi with
  | Some l, Some h => Some [("$gte", l); ("$lte", h)]
  | Some l, None => Some [("$gte", l)]
  | None, Some h => Some [("$lte", h)]
  | None, None => None
  end.

(** A set filter counts when it is present and not empty. *)
Definition set_filter (filters : dict pyval) (name : string) : option pyval :=
  match dict_get filters name with
  | Some members => if truthy members then Some members else None
  | None => None
  end.

(** The range filters of the stock adapter: the names of the two bounds
    and the path they bear on. *)
Definition stock_ranges : list (string * string * string) :=
  [("pe_ratio_min", "pe_ratio_max", "fundamental_data.pe_ratio");
   ("pb_ratio_min", "pb_ratio_max", "fundamental_data.pb_ratio");
   ("roe_min", "roe_max", "fundamental_data.roe");
   ("market_cap_min", "market_cap_max", "basic_info.market_cap");
   ("price_min", "price_max", "price_data.current_price")].

(** The request for page [page] of size [limit]. *)
Definition page_request (page limit : Z) : dict pyval :=
  [("page", VNum (inject_Z page)); ("limit", VNum (inject_Z limit))].

(** The condition on the sector path: an exclusion replaces an
    inclusion. *)
Definition sector_condition (filters : dict pyval) : option condition :=
  match set_filter filters "exclude_sectors", set_filter filters "sectors" with
  | Some excluded, _ => Some [("$nin", excluded)]
  | None, Some included => Some [("$in", included)]
  | None, None => None
  end.

(** The condition a single filter gives under [operator]. *)
Definition bound_condition (operator : string) (threshold : option pyval)
  : option condition :=
  match threshold with
  | Some t => Some [(operator, t)]
  | None => None
  end.

(** The paths the stock adapter can write, and the filters it reads. *)
Definition stock_paths : list string :=
  (map snd stock_ranges
   ++ ["fundamental_data.roce"; "basic_info.sector"])%list.

Definition stock_filter_names : list string :=
  ["pe_ratio_min"; "pe_ratio_max"; "pb_ratio_min"; "pb_ratio_max";
   "roe_min"; "roe_max"; "roce_min"; "market_cap_min"; "market_cap_max";
   "price_min"; "price_max"; "sectors"; "exclude_sectors"].

Definition fund_paths : list string :=
  ["basic_info.category"; "basic_info.sub_category"; "basic_info.amc";
   "basic_info.aum"; "basic_info.expense_ratio";
   "performance_data.returns_1y"; "performance_data.returns_3y"].

(** A record holds, at [path], a number between [l] and [h], both
    included. *)
Definition within_bounds (record : pyval) (path : string) (l h : Q) : Prop :=
  exists v x,
    value_at record (split_on "." path) = Some v /\
    num_of v = Some x /\ (l <= x)%Q /\ (x <= h)%Q.

Definition mock_fund (isin nm amc category sub_category : string)
    (expense_ratio aum returns_1y returns_3y returns_5y : Q) : pyval :=
  VDict
    [("isin", VStr isin);
     ("basic_info",
       VDict [("name", VStr nm); ("amc", VStr amc);
              ("category", VStr category);
              ("sub_category", VStr sub_category);
              ("expense_ratio", VNum expense_ratio); ("aum", VNum aum)]);
     ("performance_data",
       VDict [("returns_1y", VNum returns_1y);
              ("returns_3y", VNum returns_3y);
              ("returns_5y", VNum returns_5y)])].

Definition _get_mock_mutual_funds : list pyval :=
  [mock_fund "INF179K01BE1" "HDFC Mid-Cap Opportunities Fund"
     "HDFC Mutual Fund" "Equity" "Mid Cap"
     (9 # 5) 25000000000 (37 # 2) (223 # 10) (257 # 10);
   mock_fund "INF179K01BE2" "Axis Bluechip Fund"
     "Axis Mutual Fund" "Equity" "Large Cap"
     (3 # 2) 15000000000 (76 # 5) (187 # 10) (201 # 10)].

(** [_execute_mf_screening] over a catalog; the source passes
    [_get_mock_mutual_funds()]. *)
Definition screen_mf_catalog (catalog : list pyval) (q : query) : list pyval :=
  filter (fun mf => _apply_mf_filters mf q) catalog.

Definition _execute_mf_screening (q : query) : list pyval :=
  screen_mf_catalog _get_mock_mutual_funds q.

(** The filters of the template [momentum_stocks] of
    [get_screening_templates]. *)
Definition momentum_filters : dict pyval :=
  [("price_change_1m_min", VNum 5); ("volume_ratio_min", VNum (3 # 2))].

(** ** Notions used to state what a refresh keeps and what it totals *)

(** The fields the loop body of [_refresh_portfolio_prices] assigns. *)
Definition written_fields : list string :=
  ["current_price"; "current_value"; "total_pnl"; "pnl_percentage";
   "last_updated"].

(** Two states of one holding: every field the loop does not assign is
    the same in both. *)
Definition same_position (before after : pyval) : Prop :=
  exists d d',
    before = VDict d /\ after = VDict d' /\
    forall k, ~ In k written_fields -> dict_get d' k = dict_get d k.

(** The number [holding.get(k, 0)] stands for. *)
Definition stored_number (h : pyval) (k : string) : Q :=
  match py_get h k (VNum 0) with
  | Ok v => match num_of v with Some q => q | None => 0%Q end
  | Raise _ => 0%Q
  end.

Definition sum_stored (k : string) (hs : list pyval) : Q :=
  fold_right (fun h acc => (stored_number h k + acc)%Q) 0%Q hs.

(** A holding on which the arithmetic of the loop stays within numbers:
    its quantity, value and pnl, when present, are numbers. *)
Definition numeric_holding (h : pyval) : Prop :=
  exists d,
    h = VDict d /\
    number_or_absent d "quantity" /\
    number_or_absent d "current_value" /\ number_or_absent d "total_pnl".

(** The frames of the loop body, seen from the books: the holding at hand
    is a state of [origin]; it has been appended to [kept] or not; and the
    totals are the ones the body started from, plus the holding's value
    and pnl once they have been added. *)
Definition ledger {world : Type} (kept : list pyval) (origin : pyval)
    (base_value base_pnl : Q)
    (appended cv_written tp_written value_added pnl_added : bool)
    (f : frame world) : Prop :=
  holding_state cv_written tp_written (holding f) /\
  same_position origin (holding f) /\
  updated_holdings f
    = (if appended then kept ++ [holding f] else kept)%list /\
  exists tv tp,
    total_value f = VNum tv /\ total_pnl f = VNum tp /\
    (tv == base_value
           + (if value_added
              then stored_number (holding f) "current_value" else 0))%Q /\
    (tp == base_pnl
           + (if pnl_added
              then stored_number (holding f) "total_pnl" else 0))%Q.

(** A world with a fixed price list, a store that accepts every write and
    a clock that counts the calls. *)
Definition listed_price (sym : pyval) : pyval :=
  match sym with
  | VStr s =>
      if String.eqb s "TCS" then VNum 3500
      else if String.eqb s "INFY" then VNum 1500
      else VNone
  | _ => VNone
  end.

Definition listed_token (w : nat) : pyval := VStr "token".

Definition listed_feed (sym : pyval) : M nat pyval :=
  fun w => (Ok (listed_price sym), w).

Definition listed_no_fundamentals (sym : pyval) : M nat pyval :=
  fun w => (Ok VNone, w).

Definition listed_update_one (user_id fields : pyval) : M nat unit :=
  fun w => (Ok tt, w).

(** The same store when it rejects every write. *)
Definition listed_rejecting_update (user_id fields : pyval) : M nat unit :=
  fun w => (Raise ConnectionError, w).

Definition listed_now (w : nat) : string * nat :=
  ("T" ++ NilEmpty.string_of_uint (Nat.to_uint w), S w).

Definition listed_current_price :=
  _get_current_price nat listed_token listed_feed listed_no_fundamentals
    listed_no_fundamentals.

(** Two holdings: one that is listed, one that is not. *)
Definition listed_holdings : list pyval :=
  [VDict [("symbol", VStr "TCS"); ("quantity", VNum 2);
          ("avg_price", VNum 3000); ("current_value", VNum 6200);
          ("total_pnl", VNum 200)];
   VDict [("symbol", VStr "XYZ"); ("quantity", VNum 5);
          ("avg_price", VNum 10); ("current_value", VNum 60);
          ("total_pnl", VNum 10)]].

Definition listed_portfolio : pyval :=
  VDict [("user_id", VStr "u1"); ("holdings", VList listed_holdings)].

(** The store of the fixed world: one user with a portfolio, and one that
    is enumerated but has none. *)
Definition listed_find_one (user_id : pyval) : M nat pyval :=
  fun w =>
    (Ok (if py_eq user_id (VStr "u1") then listed_portfolio else VNone), w).

Definition listed_find : M nat (list pyval) :=
  fun w => (Ok [listed_portfolio; VDict [("user_id", VStr "u2")]], w).

Definition listed_metric : M nat unit := fun w => (Ok tt, w).

(** A portfolio document the refresh can work through: its holdings are a
    list of numeric holdings. *)
Definition numeric_portfolio (doc : pyval) : Prop :=
  exists holdings,
    py_get doc "holdings" (VList []) = Ok (VList holdings) /\
    Forall numeric_holding holdings.

(** A price source that answers with a number or with nothing. *)
Definition numeric_prices {world : Type}
    (current_price : pyval -> world -> pyval * world) : Prop :=
  forall sym w,
    fst (current_price sym w) = VNone \/ is_number (fst (current_price sym w)).

Definition listed_refresh_holdings :=
  refresh_holdings nat listed_token listed_feed listed_no_fundamentals
    listed_no_fundamentals listed_now.

Definition listed_refresh_portfolio_prices :=
  _refresh_portfolio_prices nat listed_token listed_feed
    listed_no_fundamentals listed_no_fundamentals listed_update_one
    listed_now.

Definition listed_refresh_unsaved :=
  _refresh_portfolio_prices nat listed_token listed_feed
    listed_no_fundamentals listed_no_fundamentals listed_rejecting_update
    listed_now.

Definition listed_refresh_all_portfolios :=
  refresh_all_portfolios nat listed_token listed_feed listed_no_fundamentals
    listed_no_fundamentals listed_find_one listed_find listed_update_one
    listed_metric listed_now.

Definition listed_lookups :=
  lookups nat listed_token listed_feed listed_no_fundamentals
    listed_no_fundamentals listed_find_one listed_update_one listed_now.

(** A listed holding, for the worked revaluation. *)
Definition infy_fields : dict pyval :=
  [("symbol", VStr "INFY"); ("quantity", VNum 2); ("avg_price", VNum 1000);
   ("current_value", VNum 2100); ("total_pnl", VNum 100)].

Definition listed_refresh_holding :=
  refresh_holding nat listed_token listed_feed listed_no_fundamentals
    listed_no_fundamentals listed_now.

(** A store in which one document has no [user_id]. *)
Definition store_with_stray : sim :=
  mkSim [portfolio_u1; VDict [("holdings", VList [])]]
    [("TCS", VNum 12)] true true 1.

(** * Properties *)

(** ** Dictionaries *)

Section AssocFacts.
Context {K V : Type}.
Variable keq : K -> K -> bool.

Lemma assoc_get_none (d : list (K * V)) (k : K) :
  assoc_get keq d k = None -> Forall (fun k' => keq k' k = false) (map fst d).
Proof.
  induction d as [| [k' v'] d IH]; simpl; intros H.
  - constructor.
  - destruct (keq k' k) eqn:E; [discriminate |].
    constructor; auto.
Qed.

Lemma assoc_get_some (d : list (K * V)) (k : K) (v : V) :
  assoc_get keq d k = Some v -> exists k', In (k', v) d /\ keq k' k = true.
Proof.
  induction d as [| [k' v'] d IH]; simpl; intros H; [discriminate |].
  destruct (keq k' k) eqn:E.
  - injection H as ->. exists k'. auto.
  - destruct (IH H) as [k0 [Hin Hk]]. exists k0. auto.
Qed.

(** Writing under a key that is absent appends the entry. *)
Lemma assoc_set_absent (d : list (K * V)) (k : K) (v : V) :
  assoc_get keq d k = None -> assoc_set keq d k v = (d ++ [(k, v)])%list.
Proof.
  induction d as [| [k' v'] d IH]; simpl; intros H; [reflexivity |].
  destruct (keq k' k); [discriminate |].
  now rewrite IH.
Qed.

(** Writing under a key that is present keeps the keys and their order. *)
Lemma assoc_set_present_keys (d : list (K * V)) (k : K) (v0 v : V) :
  assoc_get keq d k = Some v0 ->
  map fst (assoc_set keq d k v) = map fst d.
Proof.
  induction d as [| [k' v'] d IH]; simpl; intros H; [discriminate |].
  destruct (keq k' k); simpl; [reflexivity |].
  now rewrite IH.
Qed.

(** A property of the entries survives a write when the new entry has it
    under the key it is stored with. *)
Lemma assoc_set_Forall (P : K * V -> Prop) (d : list (K * V)) (k : K) (v : V) :
  Forall P d ->
  P (k, v) ->
  (forall k' v', In (k', v') d -> keq k' k = true -> P (k', v)) ->
  Forall P (assoc_set keq d k v).
Proof.
  intros Hd Hk Heq.
  induction d as [| [k' v'] d IH]; simpl.
  - constructor; [assumption | constructor].
  - inversion Hd as [| ? ? Hx Hrest]; subst.
    destruct (keq k' k) eqn:E; constructor; auto.
    + apply (Heq k' v'); [now left | assumption].
    + apply IH; [assumption |].
      intros k0 v0 Hin. apply (Heq k0 v0). now right.
Qed.

Lemma assoc_set_length (d : list (K * V)) (k : K) (v : V) :
  (List.length (assoc_set keq d k v) <= S (List.length d))%nat.
Proof.
  induction d as [| [k' v'] d IH]; simpl; [lia |].
  destruct (keq k' k); simpl; lia.
Qed.
End AssocFacts.

Lemma ForallOrdPairs_snoc {A : Type} (R : A -> A -> Prop) (l : list A) (y : A) :
  ForallOrdPairs R l -> Forall (fun x => R x y) l -> ForallOrdPairs R (l ++ [y])%list.
Proof.
  induction 1 as [| a l Ha Hl IH]; simpl; intros Hy.
  - constructor; constructor.
  - inversion Hy as [| ? ? Hay Hly]; subst.
    constructor.
    + apply Forall_app; split; [assumption | constructor; [assumption | constructor]].
    + apply IH; assumption.
Qed.

(** ** Equality of hashable values *)

Lemma py_eq_num (a b : pyval) (p q : Q) :
  num_of a = Some p -> num_of b = Some q -> py_eq a b = Qeq_bool p q.
Proof.
  destruct a as [| x | p' | s | l | d], b as [| y | q' | t | m | e]; simpl;
    intros Ha Hb; try discriminate;
    injection Ha as <-; injection Hb as <-; try reflexivity.
  now destruct x, y.
Qed.

Lemma hashable_cases (a : pyval) :
  hashable a = true ->
  a = VNone \/ (exists s, a = VStr s) \/ (exists q, num_of a = Some q).
Proof.
  destruct a; simpl; intros H; try discriminate; eauto.
Qed.

Lemma py_eq_num_other (a b : pyval) (p : Q) :
  num_of a = Some p -> num_of b = None -> py_eq a b = false /\ py_eq b a = false.
Proof.
  destruct a, b; simpl; intros; try discriminate; auto.
Qed.

Lemma py_eq_trans_hashable (a b c : pyval) :
  hashable a = true -> hashable b = true -> hashable c = true ->
  py_eq a b = true -> py_eq b c = true -> py_eq a c = true.
Proof.
  intros Ha Hb Hc H1 H2.
  destruct (hashable_cases a Ha) as [-> | [[s ->] | [p Hp]]].
  - destruct b; try discriminate. assumption.
  - destruct b; try discriminate.
    simpl in H1. apply String.eqb_eq in H1. now subst.
  - destruct (num_of b) as [q |] eqn:Hq.
    + destruct (num_of c) as [r |] eqn:Hr.
      * rewrite (py_eq_num _ _ _ _ Hp Hq) in H1.
        rewrite (py_eq_num _ _ _ _ Hq Hr) in H2.
        rewrite (py_eq_num _ _ _ _ Hp Hr).
        now apply Qeq_bool_trans with q.
      * destruct (py_eq_num_other b c q Hq Hr) as [E _]. congruence.
    + destruct (py_eq_num_other a b p Hp Hq) as [E _]. congruence.
Qed.

Lemma py_eq_sym_hashable (a b : pyval) :
  hashable a = true -> hashable b = true -> py_eq a b = py_eq b a.
Proof.
  intros Ha Hb.
  destruct (hashable_cases a Ha) as [-> | [[s ->] | [p Hp]]].
  - now destruct b.
  - destruct b; try reflexivity. apply String.eqb_sym.
  - destruct (num_of b) as [q |] eqn:Hq.
    + rewrite (py_eq_num _ _ _ _ Hp Hq), (py_eq_num _ _ _ _ Hq Hp).
      apply eq_true_iff_eq. rewrite !Qeq_bool_iff.
      split; intros E; now symmetry.
    + destruct (py_eq_num_other a b p Hp Hq) as [E1 E2]. congruence.
Qed.

Lemma py_eq_refl_hashable (a : pyval) : hashable a = true -> py_eq a a = true.
Proof.
  intros Ha.
  destruct (hashable_cases a Ha) as [-> | [[s ->] | [q E]]].
  - reflexivity.
  - apply String.eqb_refl.
  - rewrite (py_eq_num _ _ _ _ E E). apply Qeq_bool_refl.
Qed.

(** ** Deduplication *)

Section Deduplicate.

Lemma merge_is_one_of (existing new : Security) :
  _merge_securities existing new = existing \/
  _merge_securities existing new = new.
Proof.
  unfold _merge_securities.
  destruct (priority (source existing) <? priority (source new)); auto.
  destruct (last_updated new) as [tn |], (last_updated existing) as [te |]; auto.
  destruct (te <? tn); auto.
Qed.

Lemma grouped_ok_step (grouped : list (pyval * Security)) (security : Security) :
  grouped_ok grouped ->
  hashable (identity_key security) = true ->
  grouped_ok
    (assoc_set py_eq grouped (identity_key security) (written grouped security)).
Proof.
  intros [Hkeys Hfiled] Hh.
  set (key := identity_key security) in *.
  assert (Hwritten : forall k' v', In (k', v') grouped -> py_eq k' key = true ->
            filed (k', written grouped security)).
  { intros k' v' Hin Hk'.
    assert (Hk'h : hashable k' = true).
    { rewrite Forall_forall in Hfiled. apply (Hfiled _ Hin). }
    unfold written. fold key.
    destruct (assoc_get py_eq grouped key) as [existing |] eqn:G.
    - destruct (assoc_get_some py_eq _ _ _ G) as [k0 [Hin0 Hk0]].
      rewrite Forall_forall in Hfiled.
      destruct (Hfiled _ Hin0) as [Hk0h [Hexh Hk0ex]]; simpl in *.
      destruct (merge_is_one_of existing security) as [-> | ->];
        repeat split; simpl; auto.
      apply py_eq_trans_hashable with key; auto.
      apply py_eq_trans_hashable with k0; auto.
      rewrite py_eq_sym_hashable; auto.
    - repeat split; auto. }
  split.
  - unfold pairwise_distinct.
    destruct (assoc_get py_eq grouped key) as [existing |] eqn:G.
    + now rewrite (assoc_set_present_keys py_eq _ _ existing).
    + rewrite (assoc_set_absent py_eq _ _ _ G), map_app. simpl.
      apply ForallOrdPairs_snoc; [assumption |].
      exact (assoc_get_none py_eq grouped key G).
  - apply assoc_set_Forall; [assumption | | assumption].
    unfold written. fold key.
    destruct (assoc_get py_eq grouped key) as [existing |] eqn:G.
    + destruct (assoc_get_some py_eq _ _ _ G) as [k0 [Hin0 Hk0]].
      pose proof (Hwritten k0 existing Hin0 Hk0) as Hf.
      unfold written in Hf. fold key in Hf. rewrite G in Hf.
      destruct Hf as [Hk0h [Hmh Hk0m]]; simpl in *.
      repeat split; simpl; auto.
      apply py_eq_trans_hashable with k0; auto.
      rewrite py_eq_sym_hashable; auto.
    + repeat split; simpl; auto. apply py_eq_refl_hashable; assumption.
Qed.

Lemma group_securities_ok (securities : list Security) :
  forall grouped,
    grouped_ok grouped ->
    Forall (fun s => hashable (identity_key s) = true) securities ->
    exists grouped',
      group_securities grouped securities = Ok grouped' /\
      grouped_ok grouped' /\
      (List.length grouped' <= List.length grouped + List.length securities)%nat.
Proof.
  induction securities as [| security rest IH]; intros grouped Hg Hall.
  - exists grouped. simpl. repeat split; try apply Hg. lia.
  - inversion Hall as [| ? ? Hh Hrest]; subst.
    pose proof (grouped_ok_step grouped security Hg Hh) as Hstep.
    pose proof (assoc_set_length py_eq grouped (identity_key security)
                  (written grouped security)) as Hlen.
    destruct (IH _ Hstep Hrest) as [g' [Hrun [Hok Hle]]].
    exists g'. split; [| split; [assumption | simpl; lia]].
    simpl. rewrite Hh. unfold written in Hrun.
    destruct (assoc_get py_eq grouped (identity_key security)); exact Hrun.
Qed.

(** Distinct keys of the dictionary give distinct keys of the values. *)
Lemma values_distinct (grouped : list (pyval * Security)) :
  grouped_ok grouped ->
  pairwise_distinct (map identity_key (map snd grouped)).
Proof.
  intros [Hkeys Hfiled].
  induction grouped as [| [k v] grouped IH]; simpl; [constructor |].
  inversion Hkeys as [| ? ? Hk Hrest]; subst.
  inversion Hfiled as [| ? ? Hkv Hfrest]; subst.
  destruct Hkv as [Hkh [Hvh Hkv]]; simpl in *.
  constructor; [| apply IH; assumption].
  clear IH Hrest Hkeys Hfiled.
  induction grouped as [| [k' v'] grouped IH]; simpl; [constructor |].
  inversion Hk as [| ? ? Hkk' Hk_rest]; subst.
  inversion Hfrest as [| ? ? Hk'v' Hf']; subst.
  destruct Hk'v' as [Hk'h [Hv'h Hk'v']]; simpl in *.
  constructor; [| apply IH; assumption].
  destruct (py_eq (identity_key v) (identity_key v')) eqn:E; [| reflexivity].
  rewrite <- Hkk'. symmetry.
  apply py_eq_trans_hashable with (identity_key v); auto.
  apply py_eq_trans_hashable with (identity_key v'); auto.
  rewrite py_eq_sym_hashable; auto.
Qed.

End Deduplicate.

Lemma merge_full_tie_keeps_first (existing new : Security) :
  priority (source new) = priority (source existing) ->
  last_updated new = last_updated existing ->
  _merge_securities existing new = existing.
Proof.
  intros Hp Ht. unfold _merge_securities.
  rewrite Hp, Z.ltb_irrefl, Ht.
  destruct (last_updated existing) as [t |]; [| reflexivity].
  now rewrite Z.ltb_irrefl.
Qed.

Lemma merge_higher_priority_new_wins (existing new : Security) :
  priority (source existing) < priority (source new) ->
  _merge_securities existing new = new.
Proof.
  intros Hp. unfold _merge_securities.
  apply Z.ltb_lt in Hp. now rewrite Hp.
Qed.

(** The guard on the time stamps does not look at the priorities: a newer
    record replaces the stored one whatever their sources. *)
Lemma merge_later_new_wins (existing new : Security) (t_existing t_new : Z) :
  last_updated existing = Some t_existing ->
  last_updated new = Some t_new ->
  t_existing < t_new ->
  _merge_securities existing new = new.
Proof.
  intros He Hn Ht. unfold _merge_securities.
  rewrite He, Hn. apply Z.ltb_lt in Ht. rewrite Ht.
  now destruct (priority (source existing) <? priority (source new)).
Qed.

(** ** The merge rule and its documentation *)

(** The code and its documentation agree unless the new record has the
    lower priority. *)
Lemma merge_agrees_with_documentation (existing new : Security) :
  priority (source existing) <= priority (source new) ->
  _merge_securities existing new = merge_as_documented existing new.
Proof.
  intros Hle. unfold _merge_securities, merge_as_documented.
  destruct (Z.ltb_spec (priority (source existing)) (priority (source new)));
    [reflexivity |].
  destruct (Z.eqb_spec (priority (source existing)) (priority (source new)));
    [reflexivity | lia].
Qed.

(** Under the documented rule the rank of the survivor of two stamped
    records does not depend on which of them came first. *)
Lemma documented_merge_ignores_order (a b : Security) (ta tb : Z) :
  last_updated a = Some ta ->
  last_updated b = Some tb ->
  rank (merge_as_documented a b) = rank (merge_as_documented b a).
Proof.
  intros Ha Hb. unfold merge_as_documented. rewrite Ha, Hb.
  destruct (Z.ltb_spec (priority (source a)) (priority (source b)));
    destruct (Z.ltb_spec (priority (source b)) (priority (source a)));
    destruct (Z.eqb_spec (priority (source a)) (priority (source b)));
    destruct (Z.eqb_spec (priority (source b)) (priority (source a)));
    try lia; try reflexivity.
  destruct (Z.ltb_spec ta tb); destruct (Z.ltb_spec tb ta);
    try lia; try reflexivity.
  unfold rank. rewrite Ha, Hb. f_equal; [congruence | f_equal; lia].
Qed.

(** The code does not have that property: on the two worked records the
    two orders give survivors of different rank. *)
Example code_merge_depends_on_order :
  rank (_merge_securities reliance_fyers reliance_manual)
  <> rank (_merge_securities reliance_manual reliance_fyers).
Proof. discriminate. Qed.

(** C1.  On the input [FYERS record updated at 100; MANUAL record updated
    at 200], both with the same isin, the code keeps the MANUAL record: the
    record of lower priority wins because it is newer.  The claim asks for
    the FYERS record. *)
Theorem newer_manual_record_replaces_broker_record :
  priority (source reliance_manual) < priority (source reliance_fyers) /\
  identity_key reliance_fyers = identity_key reliance_manual /\
  _merge_securities reliance_fyers reliance_manual = reliance_manual /\
  _deduplicate_securities [reliance_fyers; reliance_manual]
    = Ok [reliance_manual] /\
  exists kept,
    consolidate_securities float_of_decimal (fun n => 100 + Z.of_nat n)
      [[("symbol", VStr "RELIANCE"); ("isin", VStr "INE002A01018");
        ("quantity", VNum 10)]]
      []
      [[("symbol", VStr "RELIANCE"); ("isin", VStr "INE002A01018");
        ("quantity", VNum 4)]]
    = Ok [kept] /\ source kept = "MANUAL".
Proof.
  repeat split.
  eexists. split; vm_compute; reflexivity.
Qed.

(** C2.  The two orders of the same two records give different survivors,
    so the output is not independent of the input order. *)
Theorem deduplication_depends_on_input_order :
  Permutation [reliance_fyers; reliance_manual] [reliance_manual; reliance_fyers] /\
  _deduplicate_securities [reliance_fyers; reliance_manual]
    = Ok [reliance_manual] /\
  _deduplicate_securities [reliance_manual; reliance_fyers]
    = Ok [reliance_fyers].
Proof.
  split; [apply perm_swap | split; reflexivity].
Qed.

(** C3, as the claim states it: two records whose symbols differ in letter
    case only are both kept, although the identity key of the
    specification is the same for both. *)
Lemma symbols_differing_in_case_do_not_merge :
  _deduplicate_securities [tcs_statement; tcs_manual]
    = Ok [tcs_statement; tcs_manual] /\
  spec_identity_key tcs_statement = spec_identity_key tcs_manual.
Proof.
  split; reflexivity.
Qed.

(** C3, amended.  When every key can be hashed, deduplication returns a
    list whose identity keys -- the isin when it is truthy, otherwise the
    symbol as it is written -- are pairwise different, and which is no
    longer than the input. *)
Theorem deduplicate_keys_distinct (securities : list Security) :
  Forall (fun s => hashable (identity_key s) = true) securities ->
  exists out,
    _deduplicate_securities securities = Ok out /\
    pairwise_distinct (map identity_key out) /\
    (List.length out <= List.length securities)%nat.
Proof.
  intros Hall.
  assert (Hempty : grouped_ok []) by (split; constructor).
  destruct (group_securities_ok securities [] Hempty Hall)
    as [grouped [Hrun [Hok Hlen]]].
  exists (map snd grouped).
  unfold _deduplicate_securities. rewrite Hrun. simpl.
  split; [reflexivity | split].
  - now apply values_distinct.
  - rewrite length_map. simpl in Hlen. lia.
Qed.

(** The theorem above at three worked records, two of which share a key. *)
Lemma deduplicate_keys_distinct_witness :
  exists out,
    _deduplicate_securities [reliance_fyers; tcs_statement; reliance_manual]
      = Ok out /\
    pairwise_distinct (map identity_key out) /\
    (List.length out <= 3)%nat.
Proof.
  apply (deduplicate_keys_distinct [reliance_fyers; tcs_statement; reliance_manual]).
  repeat constructor.
Defined.

(** ** Converters *)

Section ConverterFacts.
Variable float_of_str : string -> option Q.

Local Abbreviation raw := (raw_number float_of_str).

(** A field that is absent never makes the conversion raise. *)
Lemma raw_raises (item : dict pyval) (k : string) (e : exn) :
  raw item k = Raise e ->
  exists v, dict_get item k = Some v /\ is_ok (py_float float_of_str v) = false.
Proof.
  unfold raw_number, dict_get_default.
  destruct (dict_get item k) as [v |]; simpl; intros H; [| discriminate].
  exists v. split; [reflexivity |]. now rewrite H.
Qed.

Lemma raw_ok (item : dict pyval) (k : string) (q : Q) :
  raw item k = Ok q ->
  match dict_get item k with
  | Some v => py_float float_of_str v = Ok q
  | None => q = 0%Q
  end.
Proof.
  unfold raw_number, dict_get_default.
  destruct (dict_get item k) as [v |]; simpl; intros H; [assumption |].
  now injection H.
Qed.

Lemma security_of_item_contract (tag : string) (now : Z) (item : dict pyval) :
  converts_as float_of_str tag
    (fun now item =>
       match security_of_item float_of_str tag now item with
       | Ok s => Some s
       | Raise _ => None
       end) now item.
Proof.
  unfold converts_as, security_of_item.
  destruct (raw item "quantity") as [q | e] eqn:Eq; simpl.
  2: { split; [| discriminate]. split; [intros _ | reflexivity].
       destruct (raw_raises _ _ _ Eq) as [v [Hv Hf]].
       exists "quantity", v. split; [simpl; tauto | auto]. }
  destruct (raw item "avg_price") as [a | e] eqn:Ea; simpl.
  2: { split; [| discriminate]. split; [intros _ | reflexivity].
       destruct (raw_raises _ _ _ Ea) as [v [Hv Hf]].
       exists "avg_price", v. split; [simpl; tauto | auto]. }
  destruct (raw item "current_price") as [c | e] eqn:Ec; simpl.
  2: { split; [| discriminate]. split; [intros _ | reflexivity].
       destruct (raw_raises _ _ _ Ec) as [v [Hv Hf]].
       exists "current_price", v. split; [simpl; tauto | auto]. }
  destruct (raw item "market_value") as [m | e] eqn:Em; simpl.
  2: { split; [| discriminate]. split; [intros _ | reflexivity].
       destruct (raw_raises _ _ _ Em) as [v [Hv Hf]].
       exists "market_value", v. split; [simpl; tauto | auto]. }
  destruct (raw item "pnl") as [p | e] eqn:Ep; simpl.
  2: { split; [| discriminate]. split; [intros _ | reflexivity].
       destruct (raw_raises _ _ _ Ep) as [v [Hv Hf]].
       exists "pnl", v. split; [simpl; tauto | auto]. }
  destruct (raw item "pnl_percentage") as [pp | e] eqn:Epp; simpl.
  2: { split; [| discriminate]. split; [intros _ | reflexivity].
       destruct (raw_raises _ _ _ Epp) as [v [Hv Hf]].
       exists "pnl_percentage", v. split; [simpl; tauto | auto]. }
  split.
  - split; [discriminate |].
    intros [k [v [Hk [Hv Hf]]]]. exfalso.
    simpl in Hk.
    destruct Hk as [<- | [<- | [<- | [<- | [<- | [<- | []]]]]]];
      [ apply raw_ok in Eq; rewrite Hv in Eq; rewrite Eq in Hf
      | apply raw_ok in Ea; rewrite Hv in Ea; rewrite Ea in Hf
      | apply raw_ok in Ec; rewrite Hv in Ec; rewrite Ec in Hf
      | apply raw_ok in Em; rewrite Hv in Em; rewrite Em in Hf
      | apply raw_ok in Ep; rewrite Hv in Ep; rewrite Ep in Hf
      | apply raw_ok in Epp; rewrite Hv in Epp; rewrite Epp in Hf ];
      discriminate.
  - intros s Hs. injection Hs as <-. unfold __post_init__. simpl.
    repeat split.
    intros k Hk. simpl in Hk.
    destruct Hk as [<- | [<- | [<- | [<- | [<- | [<- | []]]]]]]; simpl;
      [ exact (raw_ok _ _ _ Eq) | exact (raw_ok _ _ _ Ea)
      | exact (raw_ok _ _ _ Ec) | exact (raw_ok _ _ _ Em)
      | exact (raw_ok _ _ _ Ep) | exact (raw_ok _ _ _ Epp) ].
Qed.

End ConverterFacts.

(** C4, as the claim states it: the empty record, which has no symbol, no
    isin and no quantity, is converted (nothing is required); and a record
    with every required field fails as a whole because one other number
    cannot be parsed (the number is not replaced by 0). *)
Lemma conversion_requires_nothing_and_rejects_bad_numbers :
  _convert_manual_to_security float_of_decimal 7 []
    = Some (mkSecurity (VStr "") (VStr "") 0 0 0 0 0 0 (VStr "STOCK") VNone
              "MANUAL" (Some 7)) /\
  dict_get item_bad_avg_price "symbol" = Some (VStr "TCS") /\
  dict_get item_bad_avg_price "quantity" = Some (VNum 5) /\
  _convert_fyers_to_security float_of_decimal 7 item_bad_avg_price = None.
Proof.
  repeat split.
Qed.

(** C4, amended.  Each converter fails exactly when a numeric field that is
    present cannot be converted by [float]; no field is required.  When it
    succeeds, an absent numeric field (the quantity included) is 0, an
    absent symbol or name is the empty string, an absent security type is
    STOCK, and the time stamp is the time of the call. *)
Theorem conversion_fails_exactly_on_bad_number
    (float_of_str : string -> option Q) (now : Z) (item : dict pyval) :
  converts_as float_of_str "FYERS" (_convert_fyers_to_security float_of_str)
    now item /\
  converts_as float_of_str "CAS" (_convert_cas_to_security float_of_str)
    now item /\
  converts_as float_of_str "MANUAL" (_convert_manual_to_security float_of_str)
    now item.
Proof.
  split; [| split].
  - exact (security_of_item_contract float_of_str "FYERS" now item).
  - exact (security_of_item_contract float_of_str "CAS" now item).
  - exact (security_of_item_contract float_of_str "MANUAL" now item).
Qed.

(** ** Screening *)

Lemma operator_rejects_holds (operator : string) (value threshold : pyval) :
  operator_rejects operator value threshold = Ok false <->
  operator_holds value (operator, threshold).
Proof.
  unfold operator_rejects, operator_holds, py_gt.
  destruct (String.eqb_spec operator "$gte") as [-> | Hgte].
  { split; [intros H; repeat split; intros E; try discriminate; assumption |].
    intros [H _]. now apply H. }
  destruct (String.eqb_spec operator "$lte") as [-> | Hlte].
  { split; [intros H; repeat split; intros E; try discriminate; assumption |].
    intros [_ [H _]]. now apply H. }
  destruct (String.eqb_spec operator "$in") as [-> | Hin].
  { split.
    - intros H. repeat split; intros E; try discriminate.
      destruct (py_in value threshold) as [[|] | e]; simpl in H;
        try discriminate; reflexivity.
    - intros [_ [_ [H _]]]. now rewrite H. }
  destruct (String.eqb_spec operator "$nin") as [-> | Hnin].
  { split; [intros H; repeat split; intros E; try discriminate; assumption |].
    intros [_ [_ [_ H]]]. now apply H. }
  split; [| reflexivity].
  intros _. repeat split; intros E; contradiction.
Qed.

(** The operators of one condition are a conjunction: the condition passes
    exactly when every operator holds. *)
Lemma check_operators_all (value : pyval) (cond : condition) :
  check_operators value cond = Ok true <-> Forall (operator_holds value) cond.
Proof.
  induction cond as [| [operator threshold] rest IH]; simpl.
  - split; [constructor | reflexivity].
  - destruct (operator_rejects operator value threshold) as [[|] | e] eqn:E;
      simpl.
    + split; [discriminate |].
      intros H. inversion H as [| ? ? Hop _]; subst.
      apply operator_rejects_holds in Hop. congruence.
    + rewrite IH. split.
      * intros H. constructor; [now apply operator_rejects_holds | assumption].
      * intros H. now inversion H.
    + split; [discriminate |].
      intros H. inversion H as [| ? ? Hop _]; subst.
      apply operator_rejects_holds in Hop. congruence.
Qed.

Lemma check_operators_bool (value : pyval) (cond : condition) (b : bool) :
  check_operators value cond = Ok b ->
  b = true <-> Forall (operator_holds value) cond.
Proof.
  intros H. rewrite <- check_operators_all, H.
  split; congruence.
Qed.

(** Walking the path as the source does finds a value exactly when the
    record holds one there; in every other case -- a key that is absent, a
    membership test or an indexing that raises -- there is none. *)
Lemma navigate_value_at (keys : list string) :
  forall record,
    match navigate record keys with
    | Ok (Some value) => value_at record keys = Some value
    | Ok None | Raise _ => value_at record keys = None
    end.
Proof.
  induction keys as [| key rest IH]; intros record; simpl; [reflexivity |].
  destruct record as [| b | q | s | l | d]; simpl; try reflexivity.
  - destruct (String.index 0 key s); reflexivity.
  - destruct (existsb (fun y => py_eq y (VStr key)) l); reflexivity.
  - unfold dict_mem. destruct (dict_get d key) as [inner |]; simpl;
      [apply IH | reflexivity].
Qed.

Lemma check_field_condition_satisfied (item : pyval) (field : string)
    (cond : condition) :
  _check_field_condition item field cond = true <->
  path_satisfied item field cond.
Proof.
  unfold _check_field_condition, path_satisfied.
  pose proof (navigate_value_at (split_on "." field) item) as Hnav.
  destruct (navigate item (split_on "." field)) as [[value |] | e]; simpl.
  - destruct (check_operators value cond) as [b | e] eqn:E.
    + rewrite (check_operators_bool _ _ _ E). split.
      * intros H. exists value. auto.
      * intros [v [Hv H]]. rewrite Hnav in Hv. now injection Hv as <-.
    + split; [discriminate |].
      intros [v [Hv H]]. rewrite Hnav in Hv. injection Hv as <-.
      apply check_operators_all in H. congruence.
  - split; [discriminate | intros [v [Hv _]]; congruence].
  - split; [discriminate | intros [v [Hv _]]; congruence].
Qed.

Lemma check_field_condition_missing (item : pyval) (field : string)
    (cond : condition) :
  path_missing item field -> _check_field_condition item field cond = false.
Proof.
  unfold path_missing, _check_field_condition.
  pose proof (navigate_value_at (split_on "." field) item) as Hnav.
  intros H.
  destruct (navigate item (split_on "." field)) as [[value |] | e]; simpl;
    [congruence | reflexivity | reflexivity].
Qed.

Lemma apply_stock_filters_all (stock : pyval) (q : query) :
  _apply_stock_filters stock q = true <->
  Forall (fun entry => path_satisfied stock (fst entry) (snd entry)) q.
Proof.
  induction q as [| [field cond] rest IH]; simpl.
  - split; [constructor | reflexivity].
  - destruct (_check_field_condition stock field cond) eqn:E.
    + rewrite IH. split.
      * intros H. constructor; [now apply check_field_condition_satisfied | assumption].
      * intros H. now inversion H.
    + split; [discriminate |].
      intros H. inversion H as [| ? ? Hc _]; subst.
      apply check_field_condition_satisfied in Hc. simpl in Hc. congruence.
Qed.

(** A lower and an upper bound on one field end up in one condition. *)
Lemma min_and_max_share_a_condition (lo hi : pyval) :
  _build_screening_query [("pe_ratio_min", lo); ("pe_ratio_max", hi)]
  = [("fundamental_data.pe_ratio", [("$gte", lo); ("$lte", hi)])].
Proof. reflexivity. Qed.

(** C7.  With both [sectors] and [exclude_sectors] in the request, the
    query keeps the [$nin] condition only: the [$in] condition written first
    is overwritten.  RELIANCE, whose sector is not among the requested
    ones, is returned. *)
Theorem exclude_sectors_overwrites_sectors :
  _build_screening_query sector_filters
    = [("basic_info.sector", [("$nin", VList [VStr "Banking"])])] /\
  symbols_of (_execute_screening (_build_screening_query sector_filters))
    = [Ok (VStr "RELIANCE"); Ok (VStr "TCS")] /\
  value_at (mock_stock "RELIANCE" "Reliance Industries" "Oil & Gas"
              1500000000000 (5001 # 2) (37 # 2) (21 # 10) (25 # 2) (76 # 5))
      (split_on "." "basic_info.sector") = Some (VStr "Oil & Gas") /\
  py_in (VStr "Oil & Gas") (VList [VStr "Technology"]) = Ok false.
Proof.
  repeat split.
Qed.

(** C8.  A record of the catalog is in the filtered result exactly when the
    conditions of every field path of the query are satisfied; a record
    that misses a filtered path is left out (the evaluator is a total
    function: nothing is raised); with no filters the whole catalog is
    returned. *)
Theorem screened_iff_every_path_satisfied
    (catalog : list pyval) (q : query) (record : pyval) :
  (In record (screen_catalog catalog q) <->
   In record catalog /\
   Forall (fun entry => path_satisfied record (fst entry) (snd entry)) q) /\
  (forall field cond,
     In (field, cond) q -> path_missing record field ->
     ~ In record (screen_catalog catalog q)) /\
  screen_catalog catalog [] = catalog /\
  _execute_screening q = screen_catalog _get_mock_stocks q.
Proof.
  unfold screen_catalog.
  split; [| split; [| split]].
  - rewrite filter_In, apply_stock_filters_all. reflexivity.
  - intros field cond Hin Hmiss Hrec.
    apply filter_In in Hrec. destruct Hrec as [_ Hall].
    apply apply_stock_filters_all in Hall.
    rewrite Forall_forall in Hall. specialize (Hall _ Hin). simpl in Hall.
    apply check_field_condition_satisfied in Hall.
    rewrite (check_field_condition_missing _ _ _ Hmiss) in Hall. discriminate.
  - induction catalog as [| x l IH]; simpl in *; [reflexivity | now rewrite IH].
  - reflexivity.
Qed.

(** ** Batch refresh *)

Section BatchRefresh.

Variable world : Type.
Variable fyers_access_token : world -> pyval.
Variable fyers_get_current_price : pyval -> M world pyval.
Variable get_cached_fundamentals : pyval -> M world pyval.
Variable get_stock_fundamentals : pyval -> M world pyval.
Variable portfolios_find_one : pyval -> M world pyval.
Variable portfolios_find : M world (list pyval).
Variable portfolios_update_one : pyval -> pyval -> M world unit.
Variable system_metrics_update_one : M world unit.
Variable now_isoformat : world -> string * world.

Local Abbreviation refresh_user' :=
  (refresh_user world fyers_access_token fyers_get_current_price
     get_cached_fundamentals get_stock_fundamentals portfolios_find_one
     portfolios_update_one now_isoformat).
Local Abbreviation refresh_users' :=
  (refresh_users world fyers_access_token fyers_get_current_price
     get_cached_fundamentals get_stock_fundamentals portfolios_find_one
     portfolios_update_one now_isoformat).
Local Abbreviation lookups' :=
  (lookups world fyers_access_token fyers_get_current_price
     get_cached_fundamentals get_stock_fundamentals portfolios_find_one
     portfolios_update_one now_isoformat).
Local Abbreviation get_portfolio' := (_get_user_portfolio world portfolios_find_one).

(** A user is passed over exactly when the lookup returned nothing. *)
Lemma refresh_user_outcome (user_id : pyval) (w : world) :
  match fst (refresh_user' user_id w) with
  | NoPortfolio => truthy (fst (get_portfolio' user_id w)) = false
  | Refreshed | Failed _ => truthy (fst (get_portfolio' user_id w)) = true
  end.
Proof.
  unfold refresh_user.
  destruct (get_portfolio' user_id w) as [portfolio w1]; simpl.
  destruct (truthy portfolio) eqn:T; [| reflexivity].
  destruct (_refresh_portfolio_prices _ _ _ _ _ _ _ _ _ _ _) as [res w2].
  destruct (py_get res "success" VNone) as [ok | e]; simpl; [| reflexivity].
  destruct (truthy ok); simpl; [reflexivity |].
  destruct (py_get res "error" (VStr "Unknown error")); reflexivity.
Qed.

Lemma lookups_users (users : list pyval) :
  forall w, map fst (lookups' users w) = users.
Proof.
  induction users as [| u rest IH]; intros w; simpl; [reflexivity |].
  now rewrite IH.
Qed.

(** What the loop adds to the counters: one unit of [successful] or of
    [failed] for each lookup that found a document, and an entry of
    [errors] for each failure, under the id of a user that was found. *)
Lemma refresh_users_tally (users : list pyval) :
  forall r w,
    let r' := fst (refresh_users' users r w) in
    total_users r' = total_users r /\
    (successful r' + failed r'
     = successful r + failed r + List.length (found (lookups' users w)))%nat /\
    exists added,
      errors r' = (errors r ++ added)%list /\
      (failed r' = failed r + List.length added)%nat /\
      incl (map fst added) (map fst (found (lookups' users w))).
Proof.
  induction users as [| u rest IH]; intros r w; simpl.
  - repeat split; try lia.
    exists []. rewrite app_nil_r. repeat split; [simpl; lia | apply incl_refl].
  - pose proof (refresh_user_outcome u w) as Hout.
    destruct (refresh_user' u w) as [o w1] eqn:Hstep; simpl in *.
    specialize (IH (record_outcome u o r) w1).
    destruct IH as [Htot [Hsum [added [Herr [Hfail Hincl]]]]].
    unfold found in *. simpl.
    destruct o as [| msg |]; simpl in *; rewrite Hout; simpl.
    + repeat split; [assumption | lia |].
      exists added. repeat split; try assumption.
      now apply incl_tl.
    + repeat split; [assumption | lia |].
      exists ((u, msg) :: added). rewrite <- app_assoc in Herr.
      repeat split; [assumption | simpl; lia |].
      simpl. apply incl_cons; [now left | now apply incl_tl].
    + repeat split; [assumption | lia |].
      exists added. repeat split; assumption.
Qed.

(** C10.  In a run of [refresh_all_portfolios], every user whose lookup
    found a document counts once, as successful or as failed, and every
    user whose lookup returned no document counts in [total_users] only.
    Hence [successful + failed <= total_users], strictly exactly when
    some lookup returned no document; the entries of [errors] are as
    many as [failed] and all bear the id of a user that was found. *)
Theorem refresh_all_counts (w : world) :
  let users := fst (_get_all_users_with_portfolios world portfolios_find w) in
  let w1 := snd (_get_all_users_with_portfolios world portfolios_find w) in
  let r :=
    fst (refresh_all_portfolios world fyers_access_token
           fyers_get_current_price get_cached_fundamentals
           get_stock_fundamentals portfolios_find_one portfolios_find
           portfolios_update_one system_metrics_update_one now_isoformat w) in
  let looked_up := lookups' users w1 in
  map fst looked_up = users /\
  total_users r = List.length users /\
  (successful r + failed r + List.length (missed looked_up) = total_users r)%nat /\
  (successful r + failed r <= total_users r)%nat /\
  ((successful r + failed r < total_users r)%nat <->
   exists user_id doc, In (user_id, doc) looked_up /\ truthy doc = false) /\
  List.length (errors r) = failed r /\
  incl (map fst (errors r)) (map fst (found looked_up)).
Proof.
  unfold refresh_all_portfolios.
  destruct (_get_all_users_with_portfolios world portfolios_find w)
    as [users w1]; simpl.
  pose proof (refresh_users_tally users (mkRunResult (List.length users) 0 0 []) w1)
    as Htally.
  destruct (refresh_users' users (mkRunResult (List.length users) 0 0 []) w1)
    as [r w2]; simpl in *.
  destruct Htally as [Htot [Hsum [added [Herr [Hfail Hincl]]]]].
  assert (Hsplit : (List.length (found (lookups' users w1))
                    + List.length (missed (lookups' users w1)))%nat
                   = List.length (lookups' users w1))
    by apply (filter_length (fun l => truthy (snd l))).
  assert (Hlen : List.length (lookups' users w1) = List.length users)
    by (rewrite <- (lookups_users users w1) at 2; now rewrite length_map).
  repeat split.
  - apply lookups_users.
  - assumption.
  - lia.
  - lia.
  - intros Hlt.
    assert (Hm : (0 < List.length (missed (lookups' users w1)))%nat) by lia.
    destruct (missed (lookups' users w1)) as [| [u doc] rest] eqn:E;
      [simpl in Hm; lia |].
    assert (Hin : In (u, doc) (missed (lookups' users w1)))
      by (rewrite E; now left).
    unfold missed in Hin. apply filter_In in Hin. destruct Hin as [Hin Hf].
    exists u, doc. split; [assumption |].
    simpl in Hf. now apply negb_true_iff in Hf.
  - intros [u [doc [Hin Hf]]].
    assert (Hm : In (u, doc) (missed (lookups' users w1))).
    { unfold missed. apply filter_In. split; [assumption |].
      simpl. now rewrite Hf. }
    destruct (missed (lookups' users w1)); [contradiction | simpl in *; lia].
  - rewrite Herr. simpl. lia.
  - rewrite Herr. simpl. assumption.
Qed.

End BatchRefresh.

(** ** Specifications of computations *)

Section Triples.
Context {S : Type}.

Lemma triple_bind {A B : Type} (P : S -> Prop) (m : M S A)
    (Q : A -> S -> Prop) (f : A -> M S B) (R : B -> S -> Prop)
    (E : S -> Prop) :
  triple P m Q E ->
  (forall a, triple (Q a) (f a) R E) ->
  triple P (mbind m f) R E.
Proof.
  intros Hm Hf s Hs. unfold mbind.
  specialize (Hm s Hs).
  destruct (m s) as [[a | e] s']; [apply (Hf a s' Hm) | exact Hm].
Qed.

Lemma triple_ret {A : Type} (P : S -> Prop) (a : A) (E : S -> Prop) :
  triple P (ret a) (fun b s => P s /\ b = a) E.
Proof. intros s Hs. simpl. auto. Qed.

Lemma triple_lift {A : Type} (P : S -> Prop) (r : result A) :
  triple P (lift r) (fun a s => P s /\ r = Ok a) P.
Proof. intros s Hs. unfold lift. destruct r; auto. Qed.

Lemma triple_weaken {A : Type} (P P' : S -> Prop) (m : M S A)
    (Q Q' : A -> S -> Prop) (E E' : S -> Prop) :
  triple P m Q E ->
  (forall s, P' s -> P s) ->
  (forall a s, Q a s -> Q' a s) ->
  (forall s, E s -> E' s) ->
  triple P' m Q' E'.
Proof.
  intros Hm HP HQ HE s Hs. specialize (Hm s (HP s Hs)).
  destruct (m s) as [[a | e] s']; auto.
Qed.

(** A fact that does not depend on the state can be taken out of the
    precondition. *)
Lemma triple_pure {A : Type} (P : S -> Prop) (fact : Prop) (m : M S A)
    (Q : A -> S -> Prop) (E : S -> Prop) :
  (fact -> triple P m Q E) ->
  triple (fun s => P s /\ fact) m Q E.
Proof. intros H s [Hs Hf]. now apply H. Qed.
End Triples.

(** ** Dictionaries with string keys *)

Lemma dict_get_set_same {V : Type} (d : dict V) (k : string) (v : V) :
  dict_get (dict_set d k v) k = Some v.
Proof.
  unfold dict_get, dict_set.
  induction d as [| [k' v'] d IH]; simpl.
  - now rewrite String.eqb_refl.
  - destruct (String.eqb k' k) eqn:E; simpl; rewrite E; [reflexivity | exact IH].
Qed.

Lemma dict_get_set_other {V : Type} (d : dict V) (k k' : string) (v : V) :
  k <> k' -> dict_get (dict_set d k v) k' = dict_get d k'.
Proof.
  intros Hne. unfold dict_get, dict_set.
  induction d as [| [k0 v0] d IH]; simpl.
  - destruct (String.eqb_spec k k'); [contradiction | reflexivity].
  - destruct (String.eqb_spec k0 k) as [-> | Hk]; simpl.
    + destruct (String.eqb_spec k k'); [contradiction | reflexivity].
    + destruct (String.eqb k0 k'); [reflexivity | exact IH].
Qed.

(** ** Arithmetic *)

Lemma py_arith_number (op : Q -> Q -> Q) (a b v : pyval) :
  py_arith op a b = Ok v -> exists q, v = VNum q.
Proof.
  unfold py_arith.
  destruct (num_of a), (num_of b); intros H; try discriminate.
  injection H as <-. eauto.
Qed.

Lemma py_add_numbers (a b : pyval) :
  is_number a -> is_number b -> exists q, py_add a b = Ok (VNum q).
Proof.
  unfold is_number, py_add, py_arith.
  destruct (num_of a), (num_of b); intros Ha Hb; try contradiction; eauto.
Qed.

Lemma VNum_is_number (q : Q) : is_number (VNum q).
Proof. unfold is_number. simpl. discriminate. Qed.

(** ** The loop body of the single-user refresh *)

Section HoldingUpdate.

Variable world : Type.
Variable now_isoformat : world -> string * world.
Variable kept : list pyval.

Local Abbreviation state := (@frame_state world kept).
Local Abbreviation broken := (@frame_state world kept false false).

Lemma holding_state_weaken (a b : bool) (h : pyval) :
  holding_state a b h -> holding_state false false h.
Proof.
  intros [d [-> [Hcv Htp]]]. exists d. split; [reflexivity |].
  unfold number_or_absent.
  split.
  - destruct a; [| exact Hcv]. destruct Hcv as [q ->]. apply VNum_is_number.
  - destruct b; [| exact Htp]. destruct Htp as [q ->]. apply VNum_is_number.
Qed.

Lemma frame_state_weaken (a b : bool) (f : frame world) :
  state a b f -> broken f.
Proof.
  intros [Hh Hrest]. split; [| exact Hrest].
  now apply holding_state_weaken with a b.
Qed.

(** Reading the holding leaves the frame as it is. *)
Lemma item_spec (a b : bool) (k : string) :
  triple (state a b) (holding_item k) (fun _ => state a b) broken.
Proof.
  intros f Hf. unfold holding_item.
  destruct (py_getitem (holding f) k); [exact Hf |].
  now apply frame_state_weaken with a b.
Qed.

Lemma lift_spec {A : Type} (a b : bool) (r : result A) :
  triple (state a b) (lift r) (fun v f => state a b f /\ r = Ok v) broken.
Proof.
  intros f Hf. unfold lift. destruct r; [auto |].
  now apply frame_state_weaken with a b.
Qed.

Lemma lift_plain {A : Type} (a b : bool) (r : result A) :
  triple (state a b) (lift r) (fun _ => state a b) broken.
Proof.
  eapply triple_weaken; [apply (lift_spec a b r) | auto | | auto].
  intros v f [Hf _]. exact Hf.
Qed.

Lemma in_world_spec {A : Type} (a b : bool) (op : world -> A * world) :
  triple (state a b) (in_world op) (fun _ => state a b) broken.
Proof.
  intros f Hf. unfold in_world. destruct (op (env f)) as [x w]. exact Hf.
Qed.

(** Writing a field other than the value and the pnl. *)
Lemma set_other_spec (a b : bool) (k : string) (v : pyval) :
  k <> "current_value" -> k <> "total_pnl" ->
  triple (state a b) (holding_set k v) (fun _ => state a b) broken.
Proof.
  intros Hcv Htp f [[d [Hd [Hc Ht]]] Hrest].
  unfold holding_set. rewrite Hd. simpl.
  split; [| exact Hrest]. simpl.
  exists (dict_set d k v). split; [reflexivity |].
  unfold number_or_absent.
  rewrite !dict_get_set_other by assumption. auto.
Qed.

Lemma set_current_value_spec (a b : bool) (q : Q) :
  triple (state a b) (holding_set "current_value" (VNum q))
    (fun _ => state true b) broken.
Proof.
  intros f [[d [Hd [Hc Ht]]] Hrest].
  unfold holding_set. rewrite Hd. simpl.
  split; [| exact Hrest]. simpl.
  exists (dict_set d "current_value" (VNum q)). split; [reflexivity |].
  unfold number_or_absent.
  rewrite dict_get_set_same, dict_get_set_other by discriminate.
  split; [eauto | exact Ht].
Qed.

Lemma set_total_pnl_spec (a b : bool) (q : Q) :
  triple (state a b) (holding_set "total_pnl" (VNum q))
    (fun _ => state a true) broken.
Proof.
  intros f [[d [Hd [Hc Ht]]] Hrest].
  unfold holding_set. rewrite Hd. simpl.
  split; [| exact Hrest]. simpl.
  exists (dict_set d "total_pnl" (VNum q)). split; [reflexivity |].
  unfold number_or_absent.
  rewrite dict_get_set_same, dict_get_set_other by discriminate.
  split; [exact Hc | eauto].
Qed.

(** A field that has been written reads back as a number. *)
Lemma item_current_value_spec (b : bool) :
  triple (state true b) (holding_item "current_value")
    (fun v f => state true b f /\ exists q, v = VNum q) broken.
Proof.
  intros f Hf. pose proof Hf as [[d [Hd [[q Hc] Ht]]] Hrest].
  unfold holding_item. rewrite Hd. simpl. rewrite Hc.
  split; [exact Hf | eauto].
Qed.

Lemma item_total_pnl_spec (a : bool) :
  triple (state a true) (holding_item "total_pnl")
    (fun v f => state a true f /\ exists q, v = VNum q) broken.
Proof.
  intros f Hf. pose proof Hf as [[d [Hd [Hc [q Ht]]]] Hrest].
  unfold holding_item. rewrite Hd. simpl. rewrite Ht.
  split; [exact Hf | eauto].
Qed.

Lemma add_total_value_spec (a b : bool) (v : pyval) :
  is_number v ->
  triple (state a b) (add_total_value v) (fun _ => state a b) broken.
Proof.
  intros Hv f [Hh [Hk [Htv Htp]]]. unfold add_total_value.
  destruct (py_add_numbers _ _ Htv Hv) as [t ->].
  repeat split; simpl; auto. apply VNum_is_number.
Qed.

Lemma add_total_pnl_spec (a b : bool) (v : pyval) :
  is_number v ->
  triple (state a b) (add_total_pnl v) (fun _ => state a b) broken.
Proof.
  intros Hv f [Hh [Hk [Htv Htp]]]. unfold add_total_pnl.
  destruct (py_add_numbers _ _ Htp Hv) as [t ->].
  repeat split; simpl; auto. apply VNum_is_number.
Qed.

Lemma append_spec (a b : bool) :
  triple (state a b) append_holding (fun _ => frame_done kept) broken.
Proof.
  intros f [Hh [Hk [Htv Htp]]]. unfold append_holding. simpl.
  repeat split; simpl; auto. exists (holding f). now rewrite Hk.
Qed.

Lemma get_spec (a b : bool) (k : string) (default : pyval) :
  triple (state a b) (holding_get k default) (fun _ => state a b) broken.
Proof.
  intros f Hf. unfold holding_get.
  destruct (py_get (holding f) k default); [exact Hf |].
  now apply frame_state_weaken with a b.
Qed.

Ltac step lemma := eapply triple_bind; [apply lemma | intros ?].

(** The percentage: reads and arithmetic only. *)
Lemma percentage_spec (positive : bool) :
  triple (state true true)
    (if positive then
       tp <~ holding_item "total_pnl" ;;
       q <~ holding_item "quantity" ;;
       a <~ holding_item "avg_price" ;;
       invested <~ lift (py_mul q a) ;;
       ratio <~ lift (py_div tp invested) ;;
       lift (py_mul ratio (VNum 100))
     else ret (VNum 0))
    (fun _ => state true true) broken.
Proof.
  destruct positive.
  - step item_spec. step item_spec. step item_spec.
    step (@lift_plain pyval). step (@lift_plain pyval).
    apply lift_plain.
  - intros f Hf. exact Hf.
Qed.

(** The branch taken when a price was found: it ends with the holding
    added to the list, or raises in a frame the handler can keep. *)
Lemma price_found_spec (current_price : pyval) :
  triple broken (price_found now_isoformat current_price)
    (fun _ => frame_done kept) broken.
Proof.
  unfold price_found.
  eapply triple_bind; [apply set_other_spec; discriminate | intros ?].
  step item_spec.
  step (@lift_spec pyval). apply triple_pure. intros Hcv.
  destruct (py_arith_number _ _ _ _ Hcv) as [x ->].
  step set_current_value_spec.
  step item_spec. step item_spec. step item_spec.
  step (@lift_plain pyval).
  step (@lift_spec pyval). apply triple_pure. intros Htp.
  destruct (py_arith_number _ _ _ _ Htp) as [y ->].
  step set_total_pnl_spec.
  step item_spec.
  step (@lift_plain bool).
  step percentage_spec.
  eapply triple_bind; [apply set_other_spec; discriminate | intros ?].
  step (@in_world_spec string).
  eapply triple_bind; [apply set_other_spec; discriminate | intros ?].
  step item_current_value_spec. apply triple_pure. intros [cv ->].
  eapply triple_bind; [apply add_total_value_spec, VNum_is_number | intros ?].
  step item_total_pnl_spec. apply triple_pure. intros [tp ->].
  eapply triple_bind; [apply add_total_pnl_spec, VNum_is_number | intros ?].
  apply append_spec.
Qed.

End HoldingUpdate.

(** ** Numeric holdings and the fixed-price world *)

Lemma numeric_holding_well_formed (h : pyval) :
  numeric_holding h -> well_formed_holding h.
Proof. intros [d [Hd [_ [Hcv Htp]]]]. exists d. auto. Qed.

Lemma listed_prices_numeric : numeric_prices listed_current_price.
Proof.
  intros sym w. unfold listed_current_price, _get_current_price, mbind, ret.
  cbn [listed_token truthy negb String.eqb Ascii.eqb Bool.eqb].
  unfold listed_feed, listed_price.
  destruct sym as [| b | q | s | l | d]; simpl; try (now left).
  destruct (String.eqb s "TCS"); [right; discriminate |].
  destruct (String.eqb s "INFY"); [right; discriminate | now left].
Qed.

Lemma listed_holdings_numeric : Forall numeric_holding listed_holdings.
Proof.
  repeat constructor;
    eexists; (split; [reflexivity |]);
    repeat split; unfold number_or_absent, is_number; simpl; discriminate.
Qed.

Section SingleUserRefresh.

Variable world : Type.
Variable fyers_access_token : world -> pyval.
Variable fyers_get_current_price : pyval -> M world pyval.
Variable get_cached_fundamentals : pyval -> M world pyval.
Variable get_stock_fundamentals : pyval -> M world pyval.
Variable portfolios_update_one : pyval -> pyval -> M world unit.
Variable now_isoformat : world -> string * world.

Local Abbreviation current_price_of :=
  (_get_current_price world fyers_access_token fyers_get_current_price
     get_cached_fundamentals get_stock_fundamentals).
Local Abbreviation update_holding' :=
  (update_holding world fyers_access_token fyers_get_current_price
     get_cached_fundamentals get_stock_fundamentals now_isoformat).
Local Abbreviation refresh_holding' :=
  (refresh_holding world fyers_access_token fyers_get_current_price
     get_cached_fundamentals get_stock_fundamentals now_isoformat).
Local Abbreviation refresh_holdings' :=
  (refresh_holdings world fyers_access_token fyers_get_current_price
     get_cached_fundamentals get_stock_fundamentals now_isoformat).
Local Abbreviation refresh_prices_with update :=
  (_refresh_portfolio_prices world fyers_access_token fyers_get_current_price
     get_cached_fundamentals get_stock_fundamentals update now_isoformat).

(** Keeping the holding as it stands: what the [else] branch and the
    handler do, step by step. *)
Lemma keep_existing_run (f : frame world) (d : dict pyval) :
  holding f = VDict d ->
  number_or_absent d "current_value" ->
  number_or_absent d "total_pnl" ->
  is_number (total_value f) ->
  is_number (total_pnl f) ->
  exists tv tp,
    py_add (total_value f) (dict_get_default d "current_value" (VNum 0))
      = Ok (VNum tv) /\
    py_add (total_pnl f) (dict_get_default d "total_pnl" (VNum 0))
      = Ok (VNum tp) /\
    keep_existing f
      = (Ok tt,
         mkFrame (VDict d) (updated_holdings f ++ [VDict d]) (VNum tv)
           (VNum tp) (env f)).
Proof.
  intros Hd Hcv Htp Htv Htpn.
  assert (Hc : is_number (dict_get_default d "current_value" (VNum 0))).
  { unfold dict_get_default, number_or_absent in *.
    destruct (dict_get d "current_value"); [assumption | apply VNum_is_number]. }
  assert (Hp : is_number (dict_get_default d "total_pnl" (VNum 0))).
  { unfold dict_get_default, number_or_absent in *.
    destruct (dict_get d "total_pnl"); [assumption | apply VNum_is_number]. }
  destruct (py_add_numbers _ _ Htv Hc) as [tv Etv].
  destruct (py_add_numbers _ _ Htpn Hp) as [tp Etp].
  exists tv, tp. split; [assumption | split; [assumption |]].
  unfold keep_existing, mbind, append_holding, holding_get, add_total_value,
    add_total_pnl.
  simpl. rewrite Hd. simpl. rewrite Etv. simpl. rewrite Etp. reflexivity.
Qed.

Lemma keep_existing_spec (kept : list pyval) :
  triple (frame_state kept false false) (@keep_existing world)
    (fun _ => frame_done kept) (frame_state kept false false).
Proof.
  intros f [[d [Hd [Hcv Htp]]] [Hk [Htv Htpn]]].
  destruct (keep_existing_run f d Hd Hcv Htp Htv Htpn)
    as [tv [tp [_ [_ ->]]]].
  repeat split; simpl; try apply VNum_is_number.
  exists (VDict d). now rewrite Hk.
Qed.

(** The handler never fails on a frame in which the holding is a
    dictionary with numeric value and pnl. *)
Lemma holding_handler_run (kept : list pyval) (e : exn) (f : frame world) :
  frame_state kept false false f ->
  exists f', holding_handler e f = (Ok tt, f') /\ frame_done kept f'.
Proof.
  intros [[d [Hd [Hcv Htp]]] [Hk [Htv Htpn]]].
  destruct (keep_existing_run f d Hd Hcv Htp Htv Htpn)
    as [tv [tp [_ [_ Hrun]]]].
  unfold holding_handler, mbind, holding_get. rewrite Hd. simpl.
  rewrite Hrun. eexists. split; [reflexivity |].
  repeat split; simpl; try apply VNum_is_number.
  exists (VDict d). now rewrite Hk.
Qed.

Lemma update_holding_spec (kept : list pyval) :
  triple (frame_state kept false false) update_holding'
    (fun _ => frame_done kept) (frame_state kept false false).
Proof.
  unfold update_holding.
  eapply triple_bind; [apply item_spec | intros sym].
  eapply triple_bind; [apply in_world_spec | intros current_price].
  destruct (truthy current_price).
  - apply price_found_spec.
  - apply keep_existing_spec.
Qed.

(** In the model, where an operand of [*] that is no number raises, the
    loop body completes on every well-formed holding.  The theorems use
    this on numeric holdings and numeric prices only, where the model
    and Python's [*] agree. *)
Lemma refresh_holding_completes (h : pyval) (f : frame world) :
  well_formed_holding h ->
  is_number (total_value f) ->
  is_number (total_pnl f) ->
  exists f',
    refresh_holding' h f = (Ok tt, f') /\ frame_done (updated_holdings f) f'.
Proof.
  intros [d [-> [Hcv Htp]]] Htv Htpn.
  assert (Hstart : frame_state (updated_holdings f) false false
                     (with_holding f (VDict d))).
  { split; [| repeat split; assumption]. exists d. auto. }
  pose proof (update_holding_spec (updated_holdings f) _ Hstart) as Hbody.
  unfold refresh_holding, try_except.
  destruct (update_holding' (with_holding f (VDict d))) as [[[] | e] f1].
  - exists f1. auto.
  - apply holding_handler_run. exact Hbody.
Qed.

Lemma refresh_holdings_complete (holdings : list pyval) :
  forall f,
    Forall well_formed_holding holdings ->
    is_number (total_value f) ->
    is_number (total_pnl f) ->
    exists f',
      refresh_holdings' holdings f = (Ok tt, f') /\
      List.length (updated_holdings f')
        = (List.length (updated_holdings f) + List.length holdings)%nat /\
      is_number (total_value f') /\ is_number (total_pnl f').
Proof.
  induction holdings as [| h rest IH]; intros f Hall Htv Htp; simpl.
  - exists f. unfold ret. repeat split; auto.
  - inversion Hall as [| ? ? Hh Hrest]; subst.
    destruct (refresh_holding_completes h f Hh Htv Htp)
      as [f1 [Hrun [[h' Hkept] [Htv1 Htp1]]]].
    destruct (IH f1 Hrest Htv1 Htp1) as [f2 [Hrun2 [Hlen [Htv2 Htp2]]]].
    exists f2. unfold mbind. rewrite Hrun, Hrun2.
    repeat split; auto.
    rewrite Hlen, Hkept, length_app. simpl. lia.
Qed.

(** A holding for which no price is found is kept as it is, its stored
    value and pnl are added to the totals, and the loop goes on. *)
Lemma holding_without_price_is_kept (f : frame world) (d : dict pyval)
    (sym : pyval) :
  dict_get d "symbol" = Some sym ->
  truthy (fst (current_price_of sym (env f))) = false ->
  well_formed_holding (VDict d) ->
  is_number (total_value f) ->
  is_number (total_pnl f) ->
  exists tv tp,
    py_add (total_value f) (dict_get_default d "current_value" (VNum 0))
      = Ok (VNum tv) /\
    py_add (total_pnl f) (dict_get_default d "total_pnl" (VNum 0))
      = Ok (VNum tp) /\
    refresh_holding' (VDict d) f
      = (Ok tt,
         mkFrame (VDict d) (updated_holdings f ++ [VDict d]) (VNum tv)
           (VNum tp) (snd (current_price_of sym (env f)))).
Proof.
  intros Hsym Hprice [d' [Hd' [Hcv Htp]]] Htv Htpn.
  injection Hd' as <-.
  unfold refresh_holding, try_except, update_holding, mbind, holding_item,
    in_world.
  simpl. rewrite Hsym.
  destruct (current_price_of sym (env f)) as [price w1]; simpl in *.
  rewrite Hprice.
  destruct (keep_existing_run
              (mkFrame (VDict d) (updated_holdings f) (total_value f)
                 (total_pnl f) w1) d eq_refl Hcv Htp Htv Htpn)
    as [tv [tp [Etv [Etp Hrun]]]].
  exists tv, tp. rewrite Hrun. auto.
Qed.

(** The result handed back to the caller does not depend on what the
    store does with the write. *)
Lemma refresh_result_ignores_store
    (other_update : pyval -> pyval -> M world unit)
    (user_id portfolio : pyval) (manual : bool) (w : world) :
  fst (refresh_prices_with portfolios_update_one user_id portfolio manual w)
  = fst (refresh_prices_with other_update user_id portfolio manual w).
Proof.
  unfold _refresh_portfolio_prices.
  destruct (mbind _ _ (initial_frame w)) as [[[] | e] f]; [| reflexivity].
  destruct (now_isoformat (env f)) as [t w1]. reflexivity.
Qed.

Lemma refresh_prices_succeeds (user_id portfolio : pyval) (manual : bool)
    (w : world) (holdings : list pyval) :
  py_get portfolio "holdings" (VList []) = Ok (VList holdings) ->
  Forall well_formed_holding holdings ->
  py_get (fst (refresh_prices_with portfolios_update_one user_id portfolio
                 manual w)) "success" VNone
  = Ok (VBool true).
Proof.
  intros Hget Hall.
  destruct (refresh_holdings_complete holdings (initial_frame w) Hall)
    as [f [Hrun _]]; try apply VNum_is_number.
  unfold _refresh_portfolio_prices, mbind, lift.
  rewrite Hget. simpl. rewrite Hrun.
  destruct (now_isoformat (env f)) as [t w1]. reflexivity.
Qed.

(** C5, amended.  In a single-user refresh, (1) a well-formed holding for
    which no price is found is kept unchanged and the loop goes on;
    (2) a portfolio of numeric holdings is reported successful whenever
    the price source answers with a number or with nothing, whichever
    holdings it prices; (3) the report does not depend on the store: a
    write that fails is swallowed by [_update_portfolio], so a failure to
    persist is not reported either.  The hypotheses of (2) keep the run
    within numbers, where [*] is multiplication. *)
Theorem refresh_absorbs_price_and_store_failures
    (user_id portfolio : pyval) (manual : bool) (w : world) :
  (forall (f : frame world) (d : dict pyval) (sym : pyval),
     dict_get d "symbol" = Some sym ->
     truthy (fst (current_price_of sym (env f))) = false ->
     well_formed_holding (VDict d) ->
     is_number (total_value f) ->
     is_number (total_pnl f) ->
     exists tv tp,
       refresh_holding' (VDict d) f
       = (Ok tt,
          mkFrame (VDict d) (updated_holdings f ++ [VDict d]) (VNum tv)
            (VNum tp) (snd (current_price_of sym (env f))))) /\
  (forall holdings,
     py_get portfolio "holdings" (VList []) = Ok (VList holdings) ->
     Forall numeric_holding holdings ->
     numeric_prices current_price_of ->
     py_get (fst (refresh_prices_with portfolios_update_one user_id portfolio
                    manual w)) "success" VNone
     = Ok (VBool true)) /\
  (forall other_update,
     fst (refresh_prices_with portfolios_update_one user_id portfolio manual w)
     = fst (refresh_prices_with other_update user_id portfolio manual w)).
Proof.
  split; [| split].
  - intros f d sym Hsym Hprice Hwf Htv Htp.
    destruct (holding_without_price_is_kept f d sym Hsym Hprice Hwf Htv Htp)
      as [tv [tp [_ [_ Hrun]]]].
    eauto.
  - intros holdings Hget Hall _.
    apply (refresh_prices_succeeds user_id portfolio manual w holdings Hget).
    eapply Forall_impl; [| exact Hall].
    intros h. apply numeric_holding_well_formed.
  - intros other_update. apply refresh_result_ignores_store.
Qed.

End SingleUserRefresh.
(** ** The division by the invested amount *)

(** With quantity 0 and a positive average price the guard [avg_price > 0]
    passes and the division by [quantity * avg_price] raises, after the
    price, the value and the pnl have been assigned. *)
Lemma zero_quantity_division_raises {world : Type}
    (now_isoformat : world -> string * world) (f : frame world)
    (d : dict pyval) (a p : Q) :
  holding f = VDict d ->
  dict_get d "quantity" = Some (VNum 0) ->
  dict_get d "avg_price" = Some (VNum a) ->
  (0 < a)%Q ->
  price_found now_isoformat (VNum p) f
  = (Raise ZeroDivisionError,
     with_holding f
       (VDict
          (dict_set
             (dict_set (dict_set d "current_price" (VNum p)) "current_value"
                (VNum 0))
             "total_pnl" (VNum 0)))).
Proof.
  intros Hd Hq Ha Hpos.
  assert (Hgt : Qle_bool a 0 = false).
  { destruct (Qle_bool a 0) eqn:E; [| reflexivity].
    apply Qle_bool_iff in E. exfalso. exact (Qlt_not_le _ _ Hpos E). }
  unfold price_found, mbind, holding_set, holding_item, lift, with_holding,
    py_gt, py_mul, py_sub, py_div, py_arith.
  rewrite Hd.
  repeat first
    [ rewrite dict_get_set_same
    | rewrite dict_get_set_other by discriminate
    | rewrite Hq
    | rewrite Ha
    | rewrite Hgt
    | progress simpl ].
  reflexivity.
Qed.

(** C5, as the claim states it.  First, the write of the updated portfolio
    fails (the store rejects it and the documents are left as they were),
    and the refresh still reports success.  Second, a holding whose stored
    value is null makes the refresh fail when no price is found for it,
    and not when one is: there the missing price alone decides. *)
Lemma failed_write_is_reported_as_success :
  fst (sim_update_one (VStr "u1") (VDict [("user_id", VStr "u1")])
         store_rejecting_writes)
    = Raise ConnectionError /\
  py_get (fst (sim_refresh_portfolio_prices (VStr "u1") portfolio_u1 false
                 store_rejecting_writes)) "success" VNone
    = Ok (VBool true) /\
  docs (snd (sim_refresh_portfolio_prices (VStr "u1") portfolio_u1 false
               store_rejecting_writes))
    = docs store_rejecting_writes /\
  fst (sim_refresh_portfolio_prices (VStr "u1")
         (portfolio_of null_value_unpriced) false store_of_two)
    = error_result TypeError /\
  py_get (fst (sim_refresh_portfolio_prices (VStr "u1")
                 (portfolio_of null_value_priced) false store_of_two))
      "success" VNone
    = Ok (VBool true).
Proof.
  repeat split.
Qed.

(** The theorem above in the fixed-price world, with the store that
    rejects every write: one holding is priced, the other is not, and the
    refresh reports success. *)
Lemma refresh_absorbs_price_and_store_failures_witness :
  py_get (fst (listed_refresh_unsaved (VStr "u1") listed_portfolio false
                 0%nat)) "success" VNone
  = Ok (VBool true).
Proof.
  apply (proj1 (proj2
           (refresh_absorbs_price_and_store_failures nat listed_token
              listed_feed listed_no_fundamentals listed_no_fundamentals
              listed_rejecting_update listed_now (VStr "u1") listed_portfolio
              false 0%nat))
           listed_holdings).
  - reflexivity.
  - exact listed_holdings_numeric.
  - exact listed_prices_numeric.
Defined.

(** C9.  A holding with quantity 0 and a positive average price, for which
    the price 7 is fetched: the division raises, and the handler keeps the
    holding as the assignments before the division left it.  The fetched
    price has replaced the stored one, the value and the pnl have been
    overwritten with 0; only the percentage and the time stamp are the
    previous ones.  The claim says every previous value is kept and the
    price is dropped. *)
Theorem zero_quantity_holding_is_partly_updated :
  fst (price_found sim_now (VNum 7)
         (with_holding (initial_frame store_rejecting_writes) closed_position))
    = Raise ZeroDivisionError /\
  sim_refresh_holding closed_position (initial_frame store_rejecting_writes)
    = (Ok tt,
       mkFrame closed_position_after [closed_position_after] (VNum 0) (VNum 0)
         store_rejecting_writes) /\
  py_getitem closed_position "current_price" = Ok (VNum 5) /\
  py_getitem closed_position_after "current_price" = Ok (VNum 7) /\
  py_getitem closed_position "current_value" = Ok (VNum 50) /\
  py_getitem closed_position_after "current_value" = Ok (VNum 0).
Proof.
  repeat split.
Qed.

(** A run of the batch in which the lookup of one enumerated user fails:
    the user counts in [total_users] and nowhere else. *)
Example failed_lookup_is_counted_nowhere :
  fst (refresh_all_portfolios sim sim_token sim_feed_price sim_no_fundamentals
         sim_no_fundamentals sim_find_one_but_u2 sim_find sim_update_one
         sim_update_metric sim_now store_of_two)
  = mkRunResult 2 1 0 [].
Proof. reflexivity. Qed.

(** * Further properties *)

(** ** Deduplication: what the output is made of *)

Lemma assoc_set_entries {K V : Type} (keq : K -> K -> bool)
    (d : list (K * V)) (k : K) (v : V) (entry : K * V) :
  In entry (assoc_set keq d k v) -> snd entry = v \/ In entry d.
Proof.
  induction d as [| [k' v'] d IH]; simpl.
  - intros [<- | []]. now left.
  - destruct (keq k' k); simpl.
    + intros [<- | Hin]; [now left | right; now right].
    + intros [<- | Hin]; [right; now left |].
      destruct (IH Hin) as [E | Hd]; [now left | right; now right].
Qed.

Lemma group_securities_members (securities : list Security) :
  forall grouped grouped' (pool : list Security),
    group_securities grouped securities = Ok grouped' ->
    incl (map snd grouped) pool ->
    incl securities pool ->
    incl (map snd grouped') pool.
Proof.
  induction securities as [| security rest IH];
    intros grouped grouped' pool Hrun Hg Hs; simpl in Hrun.
  - now injection Hrun as <-.
  - destruct (hashable (identity_key security)); [| discriminate].
    assert (Hsec : In security pool) by (apply Hs; now left).
    assert (Hrest : incl rest pool) by (intros x Hx; apply Hs; now right).
    destruct (assoc_get py_eq grouped (identity_key security))
      as [existing |] eqn:G.
    + apply (IH _ _ pool Hrun); [| assumption].
      intros v Hv. apply in_map_iff in Hv. destruct Hv as [entry [<- Hin]].
      destruct (assoc_set_entries _ _ _ _ _ Hin) as [E | Hd].
      * rewrite E.
        destruct (merge_is_one_of existing security) as [-> | ->];
          [| assumption].
        destruct (assoc_get_some py_eq _ _ _ G) as [k0 [Hin0 _]].
        apply Hg. apply in_map_iff. now exists (k0, existing).
      * apply Hg. apply in_map_iff. now exists entry.
    + apply (IH _ _ pool Hrun); [| assumption].
      intros v Hv. apply in_map_iff in Hv. destruct Hv as [entry [<- Hin]].
      destruct (assoc_set_entries _ _ _ _ _ Hin) as [E | Hd].
      * now rewrite E.
      * apply Hg. apply in_map_iff. now exists entry.
Qed.

(** X1.  Every record of the deduplicated list is one of the input
    records, as it was given: deduplication selects, it never builds a
    record out of two. *)
Theorem deduplicate_selects_inputs (securities out : list Security) :
  _deduplicate_securities securities = Ok out ->
  incl out securities.
Proof.
  unfold _deduplicate_securities.
  destruct (group_securities [] securities) as [grouped |] eqn:Hrun;
    simpl; intros H; [| discriminate].
  injection H as <-.
  apply (group_securities_members securities [] grouped securities Hrun).
  - intros x [].
  - apply incl_refl.
Qed.

(** The theorem above at three worked records. *)
Lemma deduplicate_selects_inputs_witness :
  incl [reliance_manual; tcs_statement]
       [reliance_fyers; tcs_statement; reliance_manual].
Proof.
  apply (deduplicate_selects_inputs
           [reliance_fyers; tcs_statement; reliance_manual]
           [reliance_manual; tcs_statement]).
  reflexivity.
Defined.
(** ** Deduplication: errors, coverage of the input, fixed points *)

Lemma group_securities_hashable (securities : list Security) :
  forall grouped grouped',
    group_securities grouped securities = Ok grouped' ->
    Forall (fun s => hashable (identity_key s) = true) securities.
Proof.
  induction securities as [| security rest IH]; intros grouped grouped' Hrun;
    simpl in Hrun; [constructor |].
  destruct (hashable (identity_key security)) eqn:Hh; [| discriminate].
  constructor; [assumption |].
  destruct (assoc_get py_eq grouped (identity_key security));
    exact (IH _ _ Hrun).
Qed.

Lemma group_securities_raise (securities : list Security) :
  forall grouped e,
    group_securities grouped securities = Raise e ->
    e = TypeError /\
    Exists (fun s => hashable (identity_key s) = false) securities.
Proof.
  induction securities as [| security rest IH]; intros grouped e Hrun;
    simpl in Hrun; [discriminate |].
  destruct (hashable (identity_key security)) eqn:Hh.
  - destruct (assoc_get py_eq grouped (identity_key security));
      destruct (IH _ _ Hrun) as [-> Hex]; split; auto.
  - injection Hrun as <-. split; [reflexivity | now left].
Qed.

(** X2.  Deduplication raises exactly when the key of some record cannot
    be hashed, and the exception is then a [TypeError]; no other error
    leaves the function. *)
Theorem deduplicate_raises_exactly_on_unhashable_key
    (securities : list Security) :
  (forall e, _deduplicate_securities securities = Raise e -> e = TypeError) /\
  (is_ok (_deduplicate_securities securities) = false <->
   Exists (fun s => hashable (identity_key s) = false) securities).
Proof.
  unfold _deduplicate_securities.
  destruct (group_securities [] securities) as [grouped | e0] eqn:Hrun; simpl.
  - split; [discriminate |]. split; [discriminate |].
    intros Hex. exfalso.
    pose proof (group_securities_hashable _ _ _ Hrun) as Hall.
    rewrite Forall_forall in Hall. apply Exists_exists in Hex.
    destruct Hex as [s [Hin Hs]]. rewrite (Hall s Hin) in Hs. discriminate.
  - destruct (group_securities_raise _ _ _ Hrun) as [-> Hex].
    split; [intros e H; now injection H as <- |].
    split; auto.
Qed.

Lemma assoc_set_keeps_keys {K V : Type} (keq : K -> K -> bool)
    (d : list (K * V)) (k : K) (v : V) :
  incl (map fst d) (map fst (assoc_set keq d k v)).
Proof.
  destruct (assoc_get keq d k) as [v0 |] eqn:G.
  - rewrite (assoc_set_present_keys keq d k v0 v G). apply incl_refl.
  - rewrite (assoc_set_absent keq d k v G), map_app. now apply incl_appl.
Qed.

Lemma assoc_set_has_key {K V : Type} (keq : K -> K -> bool)
    (d : list (K * V)) (k : K) (v : V) :
  keq k k = true ->
  exists k', In k' (map fst (assoc_set keq d k v)) /\ keq k' k = true.
Proof.
  intros Hrefl.
  induction d as [| [k0 v0] d IH]; simpl.
  - exists k. simpl. auto.
  - destruct (keq k0 k) eqn:E; simpl.
    + exists k0. auto.
    + destruct IH as [k' [Hin Hk']]. exists k'. auto.
Qed.

Lemma group_securities_covers (securities : list Security) :
  forall grouped grouped',
    group_securities grouped securities = Ok grouped' ->
    incl (map fst grouped) (map fst grouped') /\
    forall s, In s securities ->
      exists k, In k (map fst grouped') /\ py_eq k (identity_key s) = true.
Proof.
  induction securities as [| security rest IH]; intros grouped grouped' Hrun;
    simpl in Hrun.
  - injection Hrun as <-. split; [apply incl_refl | intros s []].
  - destruct (hashable (identity_key security)) eqn:Hh; [| discriminate].
    assert (Hstep : exists v,
               group_securities
                 (assoc_set py_eq grouped (identity_key security) v) rest
               = Ok grouped').
    { destruct (assoc_get py_eq grouped (identity_key security)); eauto. }
    destruct Hstep as [v Hrest].
    destruct (IH _ _ Hrest) as [Hkeys Hcover].
    split.
    + eapply incl_tran; [apply assoc_set_keeps_keys | exact Hkeys].
    + intros s [<- | Hin]; [| now apply Hcover].
      destruct (assoc_set_has_key py_eq grouped (identity_key security) v
                  (py_eq_refl_hashable _ Hh)) as [k [Hk Heq]].
      exists k. split; [now apply Hkeys | assumption].
Qed.

(** X3.  No holding is lost: for every input record the deduplicated list
    holds a record with an equal identity key. *)
Theorem deduplicate_keeps_every_key (securities out : list Security) :
  _deduplicate_securities securities = Ok out ->
  forall s, In s securities ->
    exists kept,
      In kept out /\ py_eq (identity_key s) (identity_key kept) = true.
Proof.
  unfold _deduplicate_securities.
  destruct (group_securities [] securities) as [grouped |] eqn:Hrun;
    simpl; intros H; [| discriminate].
  injection H as <-. intros s Hs.
  pose proof (group_securities_hashable _ _ _ Hrun) as Hall.
  assert (Hempty : grouped_ok []) by (split; constructor).
  destruct (group_securities_ok securities [] Hempty Hall)
    as [g [Hrun' [[_ Hfiled] _]]].
  rewrite Hrun in Hrun'. injection Hrun' as <-.
  destruct (group_securities_covers _ _ _ Hrun) as [_ Hcover].
  destruct (Hcover s Hs) as [k [Hk Heq]].
  apply in_map_iff in Hk. destruct Hk as [[k0 kept] [Hk0 Hin]].
  simpl in Hk0. subst k0.
  rewrite Forall_forall in Hfiled, Hall.
  destruct (Hfiled _ Hin) as [Hkh [Hvh Hkv]]; simpl in *.
  exists kept. split; [apply in_map_iff; now exists (k, kept) |].
  apply py_eq_trans_hashable with k; auto.
  rewrite py_eq_sym_hashable; auto.
Qed.

(** The theorem above at three worked records: the broker record, which is
    dropped, is represented by the manual one. *)
Lemma deduplicate_keeps_every_key_witness :
  exists kept,
    In kept [reliance_manual; tcs_statement] /\
    py_eq (identity_key reliance_fyers) (identity_key kept) = true.
Proof.
  apply (deduplicate_keeps_every_key
           [reliance_fyers; tcs_statement; reliance_manual]
           [reliance_manual; tcs_statement]).
  - reflexivity.
  - simpl. auto.
Defined.

Lemma assoc_get_absent {K V : Type} (keq : K -> K -> bool)
    (d : list (K * V)) (k : K) :
  Forall (fun k' => keq k' k = false) (map fst d) -> assoc_get keq d k = None.
Proof.
  induction d as [| [k' v'] d IH]; simpl; intros H; [reflexivity |].
  inversion H as [| ? ? Hk Hrest]; subst. rewrite Hk. now apply IH.
Qed.

(** Records with pairwise different keys are stored one after the other. *)
Lemma group_securities_distinct (securities : list Security) :
  forall grouped,
    Forall (fun s => hashable (identity_key s) = true) securities ->
    pairwise_distinct (map identity_key securities) ->
    Forall (fun k => Forall (fun s => py_eq k (identity_key s) = false) securities)
      (map fst grouped) ->
    group_securities grouped securities
    = Ok (grouped ++ map (fun s => (identity_key s, s)) securities)%list.
Proof.
  induction securities as [| security rest IH];
    intros grouped Hh Hd Hg; simpl.
  - now rewrite app_nil_r.
  - inversion Hh as [| ? ? Hhs Hhrest]; subst.
    inversion Hd as [| ? ? Hfirst Hdrest]; subst.
    rewrite Hhs.
    assert (G : assoc_get py_eq grouped (identity_key security) = None).
    { apply assoc_get_absent. eapply Forall_impl; [| exact Hg].
      intros k Hk. now inversion Hk. }
    rewrite G, (assoc_set_absent py_eq _ _ _ G).
    rewrite IH; [now rewrite <- app_assoc | assumption | assumption |].
    rewrite map_app. apply Forall_app. split.
    + eapply Forall_impl; [| exact Hg]. intros k Hk. now inversion Hk.
    + constructor; [| constructor]. simpl.
      rewrite Forall_map in Hfirst. exact Hfirst.
Qed.

(** X4.  Deduplication is idempotent: run on its own output it returns
    that output, in the same order. *)
Theorem deduplicate_idempotent (securities out : list Security) :
  _deduplicate_securities securities = Ok out ->
  _deduplicate_securities out = Ok out.
Proof.
  unfold _deduplicate_securities at 1.
  destruct (group_securities [] securities) as [grouped |] eqn:Hrun;
    simpl; intros H; [| discriminate].
  injection H as <-.
  pose proof (group_securities_hashable _ _ _ Hrun) as Hall.
  assert (Hempty : grouped_ok []) by (split; constructor).
  destruct (group_securities_ok securities [] Hempty Hall)
    as [g [Hrun' [Hok _]]].
  rewrite Hrun in Hrun'. injection Hrun' as <-.
  pose proof (values_distinct grouped Hok) as Hdist.
  assert (Hhash : Forall (fun s => hashable (identity_key s) = true)
                    (map snd grouped)).
  { destruct Hok as [_ Hfiled]. rewrite Forall_map.
    eapply Forall_impl; [| exact Hfiled]. intros entry He. apply He. }
  unfold _deduplicate_securities.
  rewrite (group_securities_distinct (map snd grouped) [] Hhash Hdist);
    [| constructor].
  simpl. rewrite map_map. simpl. now rewrite map_id.
Qed.

(** The theorem above at the output of three worked records. *)
Lemma deduplicate_idempotent_witness :
  _deduplicate_securities [reliance_manual; tcs_statement]
  = Ok [reliance_manual; tcs_statement].
Proof.
  apply (deduplicate_idempotent
           [reliance_fyers; tcs_statement; reliance_manual]).
  reflexivity.
Defined.
(** ** Deduplication: one group of records *)

(** Records that all share the key of a stored entry are merged into it,
    one after the other. *)
Lemma group_securities_one_key (rest : list Security) :
  forall (k : pyval) (kept : Security),
    Forall (fun s => hashable (identity_key s) = true /\
                     py_eq k (identity_key s) = true) rest ->
    group_securities [(k, kept)] rest
    = Ok [(k, fold_left _merge_securities rest kept)].
Proof.
  induction rest as [| s rest IH]; intros k kept Hall; simpl; [reflexivity |].
  inversion Hall as [| ? ? [Hh Hk] Hrest]; subst.
  rewrite Hh. cbn [assoc_get assoc_set]. rewrite !Hk. now apply IH.
Qed.

(** Among records of one priority that carry a time stamp, merging keeps a
    record with the latest stamp. *)
Lemma fold_merge_latest (p : Z) (rest : list Security) :
  forall kept,
    priority (source kept) = p -> last_updated kept <> None ->
    Forall (fun s => priority (source s) = p /\ last_updated s <> None) rest ->
    let final := fold_left _merge_securities rest kept in
    In final (kept :: rest) /\
    stamp kept <= stamp final /\
    Forall (fun s => stamp s <= stamp final) rest.
Proof.
  induction rest as [| s rest IH]; intros kept Hp Ht Hall; simpl.
  - repeat split; [now left | lia | constructor].
  - inversion Hall as [| ? ? [Hsp Hst] Hrest]; subst.
    assert (Hm : (_merge_securities kept s = s /\ stamp kept < stamp s) \/
                 (_merge_securities kept s = kept /\ stamp s <= stamp kept)).
    { unfold _merge_securities, stamp. rewrite Hsp, Z.ltb_irrefl.
      destruct (last_updated s) as [ts |]; [| contradiction].
      destruct (last_updated kept) as [tk |]; [| contradiction].
      destruct (Z.ltb_spec tk ts); [left | right]; split; auto. }
    destruct Hm as [[-> Hlt] | [-> Hle]].
    + destruct (IH s Hsp Hst Hrest) as [Hin [Hs Hothers]].
      repeat split; [now right | lia |].
      constructor; assumption.
    + destruct (IH kept eq_refl Ht Hrest) as [Hin [Hk Hothers]].
      repeat split; [| lia |].
      * destruct Hin as [<- | Hin]; [now left | right; now right].
      * constructor; [lia | assumption].
Qed.

(** X5.  Records that share one identity key and one source priority, all
    time-stamped, are consolidated into a single record: one of them, with
    the latest time stamp of the group. *)
Theorem deduplicate_keeps_latest_of_equal_priority
    (first : Security) (rest : list Security) (p : Z) :
  hashable (identity_key first) = true ->
  Forall (fun s => hashable (identity_key s) = true /\
                   py_eq (identity_key first) (identity_key s) = true) rest ->
  Forall (fun s => priority (source s) = p /\ last_updated s <> None)
    (first :: rest) ->
  exists kept,
    _deduplicate_securities (first :: rest) = Ok [kept] /\
    In kept (first :: rest) /\
    Forall (fun s => stamp s <= stamp kept) (first :: rest).
Proof.
  intros Hh Hkeys Hall.
  inversion Hall as [| ? ? [Hp Ht] Hrest]; subst.
  destruct (fold_merge_latest (priority (source first)) rest first eq_refl Ht Hrest)
    as [Hin [Hfirst Hothers]].
  exists (fold_left _merge_securities rest first).
  split; [| split; [assumption | constructor; assumption]].
  unfold _deduplicate_securities. simpl. rewrite Hh.
  now rewrite (group_securities_one_key rest _ _ Hkeys).
Qed.

(** The theorem above at two manual entries of one holding. *)
Lemma deduplicate_keeps_latest_of_equal_priority_witness :
  exists kept,
    _deduplicate_securities [tcs_manual; tcs_manual_later] = Ok [kept] /\
    In kept [tcs_manual; tcs_manual_later] /\
    Forall (fun s => stamp s <= stamp kept) [tcs_manual; tcs_manual_later].
Proof.
  apply (deduplicate_keeps_latest_of_equal_priority tcs_manual
           [tcs_manual_later] 1).
  - reflexivity.
  - repeat constructor.
  - repeat constructor; discriminate.
Defined.

(** ** The portfolio summary *)

Lemma assoc_get_set_same {K V : Type} (keq : K -> K -> bool)
    (d : list (K * V)) (k : K) (v : V) :
  keq k k = true -> assoc_get keq (assoc_set keq d k v) k = Some v.
Proof.
  intros Hrefl. induction d as [| [k' v'] d IH]; simpl.
  - now rewrite Hrefl.
  - destruct (keq k' k) eqn:E; simpl; rewrite E; [reflexivity | exact IH].
Qed.

Lemma count_of_set (d : list (pyval * type_stats)) (k : pyval)
    (st' : type_stats) :
  (count_of (assoc_set py_eq d k st')
   + match assoc_get py_eq d k with Some st => stat_count st | None => 0 end
   = count_of d + stat_count st')%nat.
Proof.
  induction d as [| [k' v'] d IH]; simpl.
  - lia.
  - destruct (py_eq k' k); simpl; lia.
Qed.

Lemma set_keeps_distinct {V : Type} (d : list (pyval * V)) (k : pyval) (v : V) :
  pairwise_distinct (map fst d) ->
  pairwise_distinct (map fst (assoc_set py_eq d k v)).
Proof.
  intros Hd. unfold pairwise_distinct.
  destruct (assoc_get py_eq d k) as [v0 |] eqn:G.
  - now rewrite (assoc_set_present_keys py_eq d k v0 v G).
  - rewrite (assoc_set_absent py_eq d k v G), map_app. simpl.
    apply ForallOrdPairs_snoc; [assumption |].
    exact (assoc_get_none py_eq d k G).
Qed.

(** One turn of the loop of [group_by_type], for a type that can be
    hashed: the entry of the type is created if need be and then
    incremented. *)
Lemma group_by_type_turn (by_type : list (pyval * type_stats))
    (security : Security) (rest : list Security) :
  hashable (security_type security) = true ->
  exists st,
    assoc_get py_eq (with_entry by_type (security_type security))
      (security_type security) = Some st /\
    group_by_type by_type (security :: rest)
    = group_by_type
        (assoc_set py_eq (with_entry by_type (security_type security))
           (security_type security) (counted st security))
        rest.
Proof.
  intros Hh. simpl. rewrite Hh. unfold with_entry.
  pose proof (py_eq_refl_hashable _ Hh) as Hrefl.
  destruct (assoc_get py_eq by_type (security_type security)) as [st |] eqn:G.
  - rewrite G. exists st. auto.
  - rewrite (assoc_get_set_same py_eq by_type _ (mkStats 0 0 0) Hrefl).
    eexists. split; reflexivity.
Qed.

Lemma group_by_type_step (by_type : list (pyval * type_stats))
    (security : Security) (rest : list Security) :
  hashable (security_type security) = true ->
  exists by_type',
    group_by_type by_type (security :: rest) = group_by_type by_type' rest /\
    (pairwise_distinct (map fst by_type) ->
     pairwise_distinct (map fst by_type')) /\
    count_of by_type' = S (count_of by_type).
Proof.
  intros Hh.
  destruct (group_by_type_turn by_type security rest Hh) as [st [Hst Hrun]].
  eexists. split; [exact Hrun |].
  pose proof (py_eq_refl_hashable _ Hh) as Hrefl.
  unfold with_entry in *.
  set (k := security_type security) in *.
  destruct (assoc_get py_eq by_type k) as [st0 |] eqn:G.
  - split; [apply set_keeps_distinct |].
    pose proof (count_of_set by_type k (counted st security)) as Hc.
    rewrite Hst in Hc. simpl in Hc. lia.
  - split; [intros Hd; now do 2 apply set_keeps_distinct |].
    pose proof (count_of_set (assoc_set py_eq by_type k (mkStats 0 0 0)) k
                  (counted st security)) as Hc.
    rewrite Hst in Hc.
    rewrite (assoc_get_set_same py_eq by_type k (mkStats 0 0 0) Hrefl) in Hst.
    injection Hst as <-.
    pose proof (count_of_set by_type k (mkStats 0 0 0)) as Hc0.
    rewrite G in Hc0. simpl in Hc, Hc0. lia.
Qed.

Lemma group_by_type_accounts (securities : list Security) :
  forall by_type by_type',
    group_by_type by_type securities = Ok by_type' ->
    (pairwise_distinct (map fst by_type) ->
     pairwise_distinct (map fst by_type')) /\
    count_of by_type' = (count_of by_type + List.length securities)%nat.
Proof.
  induction securities as [| security rest IH]; intros by_type by_type' Hrun.
  - simpl in Hrun. injection Hrun as <-. simpl. split; [auto | lia].
  - destruct (hashable (security_type security)) eqn:Hh;
      [| simpl in Hrun; rewrite Hh in Hrun; discriminate].
    destruct (group_by_type_step by_type security rest Hh)
      as [mid [Hstep [Hd Hc]]].
    rewrite Hstep in Hrun.
    destruct (IH _ _ Hrun) as [Hd' Hc'].
    split; [auto | simpl; lia].
Qed.

(** ** The entries of the breakdown, one by one *)

Lemma of_type_snoc (t : pyval) (done : list Security) (security : Security) :
  of_type t (done ++ [security])
  = (of_type t done
     ++ if py_eq (security_type security) t then [security] else [])%list.
Proof. unfold of_type. rewrite filter_app. reflexivity. Qed.

Lemma running_total_snoc (f : Security -> Q) (l : list Security)
    (security : Security) :
  running_total f (l ++ [security]) = (running_total f l + f security)%Q.
Proof. unfold running_total. now rewrite fold_left_app. Qed.

(** An entry of another type is not touched by the security. *)
Lemma tallies_other (done : list Security) (security : Security)
    (entry : pyval * type_stats) :
  py_eq (security_type security) (fst entry) = false ->
  tallies done entry -> tallies (done ++ [security]) entry.
Proof.
  intros Hne H. unfold tallies. rewrite of_type_snoc, Hne, app_nil_r. exact H.
Qed.

(** The entry of its type counts it after the others. *)
Lemma tallies_counted (done : list Security) (security : Security)
    (k : pyval) (st : type_stats) :
  py_eq (security_type security) k = true ->
  tallies done (k, st) -> tallies (done ++ [security]) (k, counted st security).
Proof.
  intros Heq [Hc [Hv Hp]]. unfold tallies. simpl in *.
  rewrite of_type_snoc, Heq, length_app, !running_total_snoc. simpl.
  rewrite Hc, Hv, Hp. repeat split. lia.
Qed.

Lemma set_tallies (done : list Security) (security : Security) :
  forall (d : list (pyval * type_stats)) (st : type_stats),
    hashable (security_type security) = true ->
    Forall (fun e => hashable (fst e) = true) d ->
    pairwise_distinct (map fst d) ->
    Forall (tallies done) d ->
    assoc_get py_eq d (security_type security) = Some st ->
    Forall (tallies (done ++ [security]))
      (assoc_set py_eq d (security_type security) (counted st security)).
Proof.
  set (k := security_type security).
  induction d as [| [k' v'] d IH]; intros st Hk Hkeys Hd Hall Hget;
    [discriminate |].
  inversion Hkeys as [| ? ? Hk' Hkeys']; subst.
  inversion Hd as [| ? ? Hhead Hd']; subst.
  inversion Hall as [| ? ? Hentry Hall']; subst.
  simpl in Hk', Hget |- *.
  destruct (py_eq k' k) eqn:E.
  - injection Hget as ->.
    assert (Hsym : py_eq k k' = true)
      by (now rewrite (py_eq_sym_hashable k k' Hk Hk')).
    constructor; [now apply tallies_counted |].
    rewrite Forall_forall in *. intros [k2 v2] Hin.
    apply tallies_other; [| now apply Hall'].
    simpl. fold k.
    assert (Hk2 : hashable k2 = true) by exact (Hkeys' _ Hin).
    destruct (py_eq k k2) eqn:E2; [| reflexivity].
    assert (Hc : py_eq k' k2 = true)
      by exact (py_eq_trans_hashable k' k k2 Hk' Hk Hk2 E E2).
    assert (Hin2 : In k2 (map fst d)) by exact (in_map fst _ _ Hin).
    rewrite (Hhead _ Hin2) in Hc. discriminate.
  - constructor.
    + apply tallies_other; [| exact Hentry].
      simpl. fold k. now rewrite (py_eq_sym_hashable k k' Hk Hk').
    + now apply IH.
Qed.

(** A type that has no entry yet has no security yet. *)
Lemma new_type_is_empty (done : list Security) (k : pyval)
    (d : list (pyval * type_stats)) :
  hashable k = true ->
  Forall (fun s => hashable (security_type s) = true) done ->
  Forall (fun e => hashable (fst e) = true) d ->
  typed_in d done ->
  assoc_get py_eq d k = None ->
  of_type k done = [].
Proof.
  intros Hk Hdone Hkeys Hin Hnone.
  pose proof (assoc_get_none py_eq d k Hnone) as Hfresh.
  unfold of_type, typed_in in *.
  induction done as [| s done IH]; [reflexivity |].
  inversion Hdone as [| ? ? Hs Hdone']; subst.
  inversion Hin as [| ? ? [t [Ht Heq]] Hin']; subst.
  simpl.
  destruct (py_eq (security_type s) k) eqn:E; [| now apply IH].
  exfalso.
  rewrite Forall_forall in Hfresh, Hkeys.
  apply in_map_iff in Ht. destruct Ht as [[t' v] [Ht' Hentry]].
  simpl in Ht'. subst t'.
  assert (Hth : hashable t = true) by exact (Hkeys _ Hentry).
  assert (Htk : py_eq t k = true).
  { apply (py_eq_trans_hashable t (security_type s) k Hth Hs Hk); [| exact E].
    now rewrite (py_eq_sym_hashable t (security_type s) Hth Hs). }
  rewrite (Hfresh t (in_map fst _ _ Hentry)) in Htk. discriminate.
Qed.

(** Creating the entry of a type keeps the books as they are. *)
Lemma with_entry_tallies (done : list Security) (k : pyval)
    (d : list (pyval * type_stats)) :
  hashable k = true ->
  Forall (fun s => hashable (security_type s) = true) done ->
  Forall (fun e => hashable (fst e) = true) d ->
  pairwise_distinct (map fst d) ->
  Forall (tallies done) d ->
  typed_in d done ->
  Forall (fun e => hashable (fst e) = true) (with_entry d k) /\
  pairwise_distinct (map fst (with_entry d k)) /\
  Forall (tallies done) (with_entry d k) /\
  incl (map fst d) (map fst (with_entry d k)).
Proof.
  intros Hk Hdone Hkeys Hd Hall Hin. unfold with_entry.
  destruct (assoc_get py_eq d k) as [st |] eqn:G.
  - repeat split; auto. apply incl_refl.
  - rewrite (assoc_set_absent py_eq d k (mkStats 0 0 0) G).
    split; [apply Forall_app; split; [exact Hkeys | now repeat constructor] |].
    split.
    { rewrite map_app. simpl. apply ForallOrdPairs_snoc; [exact Hd |].
      exact (assoc_get_none py_eq d k G). }
    split; [| rewrite map_app; now apply incl_appl].
    apply Forall_app. split; [exact Hall |].
    constructor; [| constructor].
    unfold tallies. simpl.
    rewrite (new_type_is_empty done k d Hk Hdone Hkeys Hin G).
    repeat split.
Qed.

Lemma set_keeps_hashable (d : list (pyval * type_stats)) (k : pyval)
    (st : type_stats) :
  hashable k = true ->
  Forall (fun e => hashable (fst e) = true) d ->
  Forall (fun e => hashable (fst e) = true) (assoc_set py_eq d k st).
Proof.
  intros Hk Hkeys.
  apply assoc_set_Forall; [exact Hkeys | exact Hk |].
  intros k' v' Hin _. rewrite Forall_forall in Hkeys. exact (Hkeys _ Hin).
Qed.

Lemma typed_in_more (d d' : list (pyval * type_stats))
    (securities : list Security) :
  incl (map fst d) (map fst d') -> typed_in d securities ->
  typed_in d' securities.
Proof.
  intros Hincl H. unfold typed_in in *.
  eapply Forall_impl; [| exact H].
  intros s [t [Ht Heq]]. exists t. auto.
Qed.

Lemma group_by_type_tallies (securities : list Security) :
  forall by_type done by_type',
    group_by_type by_type securities = Ok by_type' ->
    Forall (fun s => hashable (security_type s) = true) done ->
    Forall (fun e => hashable (fst e) = true) by_type ->
    pairwise_distinct (map fst by_type) ->
    Forall (tallies done) by_type ->
    typed_in by_type done ->
    Forall (tallies (done ++ securities)) by_type' /\
    typed_in by_type' (done ++ securities).
Proof.
  induction securities as [| security rest IH];
    intros by_type done by_type' Hrun Hdone Hkeys Hd Hall Hin.
  - simpl in Hrun. injection Hrun as <-. rewrite app_nil_r. auto.
  - destruct (hashable (security_type security)) eqn:Hh;
      [| simpl in Hrun; rewrite Hh in Hrun; discriminate].
    destruct (group_by_type_turn by_type security rest Hh) as [st [Hst Hturn]].
    rewrite Hturn in Hrun.
    destruct (with_entry_tallies done (security_type security) by_type
                Hh Hdone Hkeys Hd Hall Hin)
      as [Hkeys1 [Hd1 [Hall1 Hincl1]]].
    replace (done ++ security :: rest)%list
      with ((done ++ [security]) ++ rest)%list
      by (now rewrite <- app_assoc).
    apply (IH _ (done ++ [security])%list _ Hrun).
    + apply Forall_app. split; [exact Hdone | now repeat constructor].
    + now apply set_keeps_hashable.
    + now apply set_keeps_distinct.
    + now apply set_tallies.
    + unfold typed_in. apply Forall_app. split.
      * apply (typed_in_more by_type); [| exact Hin].
        eapply incl_tran; [exact Hincl1 | apply assoc_set_keeps_keys].
      * constructor; [| constructor].
        destruct (assoc_get_some py_eq _ _ _ Hst) as [k' [Hk' Heq]].
        exists k'. split.
        -- apply assoc_set_keeps_keys. exact (in_map fst _ _ Hk').
        -- rewrite Forall_forall in Hkeys1.
           rewrite (py_eq_sym_hashable _ k' Hh (Hkeys1 _ Hk')). exact Heq.
Qed.

(** X6.  The breakdown by type of the summary accounts for every security
    exactly once.  Its types are pairwise different; its counts add up to
    [security_count], which is the number of securities; every security
    has an entry under its type; and each entry tallies with the
    securities of its type: [count] is their number, [value] and [pnl]
    are their market values and their pnl added one after the other, in
    the order of the list. *)
Theorem summary_breakdown_accounts_for_all
    (securities : list Security) (s : summary) :
  _calculate_portfolio_summary securities = Ok s ->
  pairwise_distinct (map fst (sum_by_type s)) /\
  count_of (sum_by_type s) = sum_security_count s /\
  sum_security_count s = List.length securities /\
  Forall (tallies securities) (sum_by_type s) /\
  typed_in (sum_by_type s) securities.
Proof.
  unfold _calculate_portfolio_summary.
  destruct (group_by_type [] securities) as [by_type |] eqn:Hrun;
    simpl; intros H; [| discriminate].
  injection H as <-. simpl.
  destruct (group_by_type_accounts _ _ _ Hrun) as [Hd Hc].
  assert (Htally : Forall (tallies ([] ++ securities)) by_type /\
                   typed_in by_type ([] ++ securities)).
  { apply (group_by_type_tallies securities [] [] by_type Hrun);
      constructor. }
  destruct Htally as [Hall Hin].
  simpl in *.
  split; [apply Hd; constructor |].
  split; [exact Hc |].
  split; [reflexivity |].
  split; [exact Hall | exact Hin].
Qed.

(** The theorem above at three worked records. *)
Lemma summary_breakdown_accounts_for_all_witness :
  exists s,
    _calculate_portfolio_summary [reliance_fyers; tcs_statement; reliance_manual]
      = Ok s /\
    count_of (sum_by_type s) = sum_security_count s /\
    Forall (tallies [reliance_fyers; tcs_statement; reliance_manual])
      (sum_by_type s).
Proof.
  eexists. split; [reflexivity |].
  pose proof (summary_breakdown_accounts_for_all
                [reliance_fyers; tcs_statement; reliance_manual] _ eq_refl)
    as [_ [Hc [_ [Hall _]]]].
  split; [exact Hc | exact Hall].
Defined.

Lemma group_by_type_raise (securities : list Security) :
  forall by_type e,
    group_by_type by_type securities = Raise e ->
    e = TypeError /\
    Exists (fun s => hashable (security_type s) = false) securities.
Proof.
  induction securities as [| security rest IH]; intros by_type e Hrun;
    [discriminate |].
  destruct (hashable (security_type security)) eqn:Hh.
  - destruct (group_by_type_step by_type security rest Hh) as [mid [Hstep _]].
    rewrite Hstep in Hrun.
    destruct (IH _ _ Hrun) as [-> Hex]. split; auto.
  - simpl in Hrun. rewrite Hh in Hrun. injection Hrun as <-.
    split; [reflexivity | now left].
Qed.

Lemma group_by_type_ok (securities : list Security) :
  forall by_type by_type',
    group_by_type by_type securities = Ok by_type' ->
    Forall (fun s => hashable (security_type s) = true) securities.
Proof.
  induction securities as [| security rest IH]; intros by_type by_type' Hrun;
    [constructor |].
  destruct (hashable (security_type security)) eqn:Hh;
    [| simpl in Hrun; rewrite Hh in Hrun; discriminate].
  constructor; [assumption |].
  destruct (group_by_type_step by_type security rest Hh) as [mid [Hstep _]].
  rewrite Hstep in Hrun. exact (IH _ _ Hrun).
Qed.

(** X7.  The summary never divides by zero and never misses a key: it
    raises only a [TypeError], exactly when the type of some security
    cannot be hashed; and the overall percentage is 0 whenever the total
    investment is not positive. *)
Theorem summary_raises_only_on_unhashable_type (securities : list Security) :
  (forall e, _calculate_portfolio_summary securities = Raise e -> e = TypeError) /\
  (is_ok (_calculate_portfolio_summary securities) = false <->
   Exists (fun s => hashable (security_type s) = false) securities) /\
  (forall s,
     _calculate_portfolio_summary securities = Ok s ->
     (sum_total_investment s <= 0)%Q ->
     sum_overall_pnl_percentage s = 0%Q).
Proof.
  unfold _calculate_portfolio_summary.
  destruct (group_by_type [] securities) as [by_type | e0] eqn:Hrun; simpl.
  - split; [discriminate |]. split.
    + split; [discriminate |]. intros Hex. exfalso.
      pose proof (group_by_type_ok _ _ _ Hrun) as Hall.
      rewrite Forall_forall in Hall. apply Exists_exists in Hex.
      destruct Hex as [x [Hin Hx]]. rewrite (Hall x Hin) in Hx. discriminate.
    + intros s H Hle. injection H as <-. simpl in *.
      apply Qle_bool_iff in Hle. now rewrite Hle.
  - destruct (group_by_type_raise _ _ _ Hrun) as [-> Hex].
    split; [intros e H; now injection H as <- |].
    split; [split; auto | discriminate].
Qed.
(** ** Export, conversion and the consolidated result *)

(** X8.  Converting the dictionary of a security gives the security back,
    with every text and numeric field as it was; only the source tag is
    the converter's and the time stamp is the time of the conversion. *)
Theorem convert_to_dict_roundtrip (float_of_str : string -> option Q)
    (isoformat : Z -> string) (now : Z) (s : Security) :
  let restamped tag :=
    mkSecurity (symbol s) (name s) (quantity s) (avg_price s) (current_price s)
      (market_value s) (pnl s) (pnl_percentage s) (security_type s) (isin s)
      tag (Some now) in
  _convert_fyers_to_security float_of_str now (to_dict isoformat s)
    = Some (restamped "FYERS") /\
  _convert_cas_to_security float_of_str now (to_dict isoformat s)
    = Some (restamped "CAS") /\
  _convert_manual_to_security float_of_str now (to_dict isoformat s)
    = Some (restamped "MANUAL").
Proof.
  destruct s. repeat split.
Qed.

Lemma convert_items_app (conv : Z -> dict pyval -> option Security)
    (clock : nat -> Z) (l1 l2 : list (dict pyval)) :
  forall tick,
    convert_items conv clock tick (l1 ++ l2)
    = (convert_items conv clock tick l1
       ++ convert_items conv clock (tick + List.length l1) l2)%list.
Proof.
  induction l1 as [| item l1 IH]; intros tick; simpl.
  - now rewrite Nat.add_0_r.
  - rewrite IH. replace (S tick + List.length l1)%nat
      with (tick + S (List.length l1))%nat by lia.
    destruct (conv (clock tick) item); reflexivity.
Qed.

Lemma bad_record_dropped (float_of_str : string -> option Q) (tag : string)
    (clock : nat -> Z) (tick : nat) (before after : list (dict pyval))
    (item : dict pyval) :
  let conv := fun now item =>
    match security_of_item float_of_str tag now item with
    | Ok s => Some s
    | Raise _ => None
    end in
  bad_number float_of_str item ->
  convert_items conv clock tick (before ++ item :: after)
  = (convert_items conv clock tick before
     ++ convert_items conv clock (tick + S (List.length before)) after)%list.
Proof.
  intros conv Hbad.
  rewrite convert_items_app. simpl.
  destruct (security_of_item_contract float_of_str tag
              (clock (tick + List.length before)%nat) item) as [[_ Hnone] _].
  assert (Hn : conv (clock (tick + List.length before)%nat) item = None)
    by exact (Hnone Hbad).
  rewrite Hn.
  now replace (S (tick + List.length before))
    with (tick + S (List.length before))%nat by lia.
Qed.

(** X9.  A raw record that cannot be converted is dropped without any
    effect on the others, in each of the three conversion loops: the
    records before it and after it are converted as they would be without
    it, each at its own clock reading. *)
Theorem bad_record_is_dropped_alone (float_of_str : string -> option Q)
    (clock : nat -> Z) (tick : nat) (before after : list (dict pyval))
    (item : dict pyval) :
  bad_number float_of_str item ->
  Forall
    (fun conv =>
       convert_items conv clock tick (before ++ item :: after)
       = (convert_items conv clock tick before
          ++ convert_items conv clock (tick + S (List.length before)) after)%list)
    [_convert_fyers_to_security float_of_str;
     _convert_cas_to_security float_of_str;
     _convert_manual_to_security float_of_str].
Proof.
  intros Hbad.
  repeat constructor.
  - exact (bad_record_dropped float_of_str "FYERS" clock tick before after
             item Hbad).
  - exact (bad_record_dropped float_of_str "CAS" clock tick before after
             item Hbad).
  - exact (bad_record_dropped float_of_str "MANUAL" clock tick before after
             item Hbad).
Qed.

(** The theorem above with the worked record whose average price is no
    number, between two good records. *)
Lemma bad_record_is_dropped_alone_witness :
  Forall
    (fun conv =>
       convert_items conv (clock_from 100) 0
         ([[("symbol", VStr "INFY")]] ++ item_bad_avg_price
            :: [[("symbol", VStr "WIPRO")]])
       = (convert_items conv (clock_from 100) 0 [[("symbol", VStr "INFY")]]
          ++ convert_items conv (clock_from 100) 2
               [[("symbol", VStr "WIPRO")]])%list)
    [_convert_fyers_to_security float_of_decimal;
     _convert_cas_to_security float_of_decimal;
     _convert_manual_to_security float_of_decimal].
Proof.
  apply (bad_record_is_dropped_alone float_of_decimal (clock_from 100) 0
           [[("symbol", VStr "INFY")]] [[("symbol", VStr "WIPRO")]]
           item_bad_avg_price).
  exists "avg_price", (VStr "n/a"). repeat split. simpl. tauto.
Defined.

Lemma convert_items_source (float_of_str : string -> option Q) (tag : string)
    (clock : nat -> Z) (items : list (dict pyval)) :
  forall tick,
    Forall (fun s => source s = tag)
      (convert_items
         (fun now item =>
            match security_of_item float_of_str tag now item with
            | Ok s => Some s
            | Raise _ => None
            end) clock tick items).
Proof.
  induction items as [| item rest IH]; intros tick; simpl; [constructor |].
  destruct (security_of_item_contract float_of_str tag (clock tick) item)
    as [_ Hsome].
  simpl in Hsome.
  destruct (security_of_item float_of_str tag (clock tick) item) as [s | e];
    [| apply IH].
  constructor; [| apply IH].
  destruct (Hsome s eq_refl) as [Hsrc _]. exact Hsrc.
Qed.

Lemma count_sources_total (l : list Security) :
  Forall (fun s => source s = "FYERS" \/ source s = "CAS" \/ source s = "MANUAL") l ->
  (count_source "FYERS" l + count_source "CAS" l + count_source "MANUAL" l
   = List.length l)%nat.
Proof.
  unfold count_source.
  induction 1 as [| s l Hs Hl IH]; simpl; [reflexivity |].
  destruct Hs as [-> | [-> | ->]]; simpl; lia.
Qed.

(** X10.  In the result of [consolidate_portfolio] every consolidated
    security is counted under exactly one source: the three counts of
    [sources] add up to the number of securities, which is also the
    [security_count] of the summary. *)
Theorem consolidated_sources_add_up (float_of_str : string -> option Q)
    (isoformat : Z -> string) (clock : nat -> Z)
    (fyers_data cas_data manual_data : list (dict pyval))
    (c : consolidated_portfolio) :
  consolidate_portfolio float_of_str isoformat clock fyers_data cas_data
    manual_data = Ok c ->
  (cons_fyers c + cons_cas c + cons_manual c
   = List.length (cons_securities c))%nat /\
  List.length (cons_securities c) = sum_security_count (cons_summary c) /\
  (List.length (cons_securities c)
   <= List.length fyers_data + List.length cas_data
      + List.length manual_data)%nat.
Proof.
  unfold consolidate_portfolio, consolidate_securities.
  set (converted := (_ ++ _ ++ _)%list).
  destruct (_deduplicate_securities converted) as [consolidated |] eqn:Hd;
    simpl; [| discriminate].
  destruct (_calculate_portfolio_summary consolidated) as [summ |] eqn:Hs;
    simpl; intros H; [| discriminate].
  injection H as <-. simpl. rewrite length_map.
  assert (Hsrc : Forall (fun s => source s = "FYERS" \/ source s = "CAS"
                                  \/ source s = "MANUAL") converted).
  { unfold converted. repeat (apply Forall_app; split).
    - eapply Forall_impl;
        [| apply (convert_items_source float_of_str "FYERS")]. simpl. auto.
    - eapply Forall_impl;
        [| apply (convert_items_source float_of_str "CAS")]. simpl. auto.
    - eapply Forall_impl;
        [| apply (convert_items_source float_of_str "MANUAL")]. simpl. auto. }
  assert (Hin : incl consolidated converted).
  { unfold _deduplicate_securities in Hd.
    destruct (group_securities [] converted) as [grouped |] eqn:Hrun;
      simpl in Hd; [| discriminate].
    injection Hd as <-.
    apply (group_securities_members converted [] grouped converted Hrun);
      [intros x [] | apply incl_refl]. }
  split; [| split].
  - apply count_sources_total. rewrite Forall_forall in *.
    intros s Hs'. apply Hsrc. now apply Hin.
  - unfold _calculate_portfolio_summary in Hs.
    destruct (group_by_type [] consolidated); simpl in Hs; [| discriminate].
    now injection Hs as <-.
  - assert (Hall : Forall (fun s => hashable (identity_key s) = true) converted).
    { unfold _deduplicate_securities in Hd.
      destruct (group_securities [] converted) as [grouped |] eqn:Hrun;
        simpl in Hd; [| discriminate].
      exact (group_securities_hashable _ _ _ Hrun). }
    assert (Hempty : grouped_ok []) by (split; constructor).
    destruct (group_securities_ok converted [] Hempty Hall)
      as [g [Hrun [_ Hlen]]].
    unfold _deduplicate_securities in Hd. rewrite Hrun in Hd. simpl in Hd.
    injection Hd as <-. rewrite length_map. simpl in Hlen.
    assert (Hconv : forall conv tick items,
               (List.length (convert_items conv clock tick items)
                <= List.length items)%nat).
    { intros conv tick items. revert tick.
      induction items as [| item rest IH]; intros tick; simpl; [lia |].
      destruct (conv (clock tick) item); simpl; specialize (IH (S tick)); lia. }
    unfold converted in Hlen. rewrite !length_app in Hlen.
    pose proof (Hconv (_convert_fyers_to_security float_of_str) 0%nat fyers_data).
    pose proof (Hconv (_convert_cas_to_security float_of_str)
                  (List.length fyers_data) cas_data).
    pose proof (Hconv (_convert_manual_to_security float_of_str)
                  (List.length fyers_data + List.length cas_data)%nat manual_data).
    lia.
Qed.

(** The theorem above at a broker record and two statement records, one of
    which is dropped. *)
Lemma consolidated_sources_add_up_witness :
  exists c,
    consolidate_portfolio float_of_decimal iso_of_z (clock_from 100)
      [[("symbol", VStr "RELIANCE"); ("quantity", VNum 10)]]
      [item_bad_avg_price; [("symbol", VStr "INFY")]] [] = Ok c /\
    (cons_fyers c + cons_cas c + cons_manual c
     = List.length (cons_securities c))%nat.
Proof.
  eexists. split; [reflexivity |].
  exact (proj1 (consolidated_sources_add_up float_of_decimal iso_of_z
                  (clock_from 100)
                  [[("symbol", VStr "RELIANCE"); ("quantity", VNum 10)]]
                  [item_bad_avg_price; [("symbol", VStr "INFY")]] [] _ eq_refl)).
Defined.

(** ** Queries as maps from paths to conditions *)

Lemma add_min_other (filters : dict pyval) (name path path' : string)
    (q : query) :
  path <> path' ->
  dict_get (add_min filters name path q) path' = dict_get q path'.
Proof.
  intros Hne. unfold add_min.
  destruct (dict_get filters name); [now apply dict_get_set_other | reflexivity].
Qed.

Lemma add_max_other (filters : dict pyval) (name path path' : string)
    (q : query) :
  path <> path' ->
  dict_get (add_max filters name path q) path' = dict_get q path'.
Proof.
  intros Hne. unfold add_max.
  destruct (dict_get filters name); [| reflexivity].
  destruct (dict_get q path); now apply dict_get_set_other.
Qed.

Lemma add_set_other (filters : dict pyval) (name path operator path' : string)
    (q : query) :
  path <> path' ->
  dict_get (add_set filters name path operator q) path' = dict_get q path'.
Proof.
  intros Hne. unfold add_set.
  destruct (dict_get filters name) as [members |]; [| reflexivity].
  destruct (truthy members); [now apply dict_get_set_other | reflexivity].
Qed.

Lemma add_bound_other (filters : dict pyval) (name path operator path' : string)
    (q : query) :
  path <> path' ->
  dict_get (add_bound filters name path operator q) path' = dict_get q path'.
Proof.
  intros Hne. unfold add_bound.
  destruct (dict_get filters name); [now apply dict_get_set_other | reflexivity].
Qed.

(** A lower bound followed by an upper bound on the same path. *)
Lemma add_range_same (filters : dict pyval) (lo hi path : string) (q : query) :
  dict_get q path = None ->
  dict_get (add_max filters hi path (add_min filters lo path q)) path
  = range_condition (dict_get filters lo) (dict_get filters hi).
Proof.
  intros Hq. unfold add_max, add_min, range_condition.
  destruct (dict_get filters lo) as [l |], (dict_get filters hi) as [h |].
  - now rewrite !dict_get_set_same.
  - now rewrite dict_get_set_same.
  - now rewrite Hq, dict_get_set_same.
  - exact Hq.
Qed.

Lemma add_min_same (filters : dict pyval) (name path : string) (q : query) :
  dict_get q path = None ->
  dict_get (add_min filters name path q) path
  = bound_condition "$gte" (dict_get filters name).
Proof.
  intros Hq. unfold add_min, bound_condition.
  destruct (dict_get filters name); [apply dict_get_set_same | exact Hq].
Qed.

Lemma add_bound_same (filters : dict pyval) (name path operator : string)
    (q : query) :
  dict_get q path = None ->
  dict_get (add_bound filters name path operator q) path
  = bound_condition operator (dict_get filters name).
Proof.
  intros Hq. unfold add_bound, bound_condition.
  destruct (dict_get filters name); [apply dict_get_set_same | exact Hq].
Qed.

Lemma add_set_same (filters : dict pyval) (name path operator : string)
    (q : query) :
  dict_get (add_set filters name path operator q) path
  = match set_filter filters name with
    | Some members => Some [(operator, members)]
    | None => dict_get q path
    end.
Proof.
  unfold add_set, set_filter.
  destruct (dict_get filters name) as [members |]; [| reflexivity].
  destruct (truthy members); [apply dict_get_set_same | reflexivity].
Qed.

(** Drop the outer steps of a query that write another path. *)
Ltac other_path tac :=
  first [ apply add_set_other | apply add_max_other
        | apply add_min_other | apply add_bound_other ];
  tac.

Ltac peel_with tac :=
  repeat (etransitivity; [other_path tac |]).

Ltac peel := peel_with ltac:(discriminate).

Ltac untouched := peel; reflexivity.

(** Each range path holds the bounds the request gives. *)
Lemma stock_range_lookup (filters : dict pyval) :
  Forall (fun r =>
            dict_get (_build_screening_query filters) (snd r)
            = range_condition (dict_get filters (fst (fst r)))
                              (dict_get filters (snd (fst r))))
         stock_ranges.
Proof.
  unfold _build_screening_query, stock_ranges.
  repeat constructor; cbn [fst snd];
    (etransitivity; [peel; apply add_range_same; untouched | reflexivity]).
Qed.

(** X11.  The stock query, read as a map: on each of the five range
    paths it holds the lower bound, the upper bound, or both, as the
    request gives them; on the ROCE path the lower bound; on the sector
    path the exclusion if there is one and else the inclusion; and no
    other path. *)
Theorem stock_query_by_path (filters : dict pyval) :
  Forall (fun r =>
            dict_get (_build_screening_query filters) (snd r)
            = range_condition (dict_get filters (fst (fst r)))
                              (dict_get filters (snd (fst r))))
         stock_ranges /\
  dict_get (_build_screening_query filters) "fundamental_data.roce"
    = bound_condition "$gte" (dict_get filters "roce_min") /\
  dict_get (_build_screening_query filters) "basic_info.sector"
    = sector_condition filters /\
  (forall path, ~ In path stock_paths ->
     dict_get (_build_screening_query filters) path = None).
Proof.
  split; [apply stock_range_lookup |].
  unfold _build_screening_query.
  split; [| split].
  - etransitivity; [peel; apply add_min_same; untouched | reflexivity].
  - etransitivity; [peel; reflexivity |].
    rewrite !add_set_same. unfold sector_condition.
    destruct (set_filter filters "exclude_sectors"); [reflexivity |].
    destruct (set_filter filters "sectors"); [reflexivity |].
    untouched.
  - intros path Hout.
    peel_with ltac:(intros <-; apply Hout; cbn; tauto).
    reflexivity.
Qed.


(** ** Range filters end to end *)

Lemma py_lt_number_false (v : pyval) (l : Q) :
  py_lt v (VNum l) = Ok false <-> exists x, num_of v = Some x /\ (l <= x)%Q.
Proof.
  destruct v as [| b | q | s | m | d]; simpl;
    try (split; [discriminate | intros [x [Hx _]]; discriminate]).
  - split.
    + intros H. eexists. split; [reflexivity |].
      apply Qle_bool_iff. injection H as H.
      now destruct (Qle_bool l (if b then 1 else 0)).
    + intros [x [Hx Hle]]. injection Hx as <-.
      apply Qle_bool_iff in Hle. now rewrite Hle.
  - split.
    + intros H. exists q. split; [reflexivity |].
      apply Qle_bool_iff. injection H as H.
      now destruct (Qle_bool l q).
    + intros [x [Hx Hle]]. injection Hx as <-.
      apply Qle_bool_iff in Hle. now rewrite Hle.
Qed.

Lemma py_gt_number_false (v : pyval) (h : Q) :
  py_gt v (VNum h) = Ok false <-> exists x, num_of v = Some x /\ (x <= h)%Q.
Proof.
  unfold py_gt.
  destruct v as [| b | q | s | m | d]; simpl;
    try (split; [discriminate | intros [x [Hx _]]; discriminate]).
  - split.
    + intros H. eexists. split; [reflexivity |].
      apply Qle_bool_iff. injection H as H.
      now destruct (Qle_bool (if b then 1 else 0) h).
    + intros [x [Hx Hle]]. injection Hx as <-.
      apply Qle_bool_iff in Hle. now rewrite Hle.
  - split.
    + intros H. exists q. split; [reflexivity |].
      apply Qle_bool_iff. injection H as H.
      now destruct (Qle_bool q h).
    + intros [x [Hx Hle]]. injection Hx as <-.
      apply Qle_bool_iff in Hle. now rewrite Hle.
Qed.

(** A condition with both bounds holds exactly on the numbers of the
    closed interval. *)
Lemma path_range (record : pyval) (path : string) (l h : Q) :
  path_satisfied record path [("$gte", VNum l); ("$lte", VNum h)] <->
  within_bounds record path l h.
Proof.
  unfold path_satisfied, within_bounds. split.
  - intros [v [Hv Hall]].
    inversion Hall as [| ? ? Hlo Hrest]; subst.
    inversion Hrest as [| ? ? Hhi _]; subst.
    destruct Hlo as [Hlo _]. destruct Hhi as [_ [Hhi _]].
    apply py_lt_number_false in Hlo; [| reflexivity].
    apply py_gt_number_false in Hhi; [| reflexivity].
    destruct Hlo as [x [Hx Hle]]. destruct Hhi as [y [Hy Hge]].
    assert (y = x) by congruence. subst y.
    exists v, x. auto.
  - intros [v [x [Hv [Hx [Hle Hge]]]]]. exists v. split; [exact Hv |].
    repeat constructor; try discriminate.
    + intros _. apply py_lt_number_false. eauto.
    + intros _. apply py_gt_number_false. eauto.
Qed.

(** A record that passes the loop satisfies the condition the query holds
    on any path. *)
Lemma filters_satisfy_lookup (record : pyval) (q : query) (path : string)
    (cond : condition) :
  _apply_stock_filters record q = true ->
  dict_get q path = Some cond ->
  path_satisfied record path cond.
Proof.
  intros Hpass Hget.
  apply apply_stock_filters_all in Hpass.
  destruct (assoc_get_some String.eqb q path cond Hget) as [k [Hin Hk]].
  apply String.eqb_eq in Hk. subst k.
  rewrite Forall_forall in Hpass. exact (Hpass _ Hin).
Qed.

(** X12.  A pair of numeric bounds on one of the five range fields is a
    closed interval.  Whatever else the request asks, every stock it
    returns holds a number within the bounds at the path; and a request
    with the two bounds alone returns exactly the stocks of the catalog
    that do. *)
Theorem range_filter_is_inclusive_interval
    (catalog : list pyval) (record : pyval) (lo_name hi_name path : string)
    (l h : Q) :
  In (lo_name, hi_name, path) stock_ranges ->
  (forall filters,
     dict_get filters lo_name = Some (VNum l) ->
     dict_get filters hi_name = Some (VNum h) ->
     In record (screen_catalog catalog (_build_screening_query filters)) ->
     within_bounds record path l h) /\
  (In record
      (screen_catalog catalog
         (_build_screening_query
            [(lo_name, VNum l); (hi_name, VNum h)])) <->
   In record catalog /\ within_bounds record path l h).
Proof.
  intros Hin. split.
  - intros filters Hlo Hhi Hrec.
    apply filter_In in Hrec. destruct Hrec as [_ Hpass].
    apply path_range.
    apply (filters_satisfy_lookup record _ path _ Hpass).
    pose proof (stock_range_lookup filters) as Hranges.
    rewrite Forall_forall in Hranges.
    pose proof (Hranges _ Hin) as Hget. cbn [fst snd] in Hget.
    now rewrite Hget, Hlo, Hhi.
  - assert (Hq : _build_screening_query [(lo_name, VNum l); (hi_name, VNum h)]
                 = [(path, [("$gte", VNum l); ("$lte", VNum h)])]).
    { unfold stock_ranges in Hin. cbn [In] in Hin.
      repeat (destruct Hin as [Hin | Hin];
              [injection Hin as <- <- <-; reflexivity |]).
      contradiction. }
    rewrite Hq. unfold screen_catalog. rewrite filter_In.
    rewrite apply_stock_filters_all, <- path_range.
    split; intros [Hc Hs]; (split; [exact Hc |]).
    + now inversion Hs.
    + constructor; [exact Hs | constructor].
Qed.

Lemma range_filter_is_inclusive_interval_witness :
  In ("pe_ratio_min", "pe_ratio_max", "fundamental_data.pe_ratio")
     stock_ranges /\
  (In (mock_stock "TCS" "Tata Consultancy Services" "Technology"
         1200000000000 (15203 # 4) (126 # 5) (17 # 2) (179 # 5) (421 # 10))
      (screen_catalog _get_mock_stocks
         (_build_screening_query
            [("pe_ratio_min", VNum 20); ("pe_ratio_max", VNum 30)])) <->
   In (mock_stock "TCS" "Tata Consultancy Services" "Technology"
         1200000000000 (15203 # 4) (126 # 5) (17 # 2) (179 # 5) (421 # 10))
      _get_mock_stocks /\
   within_bounds
     (mock_stock "TCS" "Tata Consultancy Services" "Technology"
        1200000000000 (15203 # 4) (126 # 5) (17 # 2) (179 # 5) (421 # 10))
     "fundamental_data.pe_ratio" 20 30).
Proof.
  assert (Hin : In ("pe_ratio_min", "pe_ratio_max",
                    "fundamental_data.pe_ratio") stock_ranges)
    by (cbn; tauto).
  split; [exact Hin |].
  exact (proj2 (range_filter_is_inclusive_interval _get_mock_stocks _
                  "pe_ratio_min" "pe_ratio_max" "fundamental_data.pe_ratio"
                  20 30 Hin)).
Defined.

(** ** Filters the adapter does not read *)

Lemma add_min_agree (f g : dict pyval) (name path : string) (q q' : query) :
  dict_get f name = dict_get g name -> q = q' ->
  add_min f name path q = add_min g name path q'.
Proof. intros H ->. unfold add_min. now rewrite H. Qed.

Lemma add_max_agree (f g : dict pyval) (name path : string) (q q' : query) :
  dict_get f name = dict_get g name -> q = q' ->
  add_max f name path q = add_max g name path q'.
Proof. intros H ->. unfold add_max. now rewrite H. Qed.

Lemma add_set_agree (f g : dict pyval) (name path operator : string)
    (q q' : query) :
  dict_get f name = dict_get g name -> q = q' ->
  add_set f name path operator q = add_set g name path operator q'.
Proof. intros H ->. unfold add_set. now rewrite H. Qed.

(** X13.  The stock query depends on the thirteen filters the adapter
    reads and on nothing else: two requests that agree on them give the
    same query and so the same stocks, whatever other keys ([page],
    [limit], [sort_by], or a filter the adapter does not know) they
    carry; and the empty request returns the whole catalog. *)
Theorem unknown_filters_are_ignored (filters other : dict pyval) :
  (forall name, In name stock_filter_names ->
     dict_get filters name = dict_get other name) ->
  _build_screening_query filters = _build_screening_query other /\
  (forall catalog,
     screen_catalog catalog (_build_screening_query filters)
     = screen_catalog catalog (_build_screening_query other)) /\
  (forall catalog,
     screen_catalog catalog (_build_screening_query []) = catalog).
Proof.
  intros Hagree.
  assert (Hq : _build_screening_query filters = _build_screening_query other).
  { unfold _build_screening_query.
    repeat first [ apply add_set_agree | apply add_max_agree
                 | apply add_min_agree ];
      try reflexivity; apply Hagree; cbn; tauto. }
  split; [exact Hq |].
  split; [intros catalog; now rewrite Hq |].
  intros catalog. unfold screen_catalog. cbn.
  induction catalog as [| stock rest IH]; [reflexivity |].
  cbn. now rewrite IH.
Qed.

Lemma unknown_filters_are_ignored_witness :
  _build_screening_query momentum_filters = _build_screening_query [] /\
  (forall catalog,
     screen_catalog catalog (_build_screening_query momentum_filters)
     = screen_catalog catalog (_build_screening_query [])) /\
  (forall catalog,
     screen_catalog catalog (_build_screening_query []) = catalog).
Proof.
  apply (unknown_filters_are_ignored momentum_filters []).
  intros name Hin. cbn in Hin.
  repeat (destruct Hin as [<- | Hin]; [reflexivity |]).
  contradiction.
Defined.


(** ** The fund query *)

Lemma dict_set_keys {V : Type} (d : dict V) (k : string) (v : V) (x : string) :
  In x (map fst (dict_set d k v)) -> x = k \/ In x (map fst d).
Proof.
  unfold dict_set.
  induction d as [| [k' v'] d IH]; simpl.
  - intros [<- | []]. now left.
  - destruct (String.eqb k' k); simpl.
    + intros [<- | H]; auto.
    + intros [<- | H]; [auto |]. destruct (IH H); auto.
Qed.

(** Writing a key keeps the keys of a dictionary distinct. *)
Lemma dict_set_nodup {V : Type} (d : dict V) (k : string) (v : V) :
  NoDup (map fst d) -> NoDup (map fst (dict_set d k v)).
Proof.
  induction d as [| [k' v'] d IH]; simpl; intros Hd.
  - repeat constructor. intros [].
  - inversion Hd as [| ? ? Hout Hrest]; subst.
    unfold dict_set. simpl.
    destruct (String.eqb_spec k' k) as [-> | Hne]; simpl.
    + now constructor.
    + constructor; [| now apply IH].
      intros Hin. apply dict_set_keys in Hin.
      destruct Hin as [-> | Hin]; [now apply Hne | now apply Hout].
Qed.

(** With distinct keys, every entry is the one a lookup finds. *)
Lemma dict_entry_lookup {V : Type} (d : dict V) (k : string) (v : V) :
  NoDup (map fst d) -> In (k, v) d -> dict_get d k = Some v.
Proof.
  unfold dict_get.
  induction d as [| [k' v'] d IH]; simpl; intros Hd Hin; [contradiction |].
  inversion Hd as [| ? ? Hout Hrest]; subst.
  destruct Hin as [Heq | Hin].
  - injection Heq as -> ->. now rewrite String.eqb_refl.
  - destruct (String.eqb_spec k' k) as [-> | Hne]; [| now apply IH].
    exfalso. apply Hout. now apply (in_map fst _ (k, v)).
Qed.

Lemma add_min_nodup (filters : dict pyval) (name path : string) (q : query) :
  NoDup (map fst q) -> NoDup (map fst (add_min filters name path q)).
Proof.
  intros Hq. unfold add_min.
  destruct (dict_get filters name); [now apply dict_set_nodup | exact Hq].
Qed.

Lemma add_max_nodup (filters : dict pyval) (name path : string) (q : query) :
  NoDup (map fst q) -> NoDup (map fst (add_max filters name path q)).
Proof.
  intros Hq. unfold add_max.
  destruct (dict_get filters name); [| exact Hq].
  destruct (dict_get q path); now apply dict_set_nodup.
Qed.

Lemma add_set_nodup (filters : dict pyval) (name path operator : string)
    (q : query) :
  NoDup (map fst q) -> NoDup (map fst (add_set filters name path operator q)).
Proof.
  intros Hq. unfold add_set.
  destruct (dict_get filters name) as [members |]; [| exact Hq].
  destruct (truthy members); [now apply dict_set_nodup | exact Hq].
Qed.

Lemma add_bound_nodup (filters : dict pyval) (name path operator : string)
    (q : query) :
  NoDup (map fst q) -> NoDup (map fst (add_bound filters name path operator q)).
Proof.
  intros Hq. unfold add_bound.
  destruct (dict_get filters name); [now apply dict_set_nodup | exact Hq].
Qed.

Lemma fund_query_nodup (filters : dict pyval) :
  NoDup (map fst (_build_mf_screening_query filters)).
Proof.
  unfold _build_mf_screening_query.
  repeat first [ apply add_min_nodup | apply add_max_nodup
               | apply add_set_nodup | apply add_bound_nodup ].
  constructor.
Qed.

(** The two filter loops are the same loop. *)
Lemma apply_mf_filters_as_stock (mf : pyval) (q : query) :
  _apply_mf_filters mf q = _apply_stock_filters mf q.
Proof.
  induction q as [| [field cond] rest IH]; simpl; [reflexivity |].
  now rewrite IH.
Qed.

(** X14.  The fund query, read as a map: the three set filters give an
    [$in] condition when they are not empty; the assets path holds the
    lower bound, the upper bound, or both; the expense ratio an upper
    bound and the two returns a lower bound; there is no other path.  A
    fund is returned exactly when it is in the catalog and satisfies the
    condition found on every path. *)
Theorem fund_query_by_path (filters : dict pyval) :
  dict_get (_build_mf_screening_query filters) "basic_info.category"
    = bound_condition "$in" (set_filter filters "categories") /\
  dict_get (_build_mf_screening_query filters) "basic_info.sub_category"
    = bound_condition "$in" (set_filter filters "sub_categories") /\
  dict_get (_build_mf_screening_query filters) "basic_info.amc"
    = bound_condition "$in" (set_filter filters "amcs") /\
  dict_get (_build_mf_screening_query filters) "basic_info.aum"
    = range_condition (dict_get filters "aum_min")
                      (dict_get filters "aum_max") /\
  dict_get (_build_mf_screening_query filters) "basic_info.expense_ratio"
    = bound_condition "$lte" (dict_get filters "expense_ratio_max") /\
  dict_get (_build_mf_screening_query filters) "performance_data.returns_1y"
    = bound_condition "$gte" (dict_get filters "returns_1y_min") /\
  dict_get (_build_mf_screening_query filters) "performance_data.returns_3y"
    = bound_condition "$gte" (dict_get filters "returns_3y_min") /\
  (forall path, ~ In path fund_paths ->
     dict_get (_build_mf_screening_query filters) path = None) /\
  (forall catalog fund,
     In fund (screen_mf_catalog catalog (_build_mf_screening_query filters))
     <->
     In fund catalog /\
     forall path cond,
       dict_get (_build_mf_screening_query filters) path = Some cond ->
       path_satisfied fund path cond).
Proof.
  assert (Hset : forall name path (q : query),
            dict_get q path = None ->
            dict_get (add_set filters name path "$in" q) path
            = bound_condition "$in" (set_filter filters name)).
  { intros name path q Hq. rewrite add_set_same. unfold bound_condition.
    destruct (set_filter filters name); [reflexivity | exact Hq]. }
  repeat match goal with |- _ /\ _ => split end.
  - unfold _build_mf_screening_query.
    etransitivity; [peel; apply Hset; untouched | reflexivity].
  - unfold _build_mf_screening_query.
    etransitivity; [peel; apply Hset; untouched | reflexivity].
  - unfold _build_mf_screening_query.
    etransitivity; [peel; apply Hset; untouched | reflexivity].
  - unfold _build_mf_screening_query.
    etransitivity; [peel; apply add_range_same; untouched | reflexivity].
  - unfold _build_mf_screening_query.
    etransitivity; [peel; apply add_bound_same; untouched | reflexivity].
  - unfold _build_mf_screening_query.
    etransitivity; [peel; apply add_min_same; untouched | reflexivity].
  - unfold _build_mf_screening_query.
    etransitivity; [peel; apply add_min_same; untouched | reflexivity].
  - intros path Hout. unfold _build_mf_screening_query.
    peel_with ltac:(intros <-; apply Hout; cbn; tauto).
    reflexivity.
  - intros catalog fund. unfold screen_mf_catalog. rewrite filter_In.
    rewrite apply_mf_filters_as_stock. split.
    + intros [Hc Hpass]. split; [exact Hc |].
      intros path cond Hget.
      exact (filters_satisfy_lookup _ _ _ _ Hpass Hget).
    + intros [Hc Hall]. split; [exact Hc |].
      apply apply_stock_filters_all.
      apply Forall_forall. intros [path cond] Hin. cbn [fst snd].
      apply Hall.
      apply dict_entry_lookup; [apply fund_query_nodup | exact Hin].
Qed.


(** ** Sort key *)

Lemma sort_walk_value_at (keys : list string) :
  forall item,
    match sort_walk item keys with
    | Ok v =>
        value_at item keys = Some v \/
        (value_at item keys = None /\ v = VNum 0)
    | Raise _ => value_at item keys = None
    end.
Proof.
  induction keys as [| key rest IH]; intros item; simpl; [now left |].
  destruct item as [| b | q | s | l | d]; simpl; try reflexivity.
  unfold dict_get_default.
  destruct (dict_get d key) as [inner |]; [apply IH |].
  destruct rest as [| key' rest]; simpl; [now right | reflexivity].
Qed.

(** X15.  The sort key of a record never fails: it is the value the
    record holds at the path, and 0 when the path is missing from the
    record, when it runs through a value that is no dictionary, or when
    the value is [None]. *)
Theorem sort_key_is_value_or_zero (field : string) (item : pyval) :
  get_sort_value field item
  = match value_at item (split_on "." field) with
    | Some VNone | None => VNum 0
    | Some value => value
    end.
Proof.
  unfold get_sort_value.
  pose proof (sort_walk_value_at (split_on "." field) item) as H.
  destruct (sort_walk item (split_on "." field)) as [v | e].
  - destruct H as [-> | [-> ->]]; [now destruct v | reflexivity].
  - now rewrite H.
Qed.

(** ** Pagination *)

Lemma py_index_int (z : Z) : py_index (VNum (inject_Z z)) = Some z.
Proof.
  unfold py_index, inject_Z, Qred.
  pose proof (Z.ggcd_gcd z 1) as Hg.
  pose proof (Z.ggcd_correct_divisors z 1) as Hd.
  destruct (Z.ggcd z 1) as [g [a b]]. cbn [fst] in Hg.
  rewrite Z.gcd_1_r in Hg. subst g. destruct Hd as [Ha Hb].
  assert (b = 1) by lia. assert (a = z) by lia. subst a b.
  reflexivity.
Qed.

Lemma firstn_skipn_add {A : Type} (a b : nat) :
  forall l : list A,
    (firstn a l ++ firstn b (skipn a l))%list = firstn (a + b) l.
Proof.
  induction a as [| a IH]; intros l; [reflexivity |].
  destruct l as [| x l]; simpl; [now rewrite firstn_nil |].
  now rewrite IH.
Qed.

(** A slice with bounds that are not negative is a window of the list. *)
Lemma py_slice_window {A : Type} (l : list A) (start size : Z) :
  0 <= start -> 0 <= size ->
  py_slice l start (start + size)
  = firstn (Z.to_nat size) (skipn (Z.to_nat start) l).
Proof.
  intros Hs Hk. unfold py_slice, clamp_index.
  destruct (Z.ltb_spec start 0) as [? | _]; [lia |].
  destruct (Z.ltb_spec (start + size) 0) as [? | _]; [lia |].
  destruct (Z_le_gt_dec (Z.of_nat (List.length l)) start) as [Hout | Hin].
  - rewrite (skipn_all2 l) by lia.
    rewrite (skipn_all2 l) by lia.
    now rewrite !firstn_nil.
  - rewrite (Z.min_l start) by lia.
    destruct (Z_le_gt_dec (start + size) (Z.of_nat (List.length l)))
      as [Hfit | Hlong].
    + rewrite Z.min_l by lia. f_equal. lia.
    + rewrite Z.min_r by lia.
      rewrite !firstn_all2; [reflexivity | |];
        rewrite length_skipn; lia.
Qed.

Lemma paginate_window (results : list pyval) (filters : dict pyval)
    (page limit : Z) :
  py_index (dict_get_default filters "page" (VNum 1)) = Some page ->
  py_index (dict_get_default filters "limit" (VNum 20)) = Some limit ->
  1 <= page -> 0 <= limit ->
  _paginate_results results filters
  = firstn (Z.to_nat limit) (skipn (Z.to_nat ((page - 1) * limit)) results).
Proof.
  intros Hp Hl Hpage Hlimit. unfold _paginate_results.
  rewrite Hp, Hl. cbv zeta. apply py_slice_window; nia.
Qed.

(** X16.  For a page number of at least 1 and a limit that is not
    negative (an absent page is page 1, an absent limit 20), the page is
    the window of [limit] results after the first [(page - 1) * limit]:
    it has at most [limit] results, and it is empty when the page lies
    beyond the end. *)
Theorem paginate_returns_window (results : list pyval) (filters : dict pyval)
    (page limit : Z) :
  py_index (dict_get_default filters "page" (VNum 1)) = Some page ->
  py_index (dict_get_default filters "limit" (VNum 20)) = Some limit ->
  1 <= page -> 0 <= limit ->
  _paginate_results results filters
    = firstn (Z.to_nat limit)
        (skipn (Z.to_nat ((page - 1) * limit)) results) /\
  Z.of_nat (List.length (_paginate_results results filters)) <= limit /\
  (Z.of_nat (List.length results) <= (page - 1) * limit ->
   _paginate_results results filters = []).
Proof.
  intros Hp Hl Hpage Hlimit.
  rewrite (paginate_window results filters page limit Hp Hl Hpage Hlimit).
  split; [reflexivity |]. split.
  - pose proof (firstn_le_length (Z.to_nat limit)
                  (skipn (Z.to_nat ((page - 1) * limit)) results)).
    lia.
  - intros Hout. rewrite skipn_all2 by lia. apply firstn_nil.
Qed.

Lemma paginate_returns_window_witness :
  _paginate_results [VStr "a"; VStr "b"; VStr "c"] [("limit", VNum 2)]
    = firstn (Z.to_nat 2)
        (skipn (Z.to_nat ((1 - 1) * 2)) [VStr "a"; VStr "b"; VStr "c"]) /\
  Z.of_nat (List.length
              (_paginate_results [VStr "a"; VStr "b"; VStr "c"]
                 [("limit", VNum 2)])) <= 2 /\
  (Z.of_nat (List.length [VStr "a"; VStr "b"; VStr "c"]) <= (1 - 1) * 2 ->
   _paginate_results [VStr "a"; VStr "b"; VStr "c"] [("limit", VNum 2)] = []).
Proof.
  apply (paginate_returns_window [VStr "a"; VStr "b"; VStr "c"]
           [("limit", VNum 2)] 1 2); [reflexivity | reflexivity | lia | lia].
Defined.

(** X17.  With a positive limit the pages follow one another without gap
    or overlap: the first [n] pages, one after the other, are the first
    [n * limit] results, and all of them once [n * limit] reaches their
    number. *)
Theorem pages_partition_results (results : list pyval) (limit : Z) (n : nat) :
  0 < limit ->
  concat (map (fun p => _paginate_results results
                          (page_request (Z.of_nat p) limit))
              (seq 1 n))
    = firstn (n * Z.to_nat limit) results /\
  ((List.length results <= n * Z.to_nat limit)%nat ->
   concat (map (fun p => _paginate_results results
                           (page_request (Z.of_nat p) limit))
               (seq 1 n))
   = results).
Proof.
  intros Hlimit.
  assert (Hall : concat (map (fun p => _paginate_results results
                                         (page_request (Z.of_nat p) limit))
                             (seq 1 n))
                 = firstn (n * Z.to_nat limit) results).
  { induction n as [| n IH]; [reflexivity |].
    rewrite seq_S, map_app, concat_app, IH. cbn [map concat].
    rewrite app_nil_r.
    rewrite (paginate_window results _ (Z.of_nat (1 + n)) limit);
      [| apply py_index_int | apply py_index_int | lia | lia].
    replace (Z.to_nat ((Z.of_nat (1 + n) - 1) * limit))
      with (n * Z.to_nat limit)%nat by nia.
    rewrite firstn_skipn_add. f_equal. lia. }
  split; [exact Hall |].
  intros Hlen. rewrite Hall. now apply firstn_all2.
Qed.

Lemma pages_partition_results_witness :
  concat (map (fun p => _paginate_results [VStr "a"; VStr "b"; VStr "c"]
                          (page_request (Z.of_nat p) 2))
              (seq 1 2))
    = firstn (2 * Z.to_nat 2) [VStr "a"; VStr "b"; VStr "c"] /\
  ((List.length [VStr "a"; VStr "b"; VStr "c"] <= 2 * Z.to_nat 2)%nat ->
   concat (map (fun p => _paginate_results [VStr "a"; VStr "b"; VStr "c"]
                           (page_request (Z.of_nat p) 2))
               (seq 1 2))
   = [VStr "a"; VStr "b"; VStr "c"]).
Proof.
  apply (pages_partition_results [VStr "a"; VStr "b"; VStr "c"] 2 2). lia.
Defined.

(** X18.  Requests off the usual range.  A page or a limit that is no
    integer leaves the results as they are; page 0 is empty; and on page 1
    a negative limit drops that many results from the end. *)
Theorem paginate_edge_requests (results : list pyval) (filters : dict pyval) :
  (py_index (dict_get_default filters "page" (VNum 1)) = None \/
   py_index (dict_get_default filters "limit" (VNum 20)) = None ->
   _paginate_results results filters = results) /\
  (forall limit,
     py_index (dict_get_default filters "page" (VNum 1)) = Some 0 ->
     py_index (dict_get_default filters "limit" (VNum 20)) = Some limit ->
     0 <= limit ->
     _paginate_results results filters = []) /\
  (forall limit,
     py_index (dict_get_default filters "page" (VNum 1)) = Some 1 ->
     py_index (dict_get_default filters "limit" (VNum 20)) = Some limit ->
     limit < 0 ->
     _paginate_results results filters
     = firstn (List.length results - Z.to_nat (- limit)) results).
Proof.
  unfold _paginate_results. split; [| split].
  - intros [-> | ->]; [reflexivity |].
    now destruct (py_index (dict_get_default filters "page" (VNum 1))).
  - intros limit -> -> Hlimit. cbv zeta.
    unfold py_slice, clamp_index.
    replace ((0 - 1) * limit + limit) with 0 by lia.
    change (0 <? 0) with false. cbv iota.
    destruct (Z.ltb_spec ((0 - 1) * limit) 0);
      match goal with
      | |- firstn ?k _ = _ => replace k with 0%nat by lia
      end; reflexivity.
  - intros limit -> -> Hlimit. cbv zeta.
    unfold py_slice, clamp_index.
    replace ((1 - 1) * limit) with 0 by lia.
    change (0 <? 0) with false. cbv iota.
    destruct (Z.ltb_spec (0 + limit) 0) as [_ | ?]; [| lia].
    rewrite Z.min_l by lia. cbn [Z.to_nat skipn]. f_equal. lia.
Qed.

(** ** The books of the refresh loop *)

Lemma same_position_refl (d : dict pyval) :
  same_position (VDict d) (VDict d).
Proof. exists d, d. auto. Qed.

Lemma same_position_write (origin : pyval) (d : dict pyval) (k : string)
    (v : pyval) :
  In k written_fields ->
  same_position origin (VDict d) ->
  same_position origin (VDict (dict_set d k v)).
Proof.
  intros Hk [d0 [d' [Ho [Hd Hsame]]]]. injection Hd as <-.
  exists d0, (dict_set d k v). split; [exact Ho | split; [reflexivity |]].
  intros k0 Hout. rewrite dict_get_set_other; [now apply Hsame |].
  intros ->. now apply Hout.
Qed.

(** The number read from a field that holds a number. *)
Lemma stored_number_present (d : dict pyval) (k : string) (v : pyval) (q : Q) :
  dict_get d k = Some v -> num_of v = Some q ->
  stored_number (VDict d) k = q.
Proof.
  intros Hget Hnum. unfold stored_number. simpl. unfold dict_get_default.
  now rewrite Hget, Hnum.
Qed.

Lemma stored_number_get (d : dict pyval) (k : string) :
  number_or_absent d k ->
  num_of (dict_get_default d k (VNum 0)) = Some (stored_number (VDict d) k).
Proof.
  unfold number_or_absent, stored_number, is_number. simpl.
  unfold dict_get_default.
  destruct (dict_get d k) as [v |]; [| reflexivity].
  now destruct (num_of v).
Qed.

Section Ledger.

Variable world : Type.
Variable now_isoformat : world -> string * world.
Variable kept : list pyval.
Variable origin : pyval.
Variables base_value base_pnl : Q.

Local Abbreviation books := (@ledger world kept origin base_value base_pnl).
Local Abbreviation open_books := (books false false false false false).

Lemma books_weaken (a b : bool) (f : frame world) :
  books false a b false false f -> open_books f.
Proof.
  intros [Hh Hrest]. split; [| exact Hrest].
  now apply holding_state_weaken with a b.
Qed.

Lemma books_settle (a b : bool) (f : frame world) :
  books true a b true true f -> books true false false true true f.
Proof.
  intros [Hh Hrest]. split; [| exact Hrest].
  now apply holding_state_weaken with a b.
Qed.

(** Reading leaves the books as they are. *)
Lemma books_read {A : Type} (a b : bool) (m : M (frame world) A) :
  (forall f, snd (m f) = f) ->
  triple (books false a b false false) m
    (fun _ => books false a b false false) open_books.
Proof.
  intros Hm f Hf. specialize (Hm f).
  destruct (m f) as [[x | e] f']; simpl in Hm; subst;
    [exact Hf | now apply books_weaken with a b].
Qed.

Lemma books_item (a b : bool) (k : string) :
  triple (books false a b false false) (holding_item k)
    (fun _ => books false a b false false) open_books.
Proof. apply books_read. reflexivity. Qed.

Lemma books_lift {A : Type} (a b : bool) (r : result A) :
  triple (books false a b false false) (lift r)
    (fun v f => books false a b false false f /\ r = Ok v) open_books.
Proof.
  intros f Hf. unfold lift. destruct r; [auto |].
  now apply books_weaken with a b.
Qed.

Lemma books_plain {A : Type} (a b : bool) (r : result A) :
  triple (books false a b false false) (lift r)
    (fun _ => books false a b false false) open_books.
Proof. apply books_read. reflexivity. Qed.

Lemma books_in_world {A : Type} (ap a b va pa : bool)
    (op : world -> A * world) (E : frame world -> Prop) :
  triple (books ap a b va pa) (in_world op)
    (fun _ => books ap a b va pa) E.
Proof.
  intros f Hf. unfold in_world. destruct (op (env f)) as [x w]. exact Hf.
Qed.

(** Writing a field other than the value and the pnl. *)
Lemma books_set_other (a b : bool) (k : string) (v : pyval) :
  In k written_fields -> k <> "current_value" -> k <> "total_pnl" ->
  triple (books false a b false false) (holding_set k v)
    (fun _ => books false a b false false) open_books.
Proof.
  intros Hk Hcv Htp f [[d [Hd [Hc Ht]]] [Hpos Hrest]].
  unfold holding_set. rewrite Hd. simpl.
  split; [| split; [| exact Hrest]]; simpl.
  - exists (dict_set d k v). split; [reflexivity |].
    unfold number_or_absent.
    rewrite !dict_get_set_other by assumption. auto.
  - apply same_position_write; [exact Hk | now rewrite <- Hd].
Qed.

Lemma books_set_value (a b : bool) (q : Q) :
  triple (books false a b false false)
    (holding_set "current_value" (VNum q))
    (fun _ => books false true b false false) open_books.
Proof.
  intros f [[d [Hd [Hc Ht]]] [Hpos Hrest]].
  unfold holding_set. rewrite Hd. simpl.
  split; [| split; [| exact Hrest]]; simpl.
  - exists (dict_set d "current_value" (VNum q)). split; [reflexivity |].
    unfold number_or_absent.
    rewrite dict_get_set_same, dict_get_set_other by discriminate.
    split; [eauto | exact Ht].
  - apply same_position_write; [cbn; tauto | now rewrite <- Hd].
Qed.

Lemma books_set_pnl (a b : bool) (q : Q) :
  triple (books false a b false false)
    (holding_set "total_pnl" (VNum q))
    (fun _ => books false a true false false) open_books.
Proof.
  intros f [[d [Hd [Hc Ht]]] [Hpos Hrest]].
  unfold holding_set. rewrite Hd. simpl.
  split; [| split; [| exact Hrest]]; simpl.
  - exists (dict_set d "total_pnl" (VNum q)). split; [reflexivity |].
    unfold number_or_absent.
    rewrite dict_get_set_same, dict_get_set_other by discriminate.
    split; [exact Hc | eauto].
  - apply same_position_write; [cbn; tauto | now rewrite <- Hd].
Qed.

(** A field that has been written reads back as the number the books
    count. *)
Lemma books_item_value (ap b va pa : bool) (E : frame world -> Prop) :
  triple (books ap true b va pa) (holding_item "current_value")
    (fun v f =>
       books ap true b va pa f /\
       num_of v = Some (stored_number (holding f) "current_value"))
    E.
Proof.
  intros f Hf. pose proof Hf as [[d [Hd [[q Hc] Ht]]] Hrest].
  unfold holding_item. rewrite Hd. simpl. rewrite Hc.
  split; [exact Hf |].
  now rewrite (stored_number_present d "current_value" (VNum q) q).
Qed.

Lemma books_item_pnl (ap a va pa : bool) (E : frame world -> Prop) :
  triple (books ap a true va pa) (holding_item "total_pnl")
    (fun v f =>
       books ap a true va pa f /\
       num_of v = Some (stored_number (holding f) "total_pnl"))
    E.
Proof.
  intros f Hf. pose proof Hf as [[d [Hd [Hc [q Ht]]]] Hrest].
  unfold holding_item. rewrite Hd. simpl. rewrite Ht.
  split; [exact Hf |].
  now rewrite (stored_number_present d "total_pnl" (VNum q) q).
Qed.

(** [holding.get] on the stored value and pnl, as the [else] branch and
    the handler read them. *)
Lemma books_get_value (ap va pa : bool) (E : frame world -> Prop) :
  triple (books ap false false va pa) (holding_get "current_value" (VNum 0))
    (fun v f =>
       books ap false false va pa f /\
       num_of v = Some (stored_number (holding f) "current_value"))
    E.
Proof.
  intros f Hf. pose proof Hf as [[d [Hd [Hc Ht]]] Hrest].
  unfold holding_get. rewrite Hd. simpl.
  split; [exact Hf | now apply stored_number_get].
Qed.

Lemma books_get_pnl (ap va pa : bool) (E : frame world -> Prop) :
  triple (books ap false false va pa) (holding_get "total_pnl" (VNum 0))
    (fun v f =>
       books ap false false va pa f /\
       num_of v = Some (stored_number (holding f) "total_pnl"))
    E.
Proof.
  intros f Hf. pose proof Hf as [[d [Hd [Hc Ht]]] Hrest].
  unfold holding_get. rewrite Hd. simpl.
  split; [exact Hf | now apply stored_number_get].
Qed.

Lemma books_get (ap a b va pa : bool) (k : string) (default : pyval)
    (E : frame world -> Prop) :
  triple (books ap a b va pa) (holding_get k default)
    (fun _ => books ap a b va pa) E.
Proof.
  intros f Hf. pose proof Hf as [[d [Hd _]] _].
  unfold holding_get. rewrite Hd. simpl. exact Hf.
Qed.

(** Adding the holding's value, then its pnl, to the totals. *)
Lemma books_add_value (ap a b pa : bool) (v : pyval)
    (E : frame world -> Prop) :
  triple
    (fun f =>
       books ap a b false pa f /\
       num_of v = Some (stored_number (holding f) "current_value"))
    (add_total_value v)
    (fun _ => books ap a b true pa) E.
Proof.
  intros f [[Hh [Hpos [Hup [tv [tp [Htv [Htp [Ev Ep]]]]]]]] Hv].
  assert (Hadd : py_add (total_value f) v
                 = Ok (VNum (Qred (tv + stored_number (holding f)
                                          "current_value")))).
  { unfold py_add, py_arith. now rewrite Htv, Hv. }
  unfold add_total_value. rewrite Hadd.
  split; [exact Hh | split; [exact Hpos | split; [exact Hup |]]].
  exists (Qred (tv + stored_number (holding f) "current_value")), tp.
  split; [reflexivity | split; [exact Htp |]].
  split; [| exact Ep].
  cbn [holding]. rewrite Qred_correct, Ev. ring.
Qed.

Lemma books_add_pnl (ap a b va : bool) (v : pyval)
    (E : frame world -> Prop) :
  triple
    (fun f =>
       books ap a b va false f /\
       num_of v = Some (stored_number (holding f) "total_pnl"))
    (add_total_pnl v)
    (fun _ => books ap a b va true) E.
Proof.
  intros f [[Hh [Hpos [Hup [tv [tp [Htv [Htp [Ev Ep]]]]]]]] Hv].
  assert (Hadd : py_add (total_pnl f) v
                 = Ok (VNum (Qred (tp + stored_number (holding f)
                                          "total_pnl")))).
  { unfold py_add, py_arith. now rewrite Htp, Hv. }
  unfold add_total_pnl. rewrite Hadd.
  split; [exact Hh | split; [exact Hpos | split; [exact Hup |]]].
  exists tv, (Qred (tp + stored_number (holding f) "total_pnl")).
  split; [exact Htv | split; [reflexivity |]].
  split; [exact Ev |].
  cbn [holding]. rewrite Qred_correct, Ep. ring.
Qed.

Lemma books_append (a b va pa : bool) (E : frame world -> Prop) :
  triple (books false a b va pa) append_holding
    (fun _ => books true a b va pa) E.
Proof.
  intros f [Hh [Hpos [Hup Htot]]]. unfold append_holding. simpl.
  split; [exact Hh | split; [exact Hpos | split; [| exact Htot]]].
  simpl. now rewrite Hup.
Qed.

Ltac entry lemma := eapply triple_bind; [apply lemma | intros ?].

Lemma percentage_books (positive : bool) :
  triple (books false true true false false)
    (if positive then
       tp <~ holding_item "total_pnl" ;;
       q <~ holding_item "quantity" ;;
       a <~ holding_item "avg_price" ;;
       invested <~ lift (py_mul q a) ;;
       ratio <~ lift (py_div tp invested) ;;
       lift (py_mul ratio (VNum 100))
     else ret (VNum 0))
    (fun _ => books false true true false false) open_books.
Proof.
  destruct positive.
  - entry books_item. entry books_item. entry books_item.
    entry (@books_plain pyval). entry (@books_plain pyval).
    apply books_plain.
  - intros f Hf. exact Hf.
Qed.

(** The branch taken when a price was found: it ends with the holding
    appended and counted, or raises before anything was counted. *)
Lemma price_found_books (current_price : pyval) :
  triple open_books (price_found now_isoformat current_price)
    (fun _ => books true true true true true) open_books.
Proof.
  unfold price_found.
  eapply triple_bind;
    [apply books_set_other; [cbn; tauto | discriminate | discriminate]
    | intros ?].
  entry books_item.
  entry (@books_lift pyval). apply triple_pure. intros Hcv.
  destruct (py_arith_number _ _ _ _ Hcv) as [x ->].
  entry books_set_value.
  entry books_item. entry books_item. entry books_item.
  entry (@books_plain pyval).
  entry (@books_lift pyval). apply triple_pure. intros Htp.
  destruct (py_arith_number _ _ _ _ Htp) as [y ->].
  entry books_set_pnl.
  entry books_item.
  entry (@books_plain bool).
  entry percentage_books.
  eapply triple_bind;
    [apply books_set_other; [cbn; tauto | discriminate | discriminate]
    | intros ?].
  entry (@books_in_world string).
  eapply triple_bind;
    [apply books_set_other; [cbn; tauto | discriminate | discriminate]
    | intros ?].
  entry books_item_value.
  entry books_add_value.
  entry books_item_pnl.
  entry books_add_pnl.
  apply books_append.
Qed.

(** Keeping the holding as it stands never fails and counts it once. *)
Lemma keep_existing_books (E : frame world -> Prop) :
  triple open_books (@keep_existing world)
    (fun _ => books true false false true true) E.
Proof.
  unfold keep_existing.
  entry books_append.
  entry books_get_value.
  entry books_add_value.
  entry books_get_pnl.
  apply books_add_pnl.
Qed.

Lemma holding_handler_books (e : exn) (E : frame world -> Prop) :
  triple open_books (@holding_handler world e)
    (fun _ => books true false false true true) E.
Proof.
  unfold holding_handler.
  entry books_get.
  apply keep_existing_books.
Qed.

End Ledger.

Section RefreshBooks.

Variable world : Type.
Variable fyers_access_token : world -> pyval.
Variable fyers_get_current_price : pyval -> M world pyval.
Variable get_cached_fundamentals : pyval -> M world pyval.
Variable get_stock_fundamentals : pyval -> M world pyval.
Variable portfolios_update_one : pyval -> pyval -> M world unit.
Variable now_isoformat : world -> string * world.

Local Abbreviation current_price_of :=
  (_get_current_price world fyers_access_token fyers_get_current_price
     get_cached_fundamentals get_stock_fundamentals).
Local Abbreviation update_holding' :=
  (update_holding world fyers_access_token fyers_get_current_price
     get_cached_fundamentals get_stock_fundamentals now_isoformat).
Local Abbreviation refresh_holding' :=
  (refresh_holding world fyers_access_token fyers_get_current_price
     get_cached_fundamentals get_stock_fundamentals now_isoformat).
Local Abbreviation refresh_holdings' :=
  (refresh_holdings world fyers_access_token fyers_get_current_price
     get_cached_fundamentals get_stock_fundamentals now_isoformat).
Local Abbreviation refresh_prices' :=
  (_refresh_portfolio_prices world fyers_access_token fyers_get_current_price
     get_cached_fundamentals get_stock_fundamentals portfolios_update_one
     now_isoformat).

(** A fundamentals document yields a price only when the price is
    truthy. *)
Lemma fundamentals_price_truthy (data v : pyval) :
  fundamentals_price data = Ok (Some v) -> truthy v = true.
Proof.
  unfold fundamentals_price.
  destruct (truthy data); [| discriminate].
  destruct data as [| b | q | s | l | d]; simpl; try discriminate.
  unfold dict_get_default.
  destruct (dict_get d "current_price") as [p |]; simpl; [| discriminate].
  destruct (truthy p) eqn:T; simpl; [| discriminate].
  intros H. injection H as <-. exact T.
Qed.

(** X19.  The price lookup answers [None] or a truthy value, never a
    falsy price; and a source that raises ends the lookup with [None]:
    the sources after it are not tried. *)
Theorem current_price_is_none_or_truthy (sym : pyval) (w : world) :
  (fst (current_price_of sym w) = VNone \/
   truthy (fst (current_price_of sym w)) = true) /\
  (forall e w',
     truthy (fyers_access_token w) = true ->
     fyers_get_current_price sym w = (Raise e, w') ->
     current_price_of sym w = (VNone, w')) /\
  (forall e w',
     truthy (fyers_access_token w) = false ->
     get_cached_fundamentals sym w = (Raise e, w') ->
     current_price_of sym w = (VNone, w')).
Proof.
  split; [| split].
  - unfold _get_current_price, mbind, ret, lift.
    destruct (truthy (fyers_access_token w)).
    + destruct (fyers_get_current_price sym w) as [[price | e] w1]; simpl;
        [| now left].
      destruct (truthy price) eqn:T; simpl; [now right |].
      destruct (get_cached_fundamentals sym w1) as [[cached | e] w2]; simpl;
        [| now left].
      destruct (fundamentals_price cached) as [[c |] | e] eqn:C; simpl;
        [right; now apply (fundamentals_price_truthy cached) | | now left].
      destruct (get_stock_fundamentals sym w2) as [[fresh | e] w3]; simpl;
        [| now left].
      destruct (fundamentals_price fresh) as [[c |] | e] eqn:F; simpl;
        [right; now apply (fundamentals_price_truthy fresh)
        | now left | now left].
    + destruct (get_cached_fundamentals sym w) as [[cached | e] w2]; simpl;
        [| now left].
      destruct (fundamentals_price cached) as [[c |] | e] eqn:C; simpl;
        [right; now apply (fundamentals_price_truthy cached) | | now left].
      destruct (get_stock_fundamentals sym w2) as [[fresh | e] w3]; simpl;
        [| now left].
      destruct (fundamentals_price fresh) as [[c |] | e] eqn:F; simpl;
        [right; now apply (fundamentals_price_truthy fresh)
        | now left | now left].
  - intros e w' Htoken Hfeed.
    unfold _get_current_price, mbind. now rewrite Htoken, Hfeed.
  - intros e w' Htoken Hcached.
    unfold _get_current_price, mbind. now rewrite Htoken, Hcached.
Qed.

Lemma update_holding_books (kept : list pyval) (origin : pyval)
    (base_value base_pnl : Q) :
  triple (ledger kept origin base_value base_pnl false false false false false)
    update_holding'
    (fun _ => ledger kept origin base_value base_pnl true false false true true)
    (ledger kept origin base_value base_pnl false false false false false).
Proof.
  unfold update_holding.
  eapply triple_bind; [apply books_item | intros sym].
  eapply triple_bind; [apply books_in_world | intros current_price].
  destruct (truthy current_price).
  - eapply triple_weaken;
      [ apply price_found_books
      | intros f Hf; exact Hf
      | intros ? f; apply books_settle
      | intros f Hf; exact Hf ].
  - apply keep_existing_books.
Qed.

(** The loop body on one holding: it completes, appends one state of the
    holding and adds that state's value and pnl to the totals. *)
Lemma refresh_holding_books (h : pyval) (f : frame world) (tv tp : Q) :
  well_formed_holding h ->
  total_value f = VNum tv ->
  total_pnl f = VNum tp ->
  exists f',
    refresh_holding' h f = (Ok tt, f') /\
    ledger (updated_holdings f) h tv tp true false false true true f'.
Proof.
  intros [d [-> [Hcv Htp]]] Htv Htpn.
  assert (Hstart : ledger (updated_holdings f) (VDict d) tv tp
                     false false false false false
                     (with_holding f (VDict d))).
  { split; [exists d; auto |].
    split; [apply same_position_refl |].
    split; [reflexivity |].
    exists tv, tp. simpl. repeat split; auto; ring. }
  pose proof (update_holding_books _ _ _ _ _ Hstart) as Hbody.
  unfold refresh_holding, try_except.
  destruct (update_holding' (with_holding f (VDict d))) as [[[] | e] f1].
  - exists f1. auto.
  - pose proof (holding_handler_books world _ _ _ _ e (fun _ => False)
                  f1 Hbody) as Hh.
    destruct (holding_handler e f1) as [[[] | e'] f2];
      [exists f2; auto | contradiction].
Qed.

Lemma refresh_holdings_books (holdings : list pyval) :
  forall (f : frame world) (tv tp : Q),
    Forall well_formed_holding holdings ->
    total_value f = VNum tv ->
    total_pnl f = VNum tp ->
    exists f' added tv' tp',
      refresh_holdings' holdings f = (Ok tt, f') /\
      updated_holdings f' = (updated_holdings f ++ added)%list /\
      Forall2 same_position holdings added /\
      total_value f' = VNum tv' /\ total_pnl f' = VNum tp' /\
      (tv' == tv + sum_stored "current_value" added)%Q /\
      (tp' == tp + sum_stored "total_pnl" added)%Q.
Proof.
  induction holdings as [| h rest IH]; intros f tv tp Hall Htv Htp; simpl.
  - exists f, [], tv, tp. unfold ret. rewrite app_nil_r.
    repeat split; auto; simpl; ring.
  - inversion Hall as [| ? ? Hh Hrest]; subst.
    destruct (refresh_holding_books h f tv tp Hh Htv Htp)
      as [f1 [Hrun [_ [Hpos [Hup [tv1 [tp1 [Htv1 [Htp1 [Ev1 Ep1]]]]]]]]]].
    destruct (IH f1 tv1 tp1 Hrest Htv1 Htp1)
      as [f2 [added [tv2 [tp2 [Hrun2 [Hup2 [Hsame [Htv2 [Htp2 [Ev2 Ep2]]]]]]]]]].
    exists f2, (holding f1 :: added), tv2, tp2.
    unfold mbind. rewrite Hrun, Hrun2.
    split; [reflexivity |].
    split; [rewrite Hup2, Hup, <- app_assoc; reflexivity |].
    split; [now constructor |].
    split; [exact Htv2 | split; [exact Htp2 |]].
    simpl. rewrite Ev2, Ev1, Ep2, Ep1. split; ring.
Qed.

(** X20.  Over numeric holdings, with a price source that answers with a
    number or with nothing, the loop of [_refresh_portfolio_prices] runs
    to its end, and what it appends is the holdings it was given, one
    state of each and in the same order: every field other than the five
    price fields ([current_price], [current_value], [total_pnl],
    [pnl_percentage], [last_updated]) is as it was.  The hypotheses keep
    the run within numbers, where [*] is multiplication. *)
Theorem refresh_keeps_positions (holdings : list pyval) (f : frame world)
    (tv tp : Q) :
  Forall numeric_holding holdings ->
  numeric_prices current_price_of ->
  total_value f = VNum tv ->
  total_pnl f = VNum tp ->
  exists f' added,
    refresh_holdings' holdings f = (Ok tt, f') /\
    updated_holdings f' = (updated_holdings f ++ added)%list /\
    Forall2 same_position holdings added.
Proof.
  intros Hall _ Htv Htp.
  assert (Hwf : Forall well_formed_holding holdings).
  { eapply Forall_impl; [| exact Hall].
    intros h. apply numeric_holding_well_formed. }
  destruct (refresh_holdings_books holdings f tv tp Hwf Htv Htp)
    as [f' [added [_ [_ [Hrun [Hup [Hsame _]]]]]]].
  exists f', added. auto.
Qed.

(** X21.  Under the same hypotheses a single-user refresh succeeds, and
    its books balance: the result it returns and the document it hands
    to the store carry the same totals, which are the sums of the
    [current_value] and of the [total_pnl] of the holdings in that
    document, and [holdings_updated] is the number of holdings of the
    portfolio. *)
Theorem refreshed_totals_match_holdings (user_id portfolio : pyval)
    (manual : bool) (w : world) (holdings : list pyval) :
  py_get portfolio "holdings" (VList []) = Ok (VList holdings) ->
  Forall numeric_holding holdings ->
  numeric_prices current_price_of ->
  exists (f : frame world) t w1 tv tp,
    refresh_prices' user_id portfolio manual w
      = (success_result f t,
         _update_portfolio world portfolios_update_one user_id
           (updated_portfolio user_id f t manual) w1) /\
    List.length (updated_holdings f) = List.length holdings /\
    total_value f = VNum tv /\ total_pnl f = VNum tp /\
    (tv == sum_stored "current_value" (updated_holdings f))%Q /\
    (tp == sum_stored "total_pnl" (updated_holdings f))%Q.
Proof.
  intros Hget Hall _.
  assert (Hwf : Forall well_formed_holding holdings).
  { eapply Forall_impl; [| exact Hall].
    intros h. apply numeric_holding_well_formed. }
  destruct (refresh_holdings_books holdings (initial_frame w) 0 0 Hwf
              eq_refl eq_refl)
    as [f [added [tv [tp [Hrun [Hup [Hsame [Htv [Htp [Ev Ep]]]]]]]]]].
  simpl in Hup.
  unfold _refresh_portfolio_prices, mbind, lift.
  rewrite Hget. simpl. rewrite Hrun.
  destruct (now_isoformat (env f)) as [t w1].
  exists f, t, w1, tv, tp.
  split; [reflexivity |].
  rewrite Hup.
  split; [symmetry; exact (Forall2_length Hsame) |].
  split; [exact Htv | split; [exact Htp |]].
  rewrite Ev, Ep. split; ring.
Qed.

End RefreshBooks.

Section NumericBatch.

Variable world : Type.
Variable fyers_access_token : world -> pyval.
Variable fyers_get_current_price : pyval -> M world pyval.
Variable get_cached_fundamentals : pyval -> M world pyval.
Variable get_stock_fundamentals : pyval -> M world pyval.
Variable portfolios_find_one : pyval -> M world pyval.
Variable portfolios_find : M world (list pyval).
Variable portfolios_update_one : pyval -> pyval -> M world unit.
Variable system_metrics_update_one : M world unit.
Variable now_isoformat : world -> string * world.

Local Abbreviation current_price_of :=
  (_get_current_price world fyers_access_token fyers_get_current_price
     get_cached_fundamentals get_stock_fundamentals).
Local Abbreviation refresh_user' :=
  (refresh_user world fyers_access_token fyers_get_current_price
     get_cached_fundamentals get_stock_fundamentals portfolios_find_one
     portfolios_update_one now_isoformat).
Local Abbreviation refresh_users' :=
  (refresh_users world fyers_access_token fyers_get_current_price
     get_cached_fundamentals get_stock_fundamentals portfolios_find_one
     portfolios_update_one now_isoformat).
Local Abbreviation lookups' :=
  (lookups world fyers_access_token fyers_get_current_price
     get_cached_fundamentals get_stock_fundamentals portfolios_find_one
     portfolios_update_one now_isoformat).
Local Abbreviation get_portfolio' :=
  (_get_user_portfolio world portfolios_find_one).

(** What the batch asks of a lookup: no document, or a numeric
    portfolio. *)
Local Abbreviation workable :=
  (fun l : pyval * pyval =>
     truthy (snd l) = false \/ numeric_portfolio (snd l)).

Lemma refresh_user_numeric (user_id : pyval) (w : world) :
  workable (user_id, fst (get_portfolio' user_id w)) ->
  fst (refresh_user' user_id w)
  = if truthy (fst (get_portfolio' user_id w)) then Refreshed
    else NoPortfolio.
Proof.
  unfold refresh_user.
  destruct (get_portfolio' user_id w) as [doc w1]; simpl.
  intros Hdoc. destruct (truthy doc) eqn:T; [| reflexivity].
  destruct Hdoc as [Hf | [holdings [Hget Hall]]]; [discriminate |].
  assert (Hwf : Forall well_formed_holding holdings).
  { eapply Forall_impl; [| exact Hall].
    intros h. apply numeric_holding_well_formed. }
  pose proof (refresh_prices_succeeds world fyers_access_token
                fyers_get_current_price get_cached_fundamentals
                get_stock_fundamentals portfolios_update_one now_isoformat
                user_id doc false w1 holdings Hget Hwf) as Hs.
  destruct (_refresh_portfolio_prices _ _ _ _ _ _ _ _ _ _ _) as [res w2].
  simpl in Hs. rewrite Hs. reflexivity.
Qed.

Lemma refresh_users_numeric (users : list pyval) :
  forall r w,
    Forall workable (lookups' users w) ->
    successful (fst (refresh_users' users r w))
      = (successful r + List.length (found (lookups' users w)))%nat /\
    failed (fst (refresh_users' users r w)) = failed r /\
    errors (fst (refresh_users' users r w)) = errors r /\
    total_users (fst (refresh_users' users r w)) = total_users r.
Proof.
  induction users as [| u rest IH]; intros r w Hall; simpl.
  - repeat split. lia.
  - simpl in Hall. inversion Hall as [| ? ? Hu Hrest]; subst.
    pose proof (refresh_user_numeric u w Hu) as Hout.
    destruct (refresh_user' u w) as [o w1] eqn:Hstep; simpl in *.
    destruct (IH (record_outcome u o r) w1 Hrest) as [Hs [Hf [He Ht]]].
    rewrite Hs, Hf, He, Ht. unfold found. simpl.
    destruct (truthy (fst (get_portfolio' u w))); subst o; simpl;
      repeat split; lia.
Qed.

(** X22.  A batch in which every lookup returns no document or a numeric
    portfolio, with a price source that answers with a number or with
    nothing, has no failure: [failed] is 0, [errors] is empty, and
    [successful] is the number of users whose portfolio was found,
    whatever the store does with the writes. *)
Theorem numeric_batch_has_no_failures (w : world) :
  let users := fst (_get_all_users_with_portfolios world portfolios_find w) in
  let w1 := snd (_get_all_users_with_portfolios world portfolios_find w) in
  let r :=
    fst (refresh_all_portfolios world fyers_access_token
           fyers_get_current_price get_cached_fundamentals
           get_stock_fundamentals portfolios_find_one portfolios_find
           portfolios_update_one system_metrics_update_one now_isoformat w) in
  numeric_prices current_price_of ->
  Forall workable (lookups' users w1) ->
  failed r = 0%nat /\
  errors r = [] /\
  successful r = List.length (found (lookups' users w1)) /\
  total_users r = List.length users.
Proof.
  unfold refresh_all_portfolios.
  destruct (_get_all_users_with_portfolios world portfolios_find w)
    as [users w1]; simpl.
  intros _ Hall.
  pose proof (refresh_users_numeric users
                (mkRunResult (List.length users) 0 0 []) w1 Hall) as H.
  destruct (refresh_users' users (mkRunResult (List.length users) 0 0 []) w1)
    as [r w2]; simpl in *.
  tauto.
Qed.

End NumericBatch.

(** ** The fixed-price world *)

Lemma refresh_keeps_positions_witness :
  exists f' added,
    listed_refresh_holdings listed_holdings (initial_frame 0%nat)
      = (Ok tt, f') /\
    updated_holdings f'
      = (updated_holdings (initial_frame 0%nat) ++ added)%list /\
    Forall2 same_position listed_holdings added.
Proof.
  apply (refresh_keeps_positions nat listed_token listed_feed
           listed_no_fundamentals listed_no_fundamentals listed_now
           listed_holdings (initial_frame 0%nat) 0 0).
  - exact listed_holdings_numeric.
  - exact listed_prices_numeric.
  - reflexivity.
  - reflexivity.
Defined.

Lemma refreshed_totals_match_holdings_witness :
  exists (f : frame nat) t w1 tv tp,
    listed_refresh_portfolio_prices (VStr "u1") listed_portfolio true 0%nat
      = (success_result f t,
         _update_portfolio nat listed_update_one (VStr "u1")
           (updated_portfolio (VStr "u1") f t true) w1) /\
    List.length (updated_holdings f) = List.length listed_holdings /\
    total_value f = VNum tv /\ total_pnl f = VNum tp /\
    (tv == sum_stored "current_value" (updated_holdings f))%Q /\
    (tp == sum_stored "total_pnl" (updated_holdings f))%Q.
Proof.
  apply (refreshed_totals_match_holdings nat listed_token listed_feed
           listed_no_fundamentals listed_no_fundamentals listed_update_one
           listed_now (VStr "u1") listed_portfolio true 0%nat
           listed_holdings).
  - reflexivity.
  - exact listed_holdings_numeric.
  - exact listed_prices_numeric.
Defined.

Lemma numeric_batch_has_no_failures_witness :
  failed (fst (listed_refresh_all_portfolios 0%nat)) = 0%nat /\
  errors (fst (listed_refresh_all_portfolios 0%nat)) = [] /\
  successful (fst (listed_refresh_all_portfolios 0%nat))
    = List.length
        (found
           (listed_lookups
              (fst (_get_all_users_with_portfolios nat listed_find 0%nat))
              (snd (_get_all_users_with_portfolios nat listed_find 0%nat)))) /\
  total_users (fst (listed_refresh_all_portfolios 0%nat))
    = List.length
        (fst (_get_all_users_with_portfolios nat listed_find 0%nat)).
Proof.
  apply (numeric_batch_has_no_failures nat listed_token listed_feed
           listed_no_fundamentals listed_no_fundamentals listed_find_one
           listed_find listed_update_one listed_metric listed_now 0%nat).
  - exact listed_prices_numeric.
  - assert (E : lookups nat listed_token listed_feed listed_no_fundamentals
                  listed_no_fundamentals listed_find_one listed_update_one
                  listed_now
                  (fst (_get_all_users_with_portfolios nat listed_find 0%nat))
                  (snd (_get_all_users_with_portfolios nat listed_find 0%nat))
                = [(VStr "u1", listed_portfolio); (VStr "u2", VNone)])
      by reflexivity.
    rewrite E.
    constructor; [| constructor; [now left | constructor]].
    right. exists listed_holdings.
    split; [reflexivity | exact listed_holdings_numeric].
Defined.

(** ** The revaluation of a priced holding *)

Lemma mbind_ok {S A B : Type} (m : M S A) (k : A -> M S B) (s s' : S) (a : A) :
  m s = (Ok a, s') -> mbind m k s = k a s'.
Proof. intros H. unfold mbind. now rewrite H. Qed.

Lemma holding_item_run {world : Type} (f : frame world) (d : dict pyval)
    (k : string) (v : pyval) :
  holding f = VDict d -> dict_get d k = Some v ->
  holding_item k f = (Ok v, f).
Proof. intros Hd Hk. unfold holding_item. rewrite Hd. simpl. now rewrite Hk. Qed.

Lemma holding_set_run {world : Type} (f : frame world) (d : dict pyval)
    (k : string) (v : pyval) :
  holding f = VDict d ->
  holding_set k v f = (Ok tt, with_holding f (VDict (dict_set d k v))).
Proof. intros Hd. unfold holding_set. now rewrite Hd. Qed.

Section Revaluation.

Variable world : Type.
Variable fyers_access_token : world -> pyval.
Variable fyers_get_current_price : pyval -> M world pyval.
Variable get_cached_fundamentals : pyval -> M world pyval.
Variable get_stock_fundamentals : pyval -> M world pyval.
Variable now_isoformat : world -> string * world.

Local Abbreviation current_price_of :=
  (_get_current_price world fyers_access_token fyers_get_current_price
     get_cached_fundamentals get_stock_fundamentals).
Local Abbreviation refresh_holding' :=
  (refresh_holding world fyers_access_token fyers_get_current_price
     get_cached_fundamentals get_stock_fundamentals now_isoformat).

Ltac lookup :=
  repeat first [ rewrite dict_get_set_same
               | rewrite dict_get_set_other by discriminate ];
  try eassumption; try reflexivity.

Ltac run_item :=
  eapply eq_trans;
  [ apply mbind_ok; eapply holding_item_run; [reflexivity | lookup] |];
  cbv beta.

Ltac run_set :=
  eapply eq_trans;
  [ apply mbind_ok; eapply holding_set_run; reflexivity |];
  cbv beta.

Ltac run_lift H :=
  eapply eq_trans; [ apply mbind_ok; unfold lift; rewrite H; reflexivity |];
  cbv beta.

(** The percentage, once the pnl has been written. *)
Lemma percentage_run (positive : bool) (f : frame world) (d : dict pyval)
    (quantity avg_price invested pnl pct : pyval) :
  holding f = VDict d ->
  dict_get d "total_pnl" = Some pnl ->
  dict_get d "quantity" = Some quantity ->
  dict_get d "avg_price" = Some avg_price ->
  py_mul quantity avg_price = Ok invested ->
  (if positive
   then exists ratio,
          py_div pnl invested = Ok ratio /\
          py_mul ratio (VNum 100) = Ok pct
   else pct = VNum 0) ->
  (if positive then
     tp <~ holding_item "total_pnl" ;;
     q <~ holding_item "quantity" ;;
     a <~ holding_item "avg_price" ;;
     invested <~ lift (py_mul q a) ;;
     ratio <~ lift (py_div tp invested) ;;
     lift (py_mul ratio (VNum 100))
   else ret (VNum 0)) f
  = (Ok pct, f).
Proof.
  intros Hd Hpnl Hq Ha Hinv Hpct.
  destruct positive.
  - destruct Hpct as [ratio [Hratio Hhundred]].
    rewrite (mbind_ok _ _ f f pnl) by (now apply holding_item_run with d).
    rewrite (mbind_ok _ _ f f quantity) by (now apply holding_item_run with d).
    rewrite (mbind_ok _ _ f f avg_price)
      by (now apply holding_item_run with d).
    rewrite (mbind_ok _ _ f f invested) by (unfold lift; now rewrite Hinv).
    rewrite (mbind_ok _ _ f f ratio) by (unfold lift; now rewrite Hratio).
    unfold lift. now rewrite Hhundred.
  - now rewrite Hpct.
Qed.

(** The branch taken when a price was found, for a holding on which each
    operation of the branch has a result. *)
Lemma price_found_run (f : frame world) (d : dict pyval)
    (quantity avg_price price cv invested pnl pct tv' tp' : pyval)
    (positive : bool) :
  holding f = VDict d ->
  dict_get d "quantity" = Some quantity ->
  dict_get d "avg_price" = Some avg_price ->
  py_mul quantity price = Ok cv ->
  py_mul quantity avg_price = Ok invested ->
  py_sub cv invested = Ok pnl ->
  py_gt avg_price (VNum 0) = Ok positive ->
  (if positive
   then exists ratio,
          py_div pnl invested = Ok ratio /\
          py_mul ratio (VNum 100) = Ok pct
   else pct = VNum 0) ->
  py_add (total_value f) cv = Ok tv' ->
  py_add (total_pnl f) pnl = Ok tp' ->
  let d' :=
    dict_set
      (dict_set
         (dict_set
            (dict_set (dict_set d "current_price" price)
               "current_value" cv)
            "total_pnl" pnl)
         "pnl_percentage" pct)
      "last_updated" (VStr (fst (now_isoformat (env f)))) in
  price_found now_isoformat price f
  = (Ok tt,
     mkFrame (VDict d') (updated_holdings f ++ [VDict d']) tv' tp'
       (snd (now_isoformat (env f)))).
Proof.
  intros Hd Hq Ha Hcv Hinv Hpnl Hpos Hpct Htv Htp d'. subst d'.
  destruct f as [h kept tvv tpv w]. simpl in Hd, Htv, Htp. subst h.
  cbn [env updated_holdings].
  destruct (now_isoformat w) as [t0 w0] eqn:Hnow.
  cbn [fst snd].
  unfold price_found.
  run_set. run_item. run_lift Hcv. run_set.
  run_item. run_item. run_item. run_lift Hinv. run_lift Hpnl. run_set.
  run_item. run_lift Hpos.
  eapply eq_trans.
  { apply mbind_ok.
    eapply percentage_run;
      [reflexivity | lookup | lookup | lookup | exact Hinv | exact Hpct]. }
  cbv beta.
  run_set.
  eapply eq_trans;
    [ apply mbind_ok; unfold in_world; cbn [env with_holding];
      rewrite Hnow; reflexivity |].
  cbv beta.
  run_set. run_item.
  eapply eq_trans;
    [ apply mbind_ok; unfold add_total_value;
      cbn [total_value with_holding]; rewrite Htv; reflexivity |].
  cbv beta.
  run_item.
  eapply eq_trans;
    [ apply mbind_ok; unfold add_total_pnl;
      cbn [total_pnl with_holding]; rewrite Htp; reflexivity |].
  cbv beta.
  reflexivity.
Qed.

(** X23.  The revaluation of a holding for which a price is found, in
    terms of the operations the loop body makes.  When the products
    [quantity * price] and [quantity * avg_price], their difference, the
    test [avg_price > 0], the percentage (the quotient by the second
    product, times 100, when the test holds, and 0 otherwise) and the two
    additions to the totals all have a result, the body completes without
    reaching its handler: the holding is appended once, with the price,
    the first product as [current_value], the difference as [total_pnl],
    the percentage and the reading of the clock, every other field as it
    was; and the totals are the results of the additions. *)
Theorem priced_holding_is_revalued (f : frame world) (d : dict pyval)
    (sym quantity avg_price price cv invested pnl pct tv' tp' : pyval)
    (positive : bool) :
  dict_get d "symbol" = Some sym ->
  dict_get d "quantity" = Some quantity ->
  dict_get d "avg_price" = Some avg_price ->
  fst (current_price_of sym (env f)) = price ->
  truthy price = true ->
  py_mul quantity price = Ok cv ->
  py_mul quantity avg_price = Ok invested ->
  py_sub cv invested = Ok pnl ->
  py_gt avg_price (VNum 0) = Ok positive ->
  (if positive
   then exists ratio,
          py_div pnl invested = Ok ratio /\
          py_mul ratio (VNum 100) = Ok pct
   else pct = VNum 0) ->
  py_add (total_value f) cv = Ok tv' ->
  py_add (total_pnl f) pnl = Ok tp' ->
  exists d',
    refresh_holding' (VDict d) f
      = (Ok tt,
         mkFrame (VDict d') (updated_holdings f ++ [VDict d']) tv' tp'
           (snd (now_isoformat (snd (current_price_of sym (env f)))))) /\
    dict_get d' "current_price" = Some price /\
    dict_get d' "current_value" = Some cv /\
    dict_get d' "total_pnl" = Some pnl /\
    dict_get d' "pnl_percentage" = Some pct /\
    dict_get d' "last_updated"
      = Some (VStr (fst (now_isoformat
                           (snd (current_price_of sym (env f)))))) /\
    (forall k, ~ In k written_fields -> dict_get d' k = dict_get d k).
Proof.
  intros Hsym Hq Ha Hprice Htruthy Hcv Hinv Hpnl Hpos Hpct Htv Htp.
  exists (dict_set
            (dict_set
               (dict_set
                  (dict_set (dict_set d "current_price" price)
                     "current_value" cv)
                  "total_pnl" pnl)
               "pnl_percentage" pct)
            "last_updated"
            (VStr (fst (now_isoformat (snd (current_price_of sym (env f))))))).
  split.
  - unfold refresh_holding, try_except, update_holding.
    rewrite (mbind_ok _ _ (with_holding f (VDict d)) (with_holding f (VDict d))
               sym)
      by (now apply holding_item_run with d).
    unfold mbind, in_world. cbn [env with_holding].
    destruct (current_price_of sym (env f)) as [price' w1].
    cbn [fst snd] in *. subst price'.
    rewrite Htruthy.
    cbn [holding updated_holdings total_value total_pnl with_holding].
    rewrite (price_found_run
               (mkFrame (VDict d) (updated_holdings f) (total_value f)
                  (total_pnl f) w1)
               d quantity avg_price price cv invested pnl pct tv' tp' positive
               eq_refl Hq Ha Hcv Hinv Hpnl Hpos Hpct Htv Htp).
    reflexivity.
  - split; [lookup |]. split; [lookup |]. split; [lookup |].
    split; [lookup |]. split; [lookup |].
    intros k Hout.
    rewrite !dict_get_set_other; [reflexivity | | | | |];
      intros <-; apply Hout; cbn; tauto.
Qed.

End Revaluation.

(** The theorem above at a listed holding: two units bought at 1000 and
    priced at 1500. *)
Lemma priced_holding_is_revalued_witness :
  exists d',
    listed_refresh_holding (VDict infy_fields) (initial_frame 0%nat)
      = (Ok tt,
         mkFrame (VDict d')
           (updated_holdings (initial_frame 0%nat) ++ [VDict d'])
           (VNum 3000) (VNum 1000)
           (snd (listed_now
                   (snd (listed_current_price (VStr "INFY")
                           (env (initial_frame 0%nat))))))) /\
    dict_get d' "current_price" = Some (VNum 1500) /\
    dict_get d' "current_value" = Some (VNum 3000) /\
    dict_get d' "total_pnl" = Some (VNum 1000) /\
    dict_get d' "pnl_percentage" = Some (VNum 50) /\
    dict_get d' "last_updated"
      = Some (VStr (fst (listed_now
                           (snd (listed_current_price (VStr "INFY")
                                   (env (initial_frame 0%nat))))))) /\
    (forall k, ~ In k written_fields ->
       dict_get d' k = dict_get infy_fields k).
Proof.
  apply (priced_holding_is_revalued nat listed_token listed_feed
           listed_no_fundamentals listed_no_fundamentals listed_now
           (initial_frame 0%nat) infy_fields (VStr "INFY") (VNum 2)
           (VNum 1000) (VNum 1500) (VNum 3000) (VNum 2000) (VNum 1000)
           (VNum 50) (VNum 3000) (VNum 1000) true).
  - reflexivity.
  - reflexivity.
  - reflexivity.
  - reflexivity.
  - reflexivity.
  - reflexivity.
  - reflexivity.
  - reflexivity.
  - reflexivity.
  - exists (VNum (1 # 2)). split; reflexivity.
  - reflexivity.
  - reflexivity.
Defined.

(** ** The enumeration of the users *)

Section Enumeration.

Variable world : Type.
Variable fyers_access_token : world -> pyval.
Variable fyers_get_current_price : pyval -> M world pyval.
Variable get_cached_fundamentals : pyval -> M world pyval.
Variable get_stock_fundamentals : pyval -> M world pyval.
Variable portfolios_find_one : pyval -> M world pyval.
Variable portfolios_find : M world (list pyval).
Variable portfolios_update_one : pyval -> pyval -> M world unit.
Variable system_metrics_update_one : M world unit.
Variable now_isoformat : world -> string * world.

Lemma user_ids_all (docs : list pyval) :
  Forall (fun p => exists u, py_getitem p "user_id" = Ok u) docs ->
  exists users,
    user_ids docs = Ok users /\
    Forall2 (fun p u => py_getitem p "user_id" = Ok u) docs users.
Proof.
  induction docs as [| p rest IH]; intros Hall; simpl.
  - exists []. split; [reflexivity | constructor].
  - inversion Hall as [| ? ? [u Hu] Hrest]; subst.
    destruct (IH Hrest) as [users [Hids Hrel]].
    exists (u :: users). rewrite Hu. simpl. rewrite Hids. simpl.
    split; [reflexivity | now constructor].
Qed.

Lemma user_ids_bad (docs : list pyval) :
  Exists (fun p => forall u, py_getitem p "user_id" <> Ok u) docs ->
  exists e, user_ids docs = Raise e.
Proof.
  induction docs as [| p rest IH]; intros Hex; simpl.
  - inversion Hex.
  - destruct (py_getitem p "user_id") as [u | e] eqn:Hp; simpl;
      [| now exists e].
    inversion Hex as [? ? Hbad | ? ? Hlater]; subst.
    + now contradiction (Hbad u).
    + destruct (IH Hlater) as [e ->]. simpl. now exists e.
Qed.

(** X24.  The users of a batch are the [user_id]s of the documents the
    store enumerates, in order; but a single document that has no
    [user_id] voids the enumeration: the list of users is empty, and the
    batch that follows counts no user at all, neither successful nor
    failed. *)
Theorem bad_document_empties_enumeration (w w1 : world) (docs : list pyval) :
  portfolios_find w = (Ok docs, w1) ->
  (Forall (fun p => exists u, py_getitem p "user_id" = Ok u) docs ->
   exists users,
     _get_all_users_with_portfolios world portfolios_find w = (users, w1) /\
     Forall2 (fun p u => py_getitem p "user_id" = Ok u) docs users) /\
  (Exists (fun p => forall u, py_getitem p "user_id" <> Ok u) docs ->
   _get_all_users_with_portfolios world portfolios_find w = ([], w1) /\
   fst (refresh_all_portfolios world fyers_access_token
          fyers_get_current_price get_cached_fundamentals
          get_stock_fundamentals portfolios_find_one portfolios_find
          portfolios_update_one system_metrics_update_one now_isoformat w)
   = mkRunResult 0 0 0 []).
Proof.
  intros Hfind. split.
  - intros Hall. destruct (user_ids_all docs Hall) as [users [Hids Hrel]].
    exists users. split; [| exact Hrel].
    unfold _get_all_users_with_portfolios, mbind, lift.
    now rewrite Hfind, Hids.
  - intros Hex. destruct (user_ids_bad docs Hex) as [e Hids].
    assert (Husers : _get_all_users_with_portfolios world portfolios_find w
                     = ([], w1)).
    { unfold _get_all_users_with_portfolios, mbind, lift.
      now rewrite Hfind, Hids. }
    split; [exact Husers |].
    unfold refresh_all_portfolios. rewrite Husers. reflexivity.
Qed.

End Enumeration.

Lemma bad_document_empties_enumeration_witness :
  _get_all_users_with_portfolios sim sim_find store_with_stray
    = ([], store_with_stray) /\
  fst (sim_refresh_all_portfolios store_with_stray) = mkRunResult 0 0 0 [].
Proof.
  apply (proj2 (bad_document_empties_enumeration sim sim_token
                  sim_feed_price sim_no_fundamentals sim_no_fundamentals
                  sim_find_one sim_find sim_update_one sim_update_metric
                  sim_now store_with_stray store_with_stray
                  (docs store_with_stray) eq_refl)).
  apply Exists_cons_tl. apply Exists_cons_hd.
  intros u H. discriminate H.
Defined.

(** ** The manual refresh *)

Section ManualRefresh.

Variable world : Type.
Variable fyers_access_token : world -> pyval.
Variable fyers_get_current_price : pyval -> M world pyval.
Variable get_cached_fundamentals : pyval -> M world pyval.
Variable get_stock_fundamentals : pyval -> M world pyval.
Variable portfolios_find_one : pyval -> M world pyval.
Variable portfolios_update_one : pyval -> pyval -> M world unit.
Variable refresh_logs_insert_one : pyval -> M world unit.
Variable now_isoformat : world -> string * world.

Local Abbreviation current_price_of :=
  (_get_current_price world fyers_access_token fyers_get_current_price
     get_cached_fundamentals get_stock_fundamentals).
Local Abbreviation get_portfolio' :=
  (_get_user_portfolio world portfolios_find_one).
Local Abbreviation refresh_prices' :=
  (_refresh_portfolio_prices world fyers_access_token fyers_get_current_price
     get_cached_fundamentals get_stock_fundamentals portfolios_update_one
     now_isoformat).
Local Abbreviation manual_with log :=
  (manual_refresh_portfolio world fyers_access_token fyers_get_current_price
     get_cached_fundamentals get_stock_fundamentals portfolios_find_one
     portfolios_update_one log now_isoformat).

Lemma refresh_prices_result (user_id portfolio : pyval) (manual : bool)
    (w : world) (holdings : list pyval) :
  py_get portfolio "holdings" (VList []) = Ok (VList holdings) ->
  Forall well_formed_holding holdings ->
  exists (f : frame world) t,
    fst (refresh_prices' user_id portfolio manual w) = success_result f t /\
    List.length (updated_holdings f) = List.length holdings.
Proof.
  intros Hget Hall.
  destruct (refresh_holdings_complete world fyers_access_token
              fyers_get_current_price get_cached_fundamentals
              get_stock_fundamentals now_isoformat holdings
              (initial_frame w) Hall)
    as [f [Hrun [Hlen _]]]; try apply VNum_is_number.
  unfold _refresh_portfolio_prices, mbind, lift.
  rewrite Hget. simpl. rewrite Hrun.
  destruct (now_isoformat (env f)) as [t w1].
  exists f, t. split; [reflexivity | exact Hlen].
Qed.

(** X25.  What a manual refresh answers.  When the lookup finds nothing,
    and also when the lookup itself fails, the answer is the error [No
    portfolio found for user] and nothing but the lookup has run.  The
    answer never depends on the log of refreshes, whose write may fail
    unnoticed.  For a numeric portfolio, with a price source that answers
    with a number or with nothing, the answer is a success that counts
    every holding of the portfolio. *)
Theorem manual_refresh_outcomes (user_id : pyval) (w : world) :
  (truthy (fst (get_portfolio' user_id w)) = false ->
   manual_with refresh_logs_insert_one user_id w
   = (VDict [("error", VStr "No portfolio found for user")],
      snd (get_portfolio' user_id w))) /\
  (forall e w1,
     portfolios_find_one user_id w = (Raise e, w1) ->
     manual_with refresh_logs_insert_one user_id w
     = (VDict [("error", VStr "No portfolio found for user")], w1)) /\
  (forall other_log,
     fst (manual_with refresh_logs_insert_one user_id w)
     = fst (manual_with other_log user_id w)) /\
  (forall holdings,
     truthy (fst (get_portfolio' user_id w)) = true ->
     py_get (fst (get_portfolio' user_id w)) "holdings" (VList [])
       = Ok (VList holdings) ->
     Forall numeric_holding holdings ->
     numeric_prices current_price_of ->
     py_get (fst (manual_with refresh_logs_insert_one user_id w))
       "success" VNone = Ok (VBool true) /\
     py_get (fst (manual_with refresh_logs_insert_one user_id w))
       "holdings_updated" VNone
     = Ok (VNum (inject_Z (Z.of_nat (List.length holdings))))).
Proof.
  split; [| split; [| split]].
  - unfold manual_refresh_portfolio.
    destruct (get_portfolio' user_id w) as [portfolio w1]; simpl.
    now intros ->.
  - intros e w1 Hfind. unfold manual_refresh_portfolio, _get_user_portfolio.
    now rewrite Hfind.
  - intros other_log. unfold manual_refresh_portfolio.
    destruct (get_portfolio' user_id w) as [portfolio w1].
    destruct (truthy portfolio); [| reflexivity].
    now destruct (_refresh_portfolio_prices _ _ _ _ _ _ _ _ _ _ _).
  - intros holdings Htruthy Hget Hall _.
    assert (Hwf : Forall well_formed_holding holdings).
    { eapply Forall_impl; [| exact Hall].
      intros h. apply numeric_holding_well_formed. }
    unfold manual_refresh_portfolio.
    destruct (get_portfolio' user_id w) as [portfolio w1].
    cbn [fst snd] in *. rewrite Htruthy.
    destruct (refresh_prices_result user_id portfolio true w1 holdings
                Hget Hwf) as [f [t [Hres Hlen]]].
    destruct (refresh_prices' user_id portfolio true w1) as [res w2].
    cbn [fst] in *. subst res.
    split; [reflexivity |].
    unfold success_result. cbn. now rewrite Hlen.
Qed.

End ManualRefresh.
